(** * Collectors-App: client screens, auth store and the item/collection contract

    A shallow embedding of the TypeScript sources of the mobile client
    (expo-router screens and the zustand auth store) together with the
    properties the specification states about them.

    Conventions of the embedding:
    - a JavaScript string is a Rocq [string]; its characters stand for the
      code units 0..255 (ASCII and Latin-1), on which [toLowerCase] works
      unit by unit. Outside this range lower-casing depends on the
      neighbouring units and can change the length of a string, so the
      search filter is also given over an arbitrary alphabet with an
      arbitrary lower-casing ([SearchFilter]), and what is stated about the
      search for every text is stated there;
    - [useState] cells of a screen are the fields of a record, a handler is
      a function from that record (and from what the awaited call returns)
      to the new record and to the list of effects it performed;
    - [AsyncStorage] is a finite map from keys to strings together with a
      schedule of the calls that are going to reject;
    - numbers read by [parseFloat] are kept as exact signed decimals and
      are not rounded to doubles: what is stated about them is limited to
      what the rounding does not change (whether a text is read as [NaN], and
      the sign of a plain numeral too short to be rounded to zero or to an
      infinity);
    - the server is not among the sources: the operations of it that the
      screens call are modelled from the specification, in [Backend]. *)

From Stdlib Require Import String Ascii List NArith ZArith Bool Lia.
From stdpp Require Import gmap strings list fin_maps.
Import ListNotations.
Local Open Scope string_scope.

(** ** JavaScript primitives used by the screens *)

Module JS.

(** Truthiness of a string: only the empty string is falsy. *)
Definition truthy (s : string) : bool :=
  match s with
  | EmptyString => false
  | String _ _ => true
  end.

(** [a || b] on strings. *)
Definition orElse (a b : string) : string := if truthy a then a else b.

(** Lower-casing of one code unit: A-Z and the Latin-1 capitals
    (U+00C0..U+00DE without the multiplication sign U+00D7) move up by 32. *)
Definition toLowerChar (c : ascii) : ascii :=
  let n := N_of_ascii c in
  if ((65 <=? n) && (n <=? 90))%N
     || ((192 <=? n) && (n <=? 222) && negb (n =? 215))%N
  then ascii_of_N (n + 32) else c.

(** [String.prototype.toLowerCase], on strings of code units 0..255: each
    unit is mapped by itself. (On other strings the library function is not
    such a map: a capital sigma is lower-cased according to its position in
    the word, and U+0130 becomes two units.) *)
Fixpoint toLowerCase (s : string) : string :=
  match s with
  | EmptyString => EmptyString
  | String c s' => String (toLowerChar c) (toLowerCase s')
  end.

(** [s.startsWith(q)]. *)
Fixpoint startsWith (s q : string) {struct q} : bool :=
  match q with
  | EmptyString => true
  | String b q' =>
      match s with
      | EmptyString => false
      | String a s' => if ascii_dec a b then startsWith s' q' else false
      end
  end.

(** [String.prototype.includes]: [q] occurs in [s] at some position. *)
Fixpoint includes (s q : string) : bool :=
  startsWith s q ||
  match s with
  | EmptyString => false
  | String _ s' => includes s' q
  end.

(** *** Numbers

    [parseFloat] reads a decimal literal; its value is kept exactly, as
    sign, mantissa and decimal exponent: [Dec neg m e] stands for
    (-1)^neg * m * 10^e. The double the program computes with is the
    nearest one to that value: it has the same sign, and is an infinity or a
    zero only for numerals of some three hundred digits or with a large
    exponent. *)
Inductive number : Type :=
| NaN
| Infinity (neg : bool)
| Dec (neg : bool) (mantissa : N) (exp10 : Z).

(** The literal [0]. *)
Definition zero : number := Dec false 0 0.

(** Truthiness of a number: [NaN], [0] and [-0] are falsy. *)
Definition truthyNum (x : number) : bool :=
  match x with
  | NaN => false
  | Infinity _ => true
  | Dec _ m _ => negb (m =? 0)%N
  end.

(** [a || b] on numbers. *)
Definition orNum (a b : number) : number := if truthyNum a then a else b.

(** [x < 0]. *)
Definition isNegative (x : number) : bool :=
  match x with
  | NaN => false
  | Infinity neg => neg
  | Dec neg m _ => neg && negb (m =? 0)%N
  end.

(** [x >= 0]. *)
Definition nonNegative (x : number) : bool :=
  match x with
  | NaN => false
  | Infinity neg => negb neg
  | Dec neg m _ => negb neg || (m =? 0)%N
  end.

(** White space skipped by [parseFloat]: TAB, LF, VT, FF, CR, SP, NBSP. *)
Definition isWhiteSpace (c : ascii) : bool :=
  let n := N_of_ascii c in
  (((9 <=? n) && (n <=? 13)) || (n =? 32) || (n =? 160))%N.

Fixpoint trimStart (s : string) : string :=
  match s with
  | EmptyString => EmptyString
  | String c s' => if isWhiteSpace c then trimStart s' else s
  end.

Definition digitOf (c : ascii) : option N :=
  let n := N_of_ascii c in
  if ((48 <=? n) && (n <=? 57))%N then Some (n - 48)%N else None.

(** Longest run of decimal digits at the head of [s]: the value read on
    top of [acc], how many digits were read on top of [count], the rest. *)
Fixpoint readDigits (s : string) (acc : N) (count : nat) : N * nat * string :=
  match s with
  | EmptyString => (acc, count, s)
  | String c s' =>
      match digitOf c with
      | Some d => readDigits s' (10 * acc + d)%N (S count)
      | None => (acc, count, s)
      end
  end.

(** Digits of a SignedInteger after its sign; [None] when there is none. *)
Definition readInteger (s : string) : option Z :=
  let '(v, k, _) := readDigits s 0%N 0%nat in
  match k with
  | O => None
  | S _ => Some (Z.of_N v)
  end.

(** ExponentPart at the head of [s]; 0 when it is absent or incomplete
    (the literal then ends before the exponent indicator). *)
Definition readExponent (s : string) : Z :=
  match s with
  | String c s1 =>
      if Ascii.eqb c "e" || Ascii.eqb c "E" then
        match s1 with
        | String "+"%char s2 => default 0%Z (readInteger s2)
        | String "-"%char s2 => default 0%Z (Z.opp <$> readInteger s2)
        | _ => default 0%Z (readInteger s1)
        end
      else 0%Z
  | EmptyString => 0%Z
  end.

(** StrUnsignedDecimalLiteral at the head of [s], with the sign read before. *)
Definition readUnsigned (neg : bool) (s : string) : number :=
  if startsWith s "Infinity" then Infinity neg
  else
    let '(i, ni, r1) := readDigits s 0%N 0%nat in
    match r1 with
    | String "."%char r2 =>
        let '(m, nf, r3) := readDigits r2 i 0%nat in
        match ni, nf with
        | O, O => NaN
        | _, _ => Dec neg m (readExponent r3 - Z.of_nat nf)
        end
    | _ =>
        match ni with
        | O => NaN
        | S _ => Dec neg i (readExponent r1)
        end
    end.

(** [parseFloat]: leading white space, an optional sign, then the longest
    prefix that is a decimal literal; [NaN] when there is no such prefix. *)
Definition parseFloat (s : string) : number :=
  match trimStart s with
  | String "+"%char r => readUnsigned false r
  | String "-"%char r => readUnsigned true r
  | t => readUnsigned false t
  end.


(** [Array.prototype.filter] with a callback that also reads the index;
    [i] is the index of the head of [l]. *)
Fixpoint filterFrom {A : Type} (p : A -> nat -> bool) (i : nat) (l : list A)
  : list A :=
  match l with
  | [] => []
  | x :: l' =>
      if p x i then x :: filterFrom p (S i) l' else filterFrom p (S i) l'
  end.

Definition filterWithIndex {A : Type} (p : A -> nat -> bool) (l : list A)
  : list A :=
  filterFrom p 0 l.

End JS.

(** ** The HTTP client, as the screens use it *)

Module Api.

(** The error a rejected request throws, as far as a screen reads it:
    [error.response?.data?.detail]. Every level may be missing. *)
Record ErrorData : Type := { detail : option string }.
Record ErrorResponse : Type := { data : option ErrorData }.
Record Error : Type := { response : option ErrorResponse }.

(** What [await api.post(...)] and its siblings give back. *)
Inductive Result (A : Type) : Type :=
| Resolved (a : A)
| Rejected (e : Error).
Arguments Resolved {A} a.
Arguments Rejected {A} e.

(** [error.response?.data?.detail] *)
Definition detailOf (e : Error) : option string :=
  match response e with
  | None => None
  | Some r =>
      match data r with
      | None => None
      | Some d => detail d
      end
  end.

(** [error.response?.data?.detail || fallback] *)
Definition detailOr (e : Error) (fallback : string) : string :=
  match detailOf e with
  | Some d => JS.orElse d fallback
  | None => fallback
  end.

(** An error with a response body carrying [detail]. *)
Definition withDetail (d : string) : Error :=
  {| response := Some {| data := Some {| detail := Some d |} |} |}.

(** An error thrown without a response: a network failure, or an
    exception that does not come from the HTTP client. *)
Definition noResponse : Error := {| response := None |}.

End Api.

(** What a handler does besides updating its own state. *)
Inductive Effect (Request : Type) : Type :=
| Alert (title message : string)
| Send (r : Request)
| RouterBack
| RouterReplace (path : string).
Arguments Alert {Request} title message.
Arguments Send {Request} r.
Arguments RouterBack {Request}.
Arguments RouterReplace {Request} path.

(** The requests among the effects of a handler, in order. *)
Definition requests {Request : Type} (es : list (Effect Request)) : list Request :=
  omap (fun e => match e with Send r => Some r | _ => None end) es.

(** The alerts among the effects of a handler, in order. *)
Definition alerts {Request : Type} (es : list (Effect Request))
  : list (string * string) :=
  omap (fun e => match e with Alert t m => Some (t, m) | _ => None end) es.

(** ** Items *)

Module Item.

(** An item as the API returns it ([interface Item] of the detail screen,
    with [asking_price] from the selling screen). *)
Record t : Type := {
  id : string;
  name : string;
  description : string;
  images : list string;
  barcode : option string;
  purchase_price : JS.number;
  current_value : JS.number;
  condition : string;
  is_wishlist : bool;
  asking_price : option JS.number;
  collection_id : option string;
  created_at : string
}.

(** Body of [PUT /items/{id}]: any subset of the mutable fields. A
    nullable field that is supplied carries its new, possibly null, value. *)
Record Patch : Type := {
  p_name : option string;
  p_description : option string;
  p_images : option (list string);
  p_barcode : option (option string);
  p_purchase_price : option JS.number;
  p_current_value : option JS.number;
  p_condition : option string;
  p_is_wishlist : option bool;
  p_asking_price : option (option JS.number);
  p_collection_id : option (option string)
}.

Definition emptyPatch : Patch :=
  {| p_name := None; p_description := None; p_images := None;
     p_barcode := None; p_purchase_price := None; p_current_value := None;
     p_condition := None; p_is_wishlist := None; p_asking_price := None;
     p_collection_id := None |}.

(** [{ is_wishlist: b }] *)
Definition wishlistPatch (b : bool) : Patch :=
  {| p_name := None; p_description := None; p_images := None;
     p_barcode := None; p_purchase_price := None; p_current_value := None;
     p_condition := None; p_is_wishlist := Some b; p_asking_price := None;
     p_collection_id := None |}.

(** [{ ...item, is_wishlist: b }] *)
Definition withWishlist (item : t) (b : bool) : t :=
  {| id := id item; name := name item; description := description item;
     images := images item; barcode := barcode item;
     purchase_price := purchase_price item;
     current_value := current_value item; condition := condition item;
     is_wishlist := b; asking_price := asking_price item;
     collection_id := collection_id item; created_at := created_at item |}.

End Item.

(** ** Items tab: the list with its search box *)

Module ItemsScreen.

(** The predicate of [items.filter(...)] in the search effect. *)
Definition matches (searchQuery : string) (item : Item.t) : bool :=
  JS.includes (JS.toLowerCase (Item.name item)) (JS.toLowerCase searchQuery)
  || JS.includes (JS.toLowerCase (Item.description item))
                 (JS.toLowerCase searchQuery).

(** The effect on [searchQuery, items]: the value given to
    [setFilteredItems]. *)
Definition filteredItems (searchQuery : string) (items : list Item.t)
  : list Item.t :=
  if JS.truthy searchQuery
  then List.filter (matches searchQuery) items
  else items.

End ItemsScreen.

(** ** New-collection form *)

Module AddCollectionScreen.

Definition CATEGORIES : list string :=
  ["video games"; "t-shirts"; "shoes"; "crystals"; "trading cards";
   "dolls"; "action figures"; "other"].

(** Body of [POST /collections]. *)
Module Body.
Record t : Type := {
  name : string;
  category : string;
  description : string
}.
End Body.

Record State : Type := {
  name : string;
  description : string;
  selectedCategory : string;
  loading : bool
}.

Definition initial : State :=
  {| name := ""; description := ""; selectedCategory := ""; loading := false |}.

Definition setLoading (b : bool) (st : State) : State :=
  {| name := name st; description := description st;
     selectedCategory := selectedCategory st; loading := b |}.

Section Handlers.
(** The server behind [api]: its state and how it answers the request. *)
Variable Store : Type.
Variable post : Body.t -> Store -> Store * Api.Result unit.

Definition handleCreate (st : State) (db : Store)
  : State * Store * list (Effect Body.t) :=
  if negb (JS.truthy (name st)) || negb (JS.truthy (selectedCategory st))
  then (st, db, [Alert "Error" "Please fill in all required fields"])
  else
    let body := {| Body.name := name st;
                   Body.category := selectedCategory st;
                   Body.description := description st |} in
    match post body db with
    | (db', Api.Resolved _) =>
        (setLoading false st, db',
         [Send body; Alert "Success" "Collection created successfully";
          RouterBack])
    | (db', Api.Rejected e) =>
        (setLoading false st, db',
         [Send body;
          Alert "Error" (Api.detailOr e "Failed to create collection")])
    end.
End Handlers.

End AddCollectionScreen.

(** ** Add-item form *)

Module AddItemScreen.

Definition CONDITIONS : list string :=
  ["mint"; "near_mint"; "excellent"; "good"; "fair"; "poor"].

(** Body of [POST /items]. *)
Module Body.
Record t : Type := {
  collection_id : option string;
  name : string;
  description : string;
  images : list string;
  barcode : string;
  purchase_price : JS.number;
  current_value : JS.number;
  condition : string;
  is_wishlist : bool
}.
End Body.

(** The [useState] cells of the form. [collections] holds the id and the
    name of each fetched collection. *)
Record State : Type := {
  collections : list (string * string);
  selectedCollection : string;
  name : string;
  description : string;
  purchasePrice : string;
  currentValue : string;
  condition : string;
  isWishlist : bool;
  images : list string;
  barcode : string;
  loading : bool
}.

(** The first render; [collectionId] is the route parameter. *)
Definition initial (collectionId : option string) : State :=
  {| collections := [];
     selectedCollection := JS.orElse (default "" collectionId) "";
     name := ""; description := ""; purchasePrice := ""; currentValue := "";
     condition := "good"; isWishlist := false; images := []; barcode := "";
     loading := false |}.

Definition setCollections (v : list (string * string)) (st : State) : State :=
  {| collections := v; selectedCollection := selectedCollection st;
     name := name st; description := description st;
     purchasePrice := purchasePrice st; currentValue := currentValue st;
     condition := condition st; isWishlist := isWishlist st;
     images := images st; barcode := barcode st; loading := loading st |}.

Definition setSelectedCollection (v : string) (st : State) : State :=
  {| collections := collections st; selectedCollection := v;
     name := name st; description := description st;
     purchasePrice := purchasePrice st; currentValue := currentValue st;
     condition := condition st; isWishlist := isWishlist st;
     images := images st; barcode := barcode st; loading := loading st |}.

Definition setName (v : string) (st : State) : State :=
  {| collections := collections st;
     selectedCollection := selectedCollection st; name := v;
     description := description st; purchasePrice := purchasePrice st;
     currentValue := currentValue st; condition := condition st;
     isWishlist := isWishlist st; images := images st;
     barcode := barcode st; loading := loading st |}.

Definition setDescription (v : string) (st : State) : State :=
  {| collections := collections st;
     selectedCollection := selectedCollection st; name := name st;
     description := v; purchasePrice := purchasePrice st;
     currentValue := currentValue st; condition := condition st;
     isWishlist := isWishlist st; images := images st;
     barcode := barcode st; loading := loading st |}.

Definition setPurchasePrice (v : string) (st : State) : State :=
  {| collections := collections st;
     selectedCollection := selectedCollection st; name := name st;
     description := description st; purchasePrice := v;
     currentValue := currentValue st; condition := condition st;
     isWishlist := isWishlist st; images := images st;
     barcode := barcode st; loading := loading st |}.

Definition setCurrentValue (v : string) (st : State) : State :=
  {| collections := collections st;
     selectedCollection := selectedCollection st; name := name st;
     description := description st; purchasePrice := purchasePrice st;
     currentValue := v; condition := condition st;
     isWishlist := isWishlist st; images := images st;
     barcode := barcode st; loading := loading st |}.

Definition setCondition (v : string) (st : State) : State :=
  {| collections := collections st;
     selectedCollection := selectedCollection st; name := name st;
     description := description st; purchasePrice := purchasePrice st;
     currentValue := currentValue st; condition := v;
     isWishlist := isWishlist st; images := images st;
     barcode := barcode st; loading := loading st |}.

Definition setIsWishlist (v : bool) (st : State) : State :=
  {| collections := collections st;
     selectedCollection := selectedCollection st; name := name st;
     description := description st; purchasePrice := purchasePrice st;
     currentValue := currentValue st; condition := condition st;
     isWishlist := v; images := images st; barcode := barcode st;
     loading := loading st |}.

Definition setImages (v : list string) (st : State) : State :=
  {| collections := collections st;
     selectedCollection := selectedCollection st; name := name st;
     description := description st; purchasePrice := purchasePrice st;
     currentValue := currentValue st; condition := condition st;
     isWishlist := isWishlist st; images := v; barcode := barcode st;
     loading := loading st |}.

Definition setBarcode (v : string) (st : State) : State :=
  {| collections := collections st;
     selectedCollection := selectedCollection st; name := name st;
     description := description st; purchasePrice := purchasePrice st;
     currentValue := currentValue st; condition := condition st;
     isWishlist := isWishlist st; images := images st; barcode := v;
     loading := loading st |}.

Definition setLoading (v : bool) (st : State) : State :=
  {| collections := collections st;
     selectedCollection := selectedCollection st; name := name st;
     description := description st; purchasePrice := purchasePrice st;
     currentValue := currentValue st; condition := condition st;
     isWishlist := isWishlist st; images := images st;
     barcode := barcode st; loading := v |}.

(** What the image picker or the camera resolves to. *)
Inductive PickerResult : Type :=
| Canceled
| Asset (base64 : option string)
| PickerThrows.

Definition dataUri (base64 : string) : string :=
  "data:image/jpeg;base64," +:+ base64.

(** [pickImage], run with the [images] of the render that created it:
    the list given to [setImages] when it is called, and the alert shown. *)
Definition pickImage (images : list string) (result : PickerResult)
  : option (list string) * list (Effect Body.t) :=
  match result with
  | Canceled => (None, [])
  | Asset None => (None, [])
  | Asset (Some b) =>
      if JS.truthy b then (Some (images ++ [dataUri b])%list, []) else (None, [])
  | PickerThrows => (None, [Alert "Error" "Failed to pick image"])
  end.

Definition takePhoto (images : list string) (result : PickerResult)
  : option (list string) * list (Effect Body.t) :=
  match result with
  | Canceled => (None, [])
  | Asset None => (None, [])
  | Asset (Some b) =>
      if JS.truthy b then (Some (images ++ [dataUri b])%list, []) else (None, [])
  | PickerThrows => (None, [Alert "Error" "Failed to take photo"])
  end.

(** [images.filter((_, i) => i !== index)] *)
Definition removeImage (images : list string) (index : nat) : list string :=
  JS.filterWithIndex (fun _ i => negb (Nat.eqb i index)) images.

(** The camera and gallery buttons are rendered only under this test. *)
Definition addButtonsShown (st : State) : bool :=
  Nat.ltb (length (images st)) 5.

Section Handlers.
Variable Store : Type.
Variable post : Body.t -> Store -> Store * Api.Result unit.

Definition handleCreate (st : State) (db : Store)
  : State * Store * list (Effect Body.t) :=
  if negb (JS.truthy (name st))
  then (st, db, [Alert "Error" "Please enter item name"])
  else
    let body :=
      {| Body.collection_id :=
           if JS.truthy (selectedCollection st)
           then Some (selectedCollection st) else None;
         Body.name := name st;
         Body.description := description st;
         Body.images := images st;
         Body.barcode := barcode st;
         Body.purchase_price :=
           JS.orNum (JS.parseFloat (purchasePrice st)) JS.zero;
         Body.current_value :=
           JS.orNum (JS.parseFloat (currentValue st)) JS.zero;
         Body.condition := condition st;
         Body.is_wishlist := isWishlist st |} in
    match post body db with
    | (db', Api.Resolved _) =>
        (setLoading false st, db',
         [Send body; Alert "Success" "Item added successfully"; RouterBack])
    | (db', Api.Rejected e) =>
        (setLoading false st, db',
         [Send body; Alert "Error" (Api.detailOr e "Failed to add item")])
    end.
End Handlers.

(** *** The form as a transition system

    A press on the camera or gallery button starts an asynchronous call
    that keeps the [images] of the render it was started from; the call
    resolves later, possibly after other events. [pending] lists the
    calls in flight with the list each one captured. *)
Inductive Picker : Type := Camera | Gallery.

Record Screen : Type := {
  state : State;
  pending : list (Picker * list string)
}.

Inductive Event : Type :=
| CollectionsFetched (l : list (string * string))
| ChangeName (s : string)
| ChangeDescription (s : string)
| ChangePurchasePrice (s : string)
| ChangeCurrentValue (s : string)
| ChangeBarcode (s : string)
| PressCondition (k : nat)
| PressWishlist
| PressNoCollection
| PressCollection (k : nat)
| PressTakePhoto
| PressPickImage
| PickerResolves (k : nat) (result : PickerResult)
| PressRemove (index : nat).

Definition onState (f : State -> State) (sc : Screen) : Screen :=
  {| state := f (state sc); pending := pending sc |}.

Definition launch (p : Picker) (sc : Screen) : Screen :=
  if addButtonsShown (state sc)
  then {| state := state sc;
          pending := (pending sc ++ [(p, images (state sc))])%list |}
  else sc.

Definition resolve (k : nat) (result : PickerResult) (sc : Screen) : Screen :=
  match pending sc !! k with
  | None => sc
  | Some (p, captured) =>
      let outcome :=
        match p with
        | Camera => takePhoto captured result
        | Gallery => pickImage captured result
        end in
      {| state := match fst outcome with
                  | Some l => setImages l (state sc)
                  | None => state sc
                  end;
         pending := delete k (pending sc) |}
  end.

Definition step (sc : Screen) (e : Event) : Screen :=
  match e with
  | CollectionsFetched l => onState (setCollections l) sc
  | ChangeName s => onState (setName s) sc
  | ChangeDescription s => onState (setDescription s) sc
  | ChangePurchasePrice s => onState (setPurchasePrice s) sc
  | ChangeCurrentValue s => onState (setCurrentValue s) sc
  | ChangeBarcode s => onState (setBarcode s) sc
  | PressCondition k =>
      match CONDITIONS !! k with
      | Some c => onState (setCondition c) sc
      | None => sc
      end
  | PressWishlist =>
      onState (fun st => setIsWishlist (negb (isWishlist st)) st) sc
  | PressNoCollection => onState (setSelectedCollection "") sc
  | PressCollection k =>
      match collections (state sc) !! k with
      | Some (id, _) => onState (setSelectedCollection id) sc
      | None => sc
      end
  | PressTakePhoto => launch Camera sc
  | PressPickImage => launch Gallery sc
  | PickerResolves k result => resolve k result sc
  | PressRemove index =>
      onState (fun st => setImages (removeImage (images st) index) st) sc
  end.

Definition start (collectionId : option string) : Screen :=
  {| state := initial collectionId; pending := [] |}.

Definition run (sc : Screen) (events : list Event) : Screen :=
  fold_left step events sc.

Definition isPressCondition (e : Event) : bool :=
  match e with
  | PressCondition _ => true
  | _ => false
  end.

End AddItemScreen.

(** ** Item detail screen *)

Module ItemDetailScreen.

Record State : Type := {
  item : option Item.t;
  loading : bool;
  currentImageIndex : nat
}.

Definition setItem (v : option Item.t) (st : State) : State :=
  {| item := v; loading := loading st;
     currentImageIndex := currentImageIndex st |}.

Inductive Request : Type :=
| PutItem (id : string) (body : Item.Patch)
| DeleteItem (id : string).

Section Handlers.
(** The route parameter and the server behind [api]. *)
Variable id : string.
Variable Store : Type.
Variable put : string -> Item.Patch -> Store -> Store * Api.Result unit.

Definition toggleWishlist (st : State) (db : Store)
  : State * Store * list (Effect Request) :=
  match item st with
  | None => (st, db, [])
  | Some it =>
      let body := Item.wishlistPatch (negb (Item.is_wishlist it)) in
      match put id body db with
      | (db', Api.Resolved _) =>
          (setItem (Some (Item.withWishlist it (negb (Item.is_wishlist it)))) st,
           db', [Send (PutItem id body)])
      | (db', Api.Rejected _) =>
          (st, db',
           [Send (PutItem id body);
            Alert "Error" "Failed to update wishlist status"])
      end
  end.
End Handlers.

End ItemDetailScreen.

(** ** Collection detail screen *)

Module CollectionDetailScreen.

Inductive Request : Type :=
| DeleteCollection (id : string)
| ShareCollection (id : string).

(** The button of the confirmation dialog the user presses. *)
Inductive Choice : Type := Cancel | Delete.

Definition confirmation : Effect Request :=
  Alert "Delete Collection"
        "Are you sure? This will delete all items in this collection.".

Section Handlers.
Variable id : string.
Variable Store : Type.
Variable delete : string -> Store -> Store * Api.Result unit.

Definition handleDelete (choice : Choice) (db : Store)
  : Store * list (Effect Request) :=
  match choice with
  | Cancel => (db, [confirmation])
  | Delete =>
      match delete id db with
      | (db', Api.Resolved _) =>
          (db', [confirmation; Send (DeleteCollection id);
                 Alert "Success" "Collection deleted"; RouterBack])
      | (db', Api.Rejected _) =>
          (db', [confirmation; Send (DeleteCollection id);
                 Alert "Error" "Failed to delete collection"])
      end
  end.
End Handlers.

End CollectionDetailScreen.

(** ** The store behind the API

    The server is not part of the client sources; the operations the
    screens above call are modelled here from the specification. *)

Module Backend.

(** Modelled from the spec: the Collection record of the data model
    (identifier, owning user id, name, category, optional description,
    creation timestamp, optional share code; the item count is derived). *)
Record Collection : Type := {
  c_id : string;
  c_user_id : string;
  c_name : string;
  c_category : string;
  c_description : option string;
  c_created_at : string;
  c_share_code : option string
}.

(** Modelled from the spec: an Item record of the data model, the fields
    the client reads together with the owning user id. *)
Record StoredItem : Type := {
  user_id : string;
  doc : Item.t
}.

(** Modelled from the spec: the persistent store; both kinds of record
    are kept by identifier. *)
Record Store : Type := {
  collections : gmap string Collection;
  items : gmap string StoredItem
}.

(** Modelled from the spec: the error taxonomy, as far as these
    operations use it. *)
Inductive Failure : Type := NotFound | Validation.

Inductive Result (A : Type) : Type :=
| Ok (a : A)
| Fail (f : Failure).
Arguments Ok {A} a.
Arguments Fail {A} f.

(** Modelled from the spec: the item-store [get(user, id)], absent from
    the sources; "standard CRUD with NotFound on missing/foreign
    ownership". *)
Definition getItem (user id : string) (db : Store) : Result Item.t :=
  match items db !! id with
  | Some si => if decide (user_id si = user) then Ok (doc si) else Fail NotFound
  | None => Fail NotFound
  end.

(** Modelled from the spec: [listByCollection(user, collectionId)],
    absent from the sources; a filtered view "scoped to the requesting
    user". *)
Definition listByCollection (user collectionId : string) (db : Store)
  : list Item.t :=
  doc <$>
    List.filter
      (fun si => bool_decide (user_id si = user
                              /\ Item.collection_id (doc si) = Some collectionId))
      (map_to_list (items db)).*2.

(** Modelled from the spec: the collection-store [delete(user, id)],
    absent from the sources; "fails with NotFound" if the collection is
    "absent or owned by a different user; on success cascades: deletes all
    Items whose collection id equals this id". *)
Definition deleteCollection (user id : string) (db : Store)
  : Store * Result unit :=
  match collections db !! id with
  | Some c =>
      if decide (c_user_id c = user)
      then ({| collections := delete id (collections db);
               items := filter
                          (fun kv => Item.collection_id (doc kv.2) <> Some id)
                          (items db) |},
            Ok tt)
      else (db, Fail NotFound)
  | None => (db, Fail NotFound)
  end.

(** Modelled from the spec: how a partial update is laid over an item;
    "update accepts any subset of mutable fields ... and must not reset
    unspecified fields". *)
Definition applyPatch (p : Item.Patch) (it : Item.t) : Item.t :=
  {| Item.id := Item.id it;
     Item.name := default (Item.name it) (Item.p_name p);
     Item.description := default (Item.description it) (Item.p_description p);
     Item.images := default (Item.images it) (Item.p_images p);
     Item.barcode := default (Item.barcode it) (Item.p_barcode p);
     Item.purchase_price :=
       default (Item.purchase_price it) (Item.p_purchase_price p);
     Item.current_value :=
       default (Item.current_value it) (Item.p_current_value p);
     Item.condition := default (Item.condition it) (Item.p_condition p);
     Item.is_wishlist := default (Item.is_wishlist it) (Item.p_is_wishlist p);
     Item.asking_price :=
       default (Item.asking_price it) (Item.p_asking_price p);
     Item.collection_id :=
       default (Item.collection_id it) (Item.p_collection_id p);
     Item.created_at := Item.created_at it |}.

(** Modelled from the spec: the item-store [update(user, id,
    partialFields)], absent from the sources; NotFound "on missing/foreign
    ownership", otherwise the stored item with the patch laid over it. *)
Definition updateItem (user id : string) (p : Item.Patch) (db : Store)
  : Store * Result Item.t :=
  match items db !! id with
  | Some si =>
      if decide (user_id si = user)
      then
        let it := applyPatch p (doc si) in
        ({| collections := collections db;
            items := <[id := {| user_id := user_id si; doc := it |}]> (items db) |},
         Ok it)
      else (db, Fail NotFound)
  | None => (db, Fail NotFound)
  end.

(** Modelled from the spec: "all errors are translated at the boundary
    into an HTTP status + short message"; the wording of the message is not
    fixed by the specification. *)
Definition message (f : Failure) : string :=
  match f with
  | NotFound => "Not found"
  | Validation => "Validation error"
  end.

(** Modelled from the spec: the response the client gets for a result. *)
Definition respond {A : Type} (r : Result A) : Api.Result unit :=
  match r with
  | Ok _ => Api.Resolved tt
  | Fail f => Api.Rejected (Api.withDetail (message f))
  end.

(** Modelled from the spec: [DELETE /collections/{id}] for a signed-in
    user. *)
Definition serveDelete (user id : string) (db : Store) : Store * Api.Result unit :=
  let '(db', r) := deleteCollection user id db in (db', respond r).

(** Modelled from the spec: [PUT /items/{id}] for a signed-in user. *)
Definition servePut (user id : string) (p : Item.Patch) (db : Store)
  : Store * Api.Result unit :=
  let '(db', r) := updateItem user id p db in (db', respond r).





End Backend.

(** Two items agree on every field but the wishlist flag. *)
Definition sameButWishlist (a b : Item.t) : Prop :=
  Item.id a = Item.id b
  /\ Item.name a = Item.name b
  /\ Item.description a = Item.description b
  /\ Item.images a = Item.images b
  /\ Item.barcode a = Item.barcode b
  /\ Item.purchase_price a = Item.purchase_price b
  /\ Item.current_value a = Item.current_value b
  /\ Item.condition a = Item.condition b
  /\ Item.asking_price a = Item.asking_price b
  /\ Item.collection_id a = Item.collection_id b
  /\ Item.created_at a = Item.created_at b.

(** ** JSON text of flat objects

[JSON.stringify] and [JSON.parse] as far as the auth store needs them: an
object whose members are strings. [parseObject] accepts such objects, with
any white space between tokens; every other text is turned down. *)

Module JSON.

Definition dquote : ascii := "034"%char.
Definition backslash : ascii := "092"%char.

Definition hexDigit (n : N) : ascii :=
  if (n <? 10)%N then ascii_of_N (48 + n) else ascii_of_N (87 + n).

(** QuoteJSONString on one code unit. *)
Definition escapeChar (c : ascii) : string :=
  let n := N_of_ascii c in
  if (n =? 34)%N then String backslash (String dquote "")
  else if (n =? 92)%N then String backslash (String backslash "")
  else if (n =? 8)%N then String backslash "b"
  else if (n =? 9)%N then String backslash "t"
  else if (n =? 10)%N then String backslash "n"
  else if (n =? 12)%N then String backslash "f"
  else if (n =? 13)%N then String backslash "r"
  else if (n <? 32)%N then
    String backslash
      (String "u" (String "0" (String "0"
         (String (hexDigit (n / 16)) (String (hexDigit (n mod 16)) "")))))
  else String c "".

(** The printers take the text that follows as an argument. *)
Fixpoint emitChars (s : string) (rest : string) : string :=
  match s with
  | EmptyString => rest
  | String c s' => escapeChar c +:+ emitChars s' rest
  end.

Definition emitString (s : string) (rest : string) : string :=
  String dquote (emitChars s (String dquote rest)).

Definition emitMember (m : string * string) (rest : string) : string :=
  emitString m.1 (String ":" (emitString m.2 rest)).

Fixpoint emitMembers (ms : list (string * string)) (rest : string) : string :=
  match ms with
  | [] => rest
  | m :: ms' =>
      match ms' with
      | [] => emitMember m rest
      | _ :: _ => emitMember m (String "," (emitMembers ms' rest))
      end
  end.

(** [JSON.stringify] of an object with the string members [ms]. *)
Definition stringifyObject (ms : list (string * string)) : string :=
  String "{" (emitMembers ms "}").

Definition hexValue (c : ascii) : option N :=
  let n := N_of_ascii c in
  if ((48 <=? n) && (n <=? 57))%N then Some (n - 48)%N
  else if ((97 <=? n) && (n <=? 102))%N then Some (n - 87)%N
  else if ((65 <=? n) && (n <=? 70))%N then Some (n - 55)%N
  else None.

(** The code unit of [\uXXXX]; units above 255 are outside the model. *)
Definition unicodeEscape (a b c d : ascii) : option ascii :=
  match hexValue a, hexValue b, hexValue c, hexValue d with
  | Some x, Some y, Some z, Some w =>
      if ((x =? 0) && (y =? 0))%N then Some (ascii_of_N (16 * z + w)) else None
  | _, _, _, _ => None
  end.

(** The character a one-letter escape stands for. *)
Definition simpleEscape (e : ascii) : option ascii :=
  let n := N_of_ascii e in
  if (n =? 34)%N then Some dquote
  else if (n =? 92)%N then Some backslash
  else if (n =? 47)%N then Some "/"%char
  else if (n =? 98)%N then Some "008"%char
  else if (n =? 116)%N then Some "009"%char
  else if (n =? 110)%N then Some "010"%char
  else if (n =? 102)%N then Some "012"%char
  else if (n =? 114)%N then Some "013"%char
  else None.

Definition consChar (c : ascii) (r : option (string * string))
  : option (string * string) :=
  match r with
  | Some (t, rest) => Some (String c t, rest)
  | None => None
  end.

(** A string literal after its opening quote: the string and what follows
    the closing quote. *)
Fixpoint readString (s : string) : option (string * string) :=
  match s with
  | EmptyString => None
  | String c s1 =>
      if Ascii.eqb c dquote then Some (EmptyString, s1)
      else if Ascii.eqb c backslash then
        match s1 with
        | EmptyString => None
        | String e s2 =>
            if Ascii.eqb e "u" then
              match s2 with
              | String h1 (String h2 (String h3 (String h4 s3))) =>
                  match unicodeEscape h1 h2 h3 h4 with
                  | Some u => consChar u (readString s3)
                  | None => None
                  end
              | _ => None
              end
            else
              match simpleEscape e with
              | Some u => consChar u (readString s2)
              | None => None
              end
        end
      else if (N_of_ascii c <? 32)%N then None
      else consChar c (readString s1)
  end.

Definition isJsonSpace (c : ascii) : bool :=
  let n := N_of_ascii c in
  ((n =? 32) || (n =? 9) || (n =? 10) || (n =? 13))%N.

Fixpoint skipSpace (s : string) : string :=
  match s with
  | EmptyString => EmptyString
  | String c s' => if isJsonSpace c then skipSpace s' else s
  end.

(** A string literal with the white space before it. *)
Definition readQuoted (s : string) : option (string * string) :=
  match skipSpace s with
  | String c r => if Ascii.eqb c dquote then readString r else None
  | EmptyString => None
  end.

(** One member [key : value]. *)
Definition readMember (s : string) : option ((string * string) * string) :=
  match readQuoted s with
  | Some (k, r1) =>
      match skipSpace r1 with
      | String ":" r2 =>
          match readQuoted r2 with
          | Some (v, r3) => Some ((k, v), r3)
          | None => None
          end
      | _ => None
      end
  | None => None
  end.

(** The members up to the closing brace; [fuel] bounds their number. *)
Fixpoint readMembers (fuel : nat) (s : string)
  : option (list (string * string) * string) :=
  match fuel with
  | O => None
  | S fuel' =>
      match readMember s with
      | Some (m, r) =>
          match skipSpace r with
          | String "," r' =>
              match readMembers fuel' r' with
              | Some (ms, rest) => Some (m :: ms, rest)
              | None => None
              end
          | String "}" r' => Some ([m], r')
          | _ => None
          end
      | None => None
      end
  end.

(** [JSON.parse]: [None] when it throws. *)
Definition parseObject (s : string) : option (list (string * string)) :=
  match skipSpace s with
  | String "{" r =>
      let body :=
        match skipSpace r with
        | String "}" r' => Some ([], r')
        | _ => readMembers (String.length s) r
        end in
      match body with
      | Some (ms, rest) =>
          match skipSpace rest with
          | EmptyString => Some ms
          | String _ _ => None
          end
      | None => None
      end
  | _ => None
  end.

(** The value of member [k]: the last one wins. *)
Fixpoint member (k : string) (ms : list (string * string)) : option string :=
  match ms with
  | [] => None
  | (k', v) :: ms' =>
      match member k ms' with
      | Some v' => Some v'
      | None => if String.eqb k k' then Some v else None
      end
  end.

End JSON.

(** ** Device storage *)

Module AsyncStorage.

(** The entries, and which of the coming calls are going to reject: the
    head of [faults] decides the next call; no fault is left when it is
    empty. *)
Record t : Type := {
  entries : gmap string string;
  faults : list bool
}.

(** The flag for the next call, and the storage once the call is made. *)
Definition next (s : t) : bool * t :=
  match faults s with
  | [] => (false, s)
  | b :: bs => (b, {| entries := entries s; faults := bs |})
  end.

(** Each call gives the storage afterwards and its result; [None] is a
    rejected promise. *)
Definition setItem (key value : string) (s : t) : t * option unit :=
  let '(fault, s') := next s in
  if fault then (s', None)
  else ({| entries := <[key := value]> (entries s'); faults := faults s' |},
        Some tt).

Definition getItem (key : string) (s : t) : t * option (option string) :=
  let '(fault, s') := next s in
  if fault then (s', None) else (s', Some (entries s' !! key)).

Definition removeItem (key : string) (s : t) : t * option unit :=
  let '(fault, s') := next s in
  if fault then (s', None)
  else ({| entries := delete key (entries s'); faults := faults s' |}, Some tt).

(** A storage without faults. *)
Definition reliable (m : gmap string string) : t :=
  {| entries := m; faults := [] |}.

End AsyncStorage.

(** ** The auth store *)

Module AuthStore.

Record User : Type := {
  id : string;
  username : string;
  email : option string
}.

Record State : Type := {
  token : option string;
  user : option User;
  isLoading : bool
}.

(** The store as [create] builds it. *)
Definition initial : State :=
  {| token := None; user := None; isLoading := true |}.

Definition userMembers (u : User) : list (string * string) :=
  (("id", id u) :: ("username", username u) ::
   match email u with
   | Some e => [("email", e)]
   | None => []
   end)%list.

(** [JSON.stringify(user)] *)
Definition stringifyUser (u : User) : string :=
  JSON.stringifyObject (userMembers u).

(** [JSON.parse(userStr)] read as a [User]; [None] when it throws or when
    the text is not a user object. *)
Definition parseUser (s : string) : option User :=
  match JSON.parseObject s with
  | Some ms =>
      match JSON.member "id" ms, JSON.member "username" ms with
      | Some i, Some n =>
          Some {| id := i; username := n; email := JSON.member "email" ms |}
      | _, _ => None
      end
  | None => None
  end.

(** How an [async] action ends. *)
Inductive Completion : Type := Returned | Threw.

Definition setAuth (tok : string) (u : User) (st : State) (sto : AsyncStorage.t)
  : State * AsyncStorage.t * Completion :=
  match AsyncStorage.setItem "token" tok sto with
  | (sto1, None) => (st, sto1, Threw)
  | (sto1, Some _) =>
      match AsyncStorage.setItem "user" (stringifyUser u) sto1 with
      | (sto2, None) => (st, sto2, Threw)
      | (sto2, Some _) =>
          ({| token := Some tok; user := Some u; isLoading := isLoading st |},
           sto2, Returned)
      end
  end.

Definition logout (st : State) (sto : AsyncStorage.t)
  : State * AsyncStorage.t * Completion :=
  match AsyncStorage.removeItem "token" sto with
  | (sto1, None) => (st, sto1, Threw)
  | (sto1, Some _) =>
      match AsyncStorage.removeItem "user" sto1 with
      | (sto2, None) => (st, sto2, Threw)
      | (sto2, Some _) =>
          ({| token := None; user := None; isLoading := isLoading st |},
           sto2, Returned)
      end
  end.

(** [set({ isLoading: false })] *)
Definition loaded (st : State) : State :=
  {| token := token st; user := user st; isLoading := false |}.

(** The [if (token && userStr)] of [loadAuth], on what the two reads gave.
    A text [JSON.parse] throws on ends in the [catch] branch; so does, in
    this model, a text that is not a user object. *)
Definition restore (st : State) (tok userStr : option string) : State :=
  match tok, userStr with
  | Some t, Some us =>
      if JS.truthy t && JS.truthy us then
        match parseUser us with
        | Some u => {| token := Some t; user := Some u; isLoading := false |}
        | None => loaded st
        end
      else loaded st
  | _, _ => loaded st
  end.

(** [loadAuth] catches whatever is thrown in it, so it always returns. *)
Definition loadAuth (st : State) (sto : AsyncStorage.t) : State * AsyncStorage.t :=
  match AsyncStorage.getItem "token" sto with
  | (sto1, None) => (loaded st, sto1)
  | (sto1, Some tok) =>
      match AsyncStorage.getItem "user" sto1 with
      | (sto2, None) => (loaded st, sto2)
      | (sto2, Some userStr) => (restore st tok userStr, sto2)
      end
  end.

End AuthStore.

(** ** Login screen *)

Module LoginScreen.

Record State : Type := {
  username : string;
  password : string;
  loading : bool
}.

Definition setLoading (b : bool) (st : State) : State :=
  {| username := username st; password := password st; loading := b |}.

(** Body of [POST /auth/login] and the data of its response. *)
Record Credentials : Type := {
  c_username : string;
  c_password : string
}.

Record LoginData : Type := {
  access_token : string;
  user_id : string;
  d_username : string
}.

Section Handlers.
Variable Store : Type.
Variable post : Credentials -> Store -> Store * Api.Result LoginData.

Definition handleLogin (st : State) (auth : AuthStore.State)
  (sto : AsyncStorage.t) (db : Store)
  : State * AuthStore.State * AsyncStorage.t * Store * list (Effect Credentials) :=
  if negb (JS.truthy (username st)) || negb (JS.truthy (password st))
  then (st, auth, sto, db, [Alert "Error" "Please fill in all fields"])
  else
    let body := {| c_username := username st; c_password := password st |} in
    match post body db with
    | (db', Api.Resolved data) =>
        match AuthStore.setAuth (access_token data)
                {| AuthStore.id := user_id data;
                   AuthStore.username := d_username data;
                   AuthStore.email := None |} auth sto with
        | (auth', sto', AuthStore.Returned) =>
            (setLoading false st, auth', sto', db',
             [Send body; RouterReplace "/(tabs)/home"])
        | (auth', sto', AuthStore.Threw) =>
            (setLoading false st, auth', sto', db',
             [Send body;
              Alert "Login Failed" (Api.detailOr Api.noResponse "Invalid credentials")])
        end
    | (db', Api.Rejected e) =>
        (setLoading false st, auth, sto, db',
         [Send body; Alert "Login Failed" (Api.detailOr e "Invalid credentials")])
    end.
End Handlers.

End LoginScreen.

(** ** Search, in the words of the specification *)

Module SearchSpec.

(** Two strings are the same up to the case of their letters. *)
Inductive sameIgnoringCase : string -> string -> Prop :=
| sic_empty : sameIgnoringCase "" ""
| sic_char a b s t :
    JS.toLowerChar a = JS.toLowerChar b ->
    sameIgnoringCase s t ->
    sameIgnoringCase (String a s) (String b t).

(** [q] is a case-insensitive substring of [field]: some stretch of
    [field] spells [q] up to case. *)
Definition ciSubstring (q field : string) : Prop :=
  exists pre mid suf, field = pre +:+ mid +:+ suf /\ sameIgnoringCase mid q.

(** The match the specification describes: name, description or barcode. *)
Definition matchesAnyField (q : string) (item : Item.t) : Prop :=
  ciSubstring q (Item.name item)
  \/ ciSubstring q (Item.description item)
  \/ exists b, Item.barcode item = Some b /\ ciSubstring q b.

(** The match on the two text fields only. *)
Definition matchesNameOrDescription (q : string) (item : Item.t) : Prop :=
  ciSubstring q (Item.name item) \/ ciSubstring q (Item.description item).

End SearchSpec.

(** ** Sample data for the examples *)

Definition sampleItem (id name description : string) (barcode : option string)
  : Item.t :=
  {| Item.id := id; Item.name := name; Item.description := description;
     Item.images := []; Item.barcode := barcode;
     Item.purchase_price := JS.zero; Item.current_value := JS.zero;
     Item.condition := "good"; Item.is_wishlist := false;
     Item.asking_price := None; Item.collection_id := None;
     Item.created_at := "2025-01-01T00:00:00" |}.

Definition marioItem : Item.t :=
  sampleItem "i1" "Super Mario Bros" "Classic NES platformer" (Some "045496630331").

Definition zeldaItem : Item.t :=
  sampleItem "i2" "Zelda" "" (Some "045496630348").

(** A server that records the bodies it receives and accepts them all. *)
Definition recordingServer {Body : Type} (b : Body) (db : list Body)
  : list Body * Api.Result unit :=
  ((db ++ [b])%list, Api.Resolved tt).

(** A server that turns every request down with the given error. *)
Definition rejectingServer {Body Store A : Type} (e : Api.Error) (b : Body) (db : Store)
  : Store * Api.Result A :=
  (db, Api.Rejected e).

(** The invariant of the add-item form: at most five images on screen, and
    every picker call in flight was started from fewer than five. *)
Definition imagesBounded (sc : AddItemScreen.Screen) : Prop :=
  length (AddItemScreen.images (AddItemScreen.state sc)) <= 5
  /\ Forall (fun p => length p.2 < 5) (AddItemScreen.pending sc).

(** An accepting server without state. *)
Definition acceptAll {Body : Type} (b : Body) (db : unit) : unit * Api.Result unit :=
  (db, Api.Resolved tt).

Definition retroGames : Backend.Collection :=
  {| Backend.c_id := "c1"; Backend.c_user_id := "alice";
     Backend.c_name := "Retro Games"; Backend.c_category := "video games";
     Backend.c_description := None;
     Backend.c_created_at := "2025-01-01T00:00:00";
     Backend.c_share_code := None |}.

Definition inCollection (cid : string) (it : Item.t) : Item.t :=
  {| Item.id := Item.id it; Item.name := Item.name it;
     Item.description := Item.description it; Item.images := Item.images it;
     Item.barcode := Item.barcode it;
     Item.purchase_price := Item.purchase_price it;
     Item.current_value := Item.current_value it;
     Item.condition := Item.condition it;
     Item.is_wishlist := Item.is_wishlist it;
     Item.asking_price := Item.asking_price it;
     Item.collection_id := Some cid; Item.created_at := Item.created_at it |}.

Definition ownedByAlice (it : Item.t) : Backend.StoredItem :=
  {| Backend.user_id := "alice"; Backend.doc := it |}.

(** Alice's store: one collection holding the item "i1", and the
    uncategorized item "i2". *)
Definition sampleStore : Backend.Store :=
  {| Backend.collections := {[ "c1" := retroGames ]};
     Backend.items :=
       {[ "i1" := ownedByAlice (inCollection "c1" marioItem);
          "i2" := ownedByAlice zeldaItem ]} |}.

Definition aliceUser : AuthStore.User :=
  {| AuthStore.id := "u1"; AuthStore.username := "alice";
     AuthStore.email := Some "alice@example.com" |}.

(** What the user is shown when the server turns the request down with [e]. *)
Definition shownOnCollectionCreate (e : Api.Error) (st : AddCollectionScreen.State)
  : list (string * string) :=
  alerts (AddCollectionScreen.handleCreate unit (rejectingServer e) st tt).2.

Definition shownOnItemCreate (e : Api.Error) (st : AddItemScreen.State)
  : list (string * string) :=
  alerts (AddItemScreen.handleCreate unit (rejectingServer e) st tt).2.

Definition shownOnLogin (e : Api.Error) (st : LoginScreen.State)
  (auth : AuthStore.State) (sto : AsyncStorage.t) : list (string * string) :=
  alerts (LoginScreen.handleLogin unit (rejectingServer e) st auth sto tt).2.

(** Filled-in forms. *)
Definition retroGamesForm : AddCollectionScreen.State :=
  {| AddCollectionScreen.name := "Retro Games";
     AddCollectionScreen.description := "";
     AddCollectionScreen.selectedCategory := "video games";
     AddCollectionScreen.loading := false |}.

Definition chronoTriggerForm : AddItemScreen.State :=
  AddItemScreen.setName "Chrono Trigger" (AddItemScreen.initial None).

Definition aliceLoginForm : LoginScreen.State :=
  {| LoginScreen.username := "alice"; LoginScreen.password := "pw123";
     LoginScreen.loading := false |}.

(** ** The remaining handlers of the screens *)

(** The test [token] passes in [if (!token)]: neither null nor empty. *)
Definition signedIn (token : option string) : bool :=
  match token with
  | Some t => JS.truthy t
  | None => false
  end.

(** A server that gives the same answer to every request. *)
Definition answering {Store A : Type} (r : Api.Result A) (db : Store)
  : Store * Api.Result A :=
  (db, r).

(** A collection as the list and detail screens read it. *)
Module Collection.

Record t : Type := {
  id : string;
  name : string;
  category : string;
  description : string;
  item_count : N;
  created_at : string
}.

End Collection.

(** *** Collections tab *)

Module HomeScreen.

Record State : Type := {
  collections : list Collection.t;
  loading : bool;
  refreshing : bool
}.

Definition initial : State :=
  {| collections := []; loading := true; refreshing := false |}.

Inductive Request : Type := GetCollections.

Section Handlers.
Variable Store : Type.
Variable get : Store -> Store * Api.Result (list Collection.t).

Definition fetchCollections (st : State) (db : Store)
  : State * Store * list (Effect Request) :=
  match get db with
  | (db', Api.Resolved data) =>
      ({| collections := data; loading := false; refreshing := false |},
       db', [Send GetCollections])
  | (db', Api.Rejected _) =>
      ({| collections := collections st; loading := false; refreshing := false |},
       db', [Send GetCollections])
  end.

Definition onRefresh (st : State) (db : Store)
  : State * Store * list (Effect Request) :=
  fetchCollections
    {| collections := collections st; loading := loading st; refreshing := true |}
    db.

(** The effect on [token]. *)
Definition tokenEffect (token : option string) (st : State) (db : Store)
  : State * Store * list (Effect Request) :=
  if signedIn token then fetchCollections st db
  else (st, db, [RouterReplace "/"]).
End Handlers.

End HomeScreen.

(** *** Selling tab *)

Module SellingScreen.

Record State : Type := {
  items : list Item.t;
  loading : bool;
  refreshing : bool
}.

Definition initial : State :=
  {| items := []; loading := true; refreshing := false |}.

Inductive Request : Type := GetSellingItems.

Section Handlers.
Variable Store : Type.
Variable get : Store -> Store * Api.Result (list Item.t).

Definition fetchSellingItems (st : State) (db : Store)
  : State * Store * list (Effect Request) :=
  match get db with
  | (db', Api.Resolved data) =>
      ({| items := data; loading := false; refreshing := false |},
       db', [Send GetSellingItems])
  | (db', Api.Rejected _) =>
      ({| items := items st; loading := false; refreshing := false |},
       db', [Send GetSellingItems])
  end.

Definition onRefresh (st : State) (db : Store)
  : State * Store * list (Effect Request) :=
  fetchSellingItems
    {| items := items st; loading := loading st; refreshing := true |} db.

Definition tokenEffect (token : option string) (st : State) (db : Store)
  : State * Store * list (Effect Request) :=
  if signedIn token then fetchSellingItems st db
  else (st, db, [RouterReplace "/"]).
End Handlers.

End SellingScreen.

(** *** Items tab: loading the list *)

Module ItemsScreenList.

Record State : Type := {
  items : list Item.t;
  filteredItems : list Item.t;
  loading : bool;
  refreshing : bool;
  searchQuery : string
}.

Definition initial : State :=
  {| items := []; filteredItems := []; loading := true; refreshing := false;
     searchQuery := "" |}.

Inductive Request : Type := GetItems.

(** The effect on [searchQuery, items]. *)
Definition searchEffect (st : State) : State :=
  {| items := items st;
     filteredItems := ItemsScreen.filteredItems (searchQuery st) (items st);
     loading := loading st; refreshing := refreshing st;
     searchQuery := searchQuery st |}.

Definition setSearchQuery (q : string) (st : State) : State :=
  {| items := items st; filteredItems := filteredItems st;
     loading := loading st; refreshing := refreshing st; searchQuery := q |}.

Definition setRefreshing (b : bool) (st : State) : State :=
  {| items := items st; filteredItems := filteredItems st;
     loading := loading st; refreshing := b; searchQuery := searchQuery st |}.

Section Handlers.
Variable Store : Type.
Variable get : Store -> Store * Api.Result (list Item.t).

Definition fetchItems (st : State) (db : Store)
  : State * Store * list (Effect Request) :=
  match get db with
  | (db', Api.Resolved data) =>
      ({| items := data; filteredItems := data; loading := false;
          refreshing := false; searchQuery := searchQuery st |},
       db', [Send GetItems])
  | (db', Api.Rejected _) =>
      ({| items := items st; filteredItems := filteredItems st;
          loading := false; refreshing := false;
          searchQuery := searchQuery st |},
       db', [Send GetItems])
  end.

Definition onRefresh (st : State) (db : Store)
  : State * Store * list (Effect Request) :=
  fetchItems (setRefreshing true st) db.

Definition tokenEffect (token : option string) (st : State) (db : Store)
  : State * Store * list (Effect Request) :=
  if signedIn token then fetchItems st db
  else (st, db, [RouterReplace "/"]).
End Handlers.

(** What happens on the screen: the text of the search box changes, the
    token effect runs and its request is answered, the list is pulled down
    and the request is answered. *)
Inductive Event : Type :=
| ChangeSearch (q : string)
| TokenSeen (token : option string) (r : Api.Result (list Item.t))
| Refresh (r : Api.Result (list Item.t)).

(** The search effect runs again when one of its dependencies changed: a
    resolved fetch stores a new array in [items], a rejected one leaves
    [items] as it is. *)
Definition afterFetch (r : Api.Result (list Item.t)) (st : State) : State :=
  match r with
  | Api.Resolved _ => searchEffect st
  | Api.Rejected _ => st
  end.

Definition step (st : State) (e : Event) : State :=
  match e with
  | ChangeSearch q =>
      if String.eqb q (searchQuery st) then st
      else searchEffect (setSearchQuery q st)
  | TokenSeen token r =>
      if signedIn token
      then afterFetch r (tokenEffect unit (answering r) token st tt).1.1
      else st
  | Refresh r => afterFetch r (onRefresh unit (answering r) st tt).1.1
  end.

Definition run (st : State) (events : list Event) : State :=
  fold_left step events st.

End ItemsScreenList.

(** *** Item detail screen: loading and deleting *)

Module ItemDetailScreenLoad.

Inductive Request : Type :=
| GetItem (id : string)
| DeleteItem (id : string).

Inductive Choice : Type := Cancel | Delete.

Definition confirmation : Effect Request :=
  Alert "Delete Item" "Are you sure you want to delete this item?".

Section Handlers.
Variable id : string.
Variable Store : Type.
Variable get : string -> Store -> Store * Api.Result Item.t.
Variable delete : string -> Store -> Store * Api.Result unit.

Definition fetchItem (st : ItemDetailScreen.State) (db : Store)
  : ItemDetailScreen.State * Store * list (Effect Request) :=
  match get id db with
  | (db', Api.Resolved data) =>
      ({| ItemDetailScreen.item := Some data;
          ItemDetailScreen.loading := false;
          ItemDetailScreen.currentImageIndex :=
            ItemDetailScreen.currentImageIndex st |},
       db', [Send (GetItem id)])
  | (db', Api.Rejected _) =>
      ({| ItemDetailScreen.item := ItemDetailScreen.item st;
          ItemDetailScreen.loading := false;
          ItemDetailScreen.currentImageIndex :=
            ItemDetailScreen.currentImageIndex st |},
       db', [Send (GetItem id); Alert "Error" "Failed to load item"])
  end.

Definition handleDelete (choice : Choice) (db : Store)
  : Store * list (Effect Request) :=
  match choice with
  | Cancel => (db, [confirmation])
  | Delete =>
      match delete id db with
      | (db', Api.Resolved _) =>
          (db', [confirmation; Send (DeleteItem id);
                 Alert "Success" "Item deleted"; RouterBack])
      | (db', Api.Rejected _) =>
          (db', [confirmation; Send (DeleteItem id);
                 Alert "Error" "Failed to delete item"])
      end
  end.
End Handlers.

End ItemDetailScreenLoad.

(** *** Collection detail screen: loading and sharing *)

Module CollectionDetailScreenLoad.

Record State : Type := {
  collection : option Collection.t;
  items : list Item.t;
  loading : bool
}.

Definition initial : State :=
  {| collection := None; items := []; loading := true |}.

Inductive Request : Type :=
| GetCollection (id : string)
| GetItemsOf (id : string)
| PostShare (id : string).

(** [`${collection?.name}`] *)
Definition shownName (c : option Collection.t) : string :=
  match c with
  | Some c => Collection.name c
  | None => "undefined"
  end.

(** The text handed to the share sheet. *)
Definition shareMessage (c : option Collection.t) (shareCode : string) : string :=
  "Check out my " +:+ shownName c +:+ " collection! Use code: " +:+ shareCode.

Section Handlers.
Variable id : string.
Variable Store : Type.
Variable getCollection : string -> Store -> Store * Api.Result Collection.t.
Variable getItems : string -> Store -> Store * Api.Result (list Item.t).
Variable postShare : string -> Store -> Store * Api.Result string.

(** Both requests go out; [Promise.all] resolves when both do and rejects
    when one does. *)
Definition fetchCollectionDetails (st : State) (db : Store)
  : State * Store * list (Effect Request) :=
  let '(db1, rc) := getCollection id db in
  let '(db2, ri) := getItems id db1 in
  match rc, ri with
  | Api.Resolved c, Api.Resolved its =>
      ({| collection := Some c; items := its; loading := false |}, db2,
       [Send (GetCollection id); Send (GetItemsOf id)])
  | _, _ =>
      ({| collection := collection st; items := items st; loading := false |},
       db2,
       [Send (GetCollection id); Send (GetItemsOf id);
        Alert "Error" "Failed to load collection"])
  end.

(** [handleShare]; [sheetOpens] tells whether [Share.share] resolves. The
    last component is the message [Share.share] was called with. *)
Definition handleShare (st : State) (sheetOpens : bool) (db : Store)
  : Store * list (Effect Request) * option string :=
  match postShare id db with
  | (db', Api.Resolved shareCode) =>
      if sheetOpens
      then (db', [Send (PostShare id)],
            Some (shareMessage (collection st) shareCode))
      else (db', [Send (PostShare id);
                  Alert "Error" "Failed to generate share code"],
            Some (shareMessage (collection st) shareCode))
  | (db', Api.Rejected _) =>
      (db', [Send (PostShare id);
             Alert "Error" "Failed to generate share code"], None)
  end.
End Handlers.

End CollectionDetailScreenLoad.

(** *** Profile tab *)

Module ProfileScreen.

Inductive Choice : Type := Cancel | Logout.

Definition confirmation : Effect Empty_set :=
  Alert "Logout" "Are you sure you want to logout?".

(** [handleLogout] with the button pressed in its dialog. When [logout]
    throws, the [router.replace] after it is not reached. *)
Definition handleLogout (choice : Choice) (auth : AuthStore.State)
  (sto : AsyncStorage.t)
  : AuthStore.State * AsyncStorage.t * list (Effect Empty_set) :=
  match choice with
  | Cancel => (auth, sto, [confirmation])
  | Logout =>
      match AuthStore.logout auth sto with
      | (auth', sto', AuthStore.Returned) =>
          (auth', sto', [confirmation; RouterReplace "/"])
      | (auth', sto', AuthStore.Threw) => (auth', sto', [confirmation])
      end
  end.

End ProfileScreen.

(** *** Login screen: its effects *)

Module LoginScreenEffects.

(** The effect on mount. *)
Definition mountEffect (auth : AuthStore.State) (sto : AsyncStorage.t)
  : AuthStore.State * AsyncStorage.t :=
  AuthStore.loadAuth auth sto.

(** The effect on [authLoading, token]. *)
Definition redirectEffect (auth : AuthStore.State)
  : list (Effect LoginScreen.Credentials) :=
  if negb (AuthStore.isLoading auth) && signedIn (AuthStore.token auth)
  then [RouterReplace "/(tabs)/home"]
  else [].

End LoginScreenEffects.

(** *** New-collection form: what the user can do on it *)

Module AddCollectionScreenForm.

Inductive Event : Type :=
| ChangeName (s : string)
| ChangeDescription (s : string)
| PressCategory (k : nat).

Definition step (st : AddCollectionScreen.State) (e : Event)
  : AddCollectionScreen.State :=
  match e with
  | ChangeName s =>
      {| AddCollectionScreen.name := s;
         AddCollectionScreen.description := AddCollectionScreen.description st;
         AddCollectionScreen.selectedCategory :=
           AddCollectionScreen.selectedCategory st;
         AddCollectionScreen.loading := AddCollectionScreen.loading st |}
  | ChangeDescription s =>
      {| AddCollectionScreen.name := AddCollectionScreen.name st;
         AddCollectionScreen.description := s;
         AddCollectionScreen.selectedCategory :=
           AddCollectionScreen.selectedCategory st;
         AddCollectionScreen.loading := AddCollectionScreen.loading st |}
  | PressCategory k =>
      match AddCollectionScreen.CATEGORIES !! k with
      | Some category =>
          {| AddCollectionScreen.name := AddCollectionScreen.name st;
             AddCollectionScreen.description :=
               AddCollectionScreen.description st;
             AddCollectionScreen.selectedCategory := category;
             AddCollectionScreen.loading := AddCollectionScreen.loading st |}
      | None => st
      end
  end.

Definition run (events : list Event) : AddCollectionScreen.State :=
  fold_left step events AddCollectionScreen.initial.

End AddCollectionScreenForm.

(** *** Barcode scanner *)

Module BarcodeScannerScreen.

Record State : Type := {
  hasPermission : option bool;
  scanned : bool
}.

Definition initial : State := {| hasPermission := None; scanned := false |}.

(** What happens while the screen stays open. *)
Inductive Event : Type :=
| PermissionAnswered (status : string)
| BarcodeSeen (data : string)
| PressRescan.

(** [handleBarCodeScanned] *)
Definition handleBarCodeScanned (data : string) (st : State)
  : State * list (Effect Empty_set) :=
  ({| hasPermission := hasPermission st; scanned := true |},
   [Alert "Barcode Scanned" ("Barcode: " +:+ data)]).

(** The camera view is rendered once permission is granted, and it reports
    barcodes to [handleBarCodeScanned] only while [scanned] is false; the
    rescan button is rendered with the camera view while [scanned] is true. *)
Definition cameraShown (st : State) : bool :=
  match hasPermission st with
  | Some true => true
  | _ => false
  end.

Definition step (st : State) (e : Event) : State * list (Effect Empty_set) :=
  match e with
  | PermissionAnswered status =>
      ({| hasPermission := Some (String.eqb status "granted");
          scanned := scanned st |}, [])
  | BarcodeSeen data =>
      if cameraShown st && negb (scanned st)
      then handleBarCodeScanned data st
      else (st, [])
  | PressRescan =>
      if cameraShown st && scanned st
      then ({| hasPermission := hasPermission st; scanned := false |}, [])
      else (st, [])
  end.

(** The state after the events and everything shown on the way. *)
Fixpoint run (st : State) (events : list Event)
  : State * list (Effect Empty_set) :=
  match events with
  | [] => (st, [])
  | e :: events' =>
      let '(st1, shown1) := step st e in
      let '(st2, shown2) := run st1 events' in
      (st2, (shown1 ++ shown2)%list)
  end.

Definition isRescan (e : Event) : bool :=
  match e with
  | PressRescan => true
  | _ => false
  end.

End BarcodeScannerScreen.

(** The list on screen is the filter of the loaded items by the text of
    the search box. *)
Definition showsFiltered (st : ItemsScreenList.State) : Prop :=
  ItemsScreenList.filteredItems st
  = ItemsScreen.filteredItems (ItemsScreenList.searchQuery st)
                              (ItemsScreenList.items st).

(** Whether the handler left the screen. *)
Definition wentBack {Request : Type} (es : list (Effect Request)) : bool :=
  existsb (fun e => match e with RouterBack => true | _ => false end) es.

(** An image of the add-item form: a JPEG data URI with some payload. *)
Definition isDataUri (image : string) : Prop :=
  exists base64, base64 <> "" /\ image = AddItemScreen.dataUri base64.

(** The images on the form and the lists captured by the picker calls in
    flight hold data URIs only. *)
Definition imagesAreDataUris (sc : AddItemScreen.Screen) : Prop :=
  Forall isDataUri (AddItemScreen.images (AddItemScreen.state sc))
  /\ Forall (fun p => Forall isDataUri p.2) (AddItemScreen.pending sc).

Definition isCollectionPress (e : AddItemScreen.Event) : bool :=
  match e with
  | AddItemScreen.PressNoCollection => true
  | AddItemScreen.PressCollection _ => true
  | _ => false
  end.

(** How many alerts are among the effects. *)
Definition alertCount {Request : Type} (es : list (Effect Request)) : nat :=
  length (alerts es).

(** The camera permission is granted by this event. *)
Definition isGrant (e : BarcodeScannerScreen.Event) : bool :=
  match e with
  | BarcodeScannerScreen.PermissionAnswered status => String.eqb status "granted"
  | _ => false
  end.

(** How often "Tap to Scan Again" is pressed among the events. *)
Definition rescans (events : list BarcodeScannerScreen.Event) : nat :=
  length (List.filter BarcodeScannerScreen.isRescan events).

(** ** The search filter over any text

    The search effect of the items tab once more, with its ingredients as
    parameters: the code units [U] a string is made of, the items with the
    two fields the filter reads ([item.name] and [item.description]), and
    [String.prototype.toLowerCase]. Nothing is assumed about what
    lower-casing does to a string, so what is proved of this filter holds of
    the filter of the screen on every JavaScript string. *)

Module SearchFilter.

Section Filter.
Context {U : Type} `{EqDecision U} {Item : Type}.
Variable toLowerCase : list U -> list U.
Variable name : Item -> list U.
Variable description : Item -> list U.

(** [q] is found at the head of [s]. *)
Fixpoint startsWith (s q : list U) {struct q} : bool :=
  match q with
  | [] => true
  | b :: q' =>
      match s with
      | [] => false
      | a :: s' => if decide (a = b) then startsWith s' q' else false
      end
  end.

(** [String.prototype.includes]: [q] is found in [s] at some position. *)
Fixpoint includes (s q : list U) : bool :=
  startsWith s q ||
  match s with
  | [] => false
  | _ :: s' => includes s' q
  end.

(** The predicate of [items.filter(...)] in the search effect. *)
Definition matches (searchQuery : list U) (item : Item) : bool :=
  includes (toLowerCase (name item)) (toLowerCase searchQuery)
  || includes (toLowerCase (description item)) (toLowerCase searchQuery).

(** The value given to [setFilteredItems]; [if (searchQuery)] tests that
    the query is not empty. *)
Definition filteredItems (searchQuery : list U) (items : list Item) : list Item :=
  match searchQuery with
  | [] => items
  | _ :: _ => List.filter (matches searchQuery) items
  end.
End Filter.

End SearchFilter.

(** [q] occurs in [s] as a contiguous stretch. *)
Definition occursIn {U : Type} (q s : list U) : Prop :=
  exists pre suf, s = (pre ++ q ++ suf)%list.

(** The code units of a string of this file, and its lower-casing on them. *)
Definition units (s : string) : list ascii := list_ascii_of_string s.

Definition lowerUnits (l : list ascii) : list ascii :=
  units (JS.toLowerCase (string_of_list_ascii l)).

(** ** Price texts and stored prices *)

(** After leading white space the text does not begin with a minus sign. *)
Definition noLeadingMinus (text : string) : Prop :=
  JS.startsWith (JS.trimStart text) "-" = false.

(** Every character of [s] is a decimal digit. *)
Fixpoint allDigits (s : string) : bool :=
  match s with
  | EmptyString => true
  | String c s' =>
      match JS.digitOf c with
      | Some _ => allDigits s'
      | None => false
      end
  end.

(** One of the characters of [s] is a digit other than 0. *)
Fixpoint someNonZeroDigit (s : string) : bool :=
  match s with
  | EmptyString => false
  | String c s' =>
      match JS.digitOf c with
      | Some d => negb (d =? 0)%N || someNonZeroDigit s'
      | None => someNonZeroDigit s'
      end
  end.

(** The text is a minus sign followed by a decimal numeral without exponent
    ([int], or [int.frac]; either part may be empty) of at most 15 digits,
    not all of them 0. A numeral this short is neither rounded to zero nor
    to an infinity when it is read as a double. *)
Definition minusDecimal (text : string) : Prop :=
  exists int frac,
    (text = String "-" int /\ frac = ""
     \/ text = String "-" (int +:+ String "." frac))
    /\ allDigits int = true /\ allDigits frac = true
    /\ someNonZeroDigit (int +:+ frac) = true
    /\ (String.length int + String.length frac <= 15)%nat.


(** * Properties *)

(** ** Sanity checks of the primitives *)

Example includes_mario :
  JS.includes (JS.toLowerCase "Super Mario Bros") (JS.toLowerCase "mario") = true.
Proof. reflexivity. Qed.

Example includes_zelda :
  JS.includes (JS.toLowerCase "Zelda") (JS.toLowerCase "mario") = false.
Proof. reflexivity. Qed.

Example parseFloat_decimal : JS.parseFloat "12.50" = JS.Dec false 1250 (-2).
Proof. reflexivity. Qed.

Example parseFloat_prefix : JS.parseFloat "  7e2abc" = JS.Dec false 7 2.
Proof. reflexivity. Qed.

Example parseFloat_negative : JS.parseFloat "-5" = JS.Dec true 5 0.
Proof. reflexivity. Qed.

Example parseFloat_empty : JS.parseFloat "" = JS.NaN.
Proof. reflexivity. Qed.

Example parseFloat_word : JS.parseFloat "abc" = JS.NaN.
Proof. reflexivity. Qed.

Example parseFloat_dot : JS.parseFloat "." = JS.NaN.
Proof. reflexivity. Qed.

Example parseFloat_open_exponent : JS.parseFloat ".5e+" = JS.Dec false 5 (-1).
Proof. reflexivity. Qed.

(** ** Strings: [startsWith], [includes] and [toLowerCase] *)

Section StringFacts.
Import JS.

Lemma startsWith_true_iff (s q : string) :
  startsWith s q = true <-> exists suf, s = q +:+ suf.
Proof.
  revert s; induction q as [|b q IH]; intros s.
  - split; [intros _; now exists s | reflexivity].
  - destruct s as [|a s]; simpl.
    + split; [discriminate | intros [suf H]; discriminate].
    + destruct (ascii_dec a b) as [->|Hne].
      * rewrite IH. split; intros [suf H]; exists suf.
        -- now rewrite H.
        -- now injection H.
      * split; [discriminate|]. intros [suf H]. injection H as Hab _. contradiction.
Qed.

Lemma includes_true_iff (s q : string) :
  includes s q = true <-> exists pre suf, s = pre +:+ q +:+ suf.
Proof.
  induction s as [|a s IH]; cbn [includes].
  - rewrite orb_false_r, startsWith_true_iff. split.
    + intros [suf H]. now exists "", suf.
    + intros [pre [suf H]]. destruct pre; [now exists suf | discriminate].
  - rewrite orb_true_iff, startsWith_true_iff, IH. split.
    + intros [[suf H] | [pre [suf H]]].
      * now exists "", suf.
      * exists (String a pre), suf. simpl. now rewrite H.
    + intros [pre [suf H]]. destruct pre as [|c pre]; simpl in H.
      * left. now exists suf.
      * right. injection H as _ H. now exists pre, suf.
Qed.

Lemma toLowerCase_app (a b : string) :
  toLowerCase (a +:+ b) = toLowerCase a +:+ toLowerCase b.
Proof. induction a as [|c a IH]; simpl; [reflexivity | now rewrite IH]. Qed.

(** A split of the lower-cased string comes from a split of the string. *)
Lemma toLowerCase_split (s x y : string) :
  toLowerCase s = x +:+ y ->
  exists a b, s = a +:+ b /\ toLowerCase a = x /\ toLowerCase b = y.
Proof.
  revert s; induction x as [|c x IH]; intros s H; simpl in H.
  - now exists "", s.
  - destruct s as [|d s]; [discriminate|]. simpl in H.
    injection H as Hc H. destruct (IH _ H) as (a & b & -> & Ha & Hb).
    exists (String d a), b. simpl. now rewrite Hc, Ha, Hb.
Qed.

Lemma sameIgnoringCase_iff (a b : string) :
  SearchSpec.sameIgnoringCase a b <-> toLowerCase a = toLowerCase b.
Proof.
  split.
  - induction 1 as [|x y s t Hxy _ IH]; simpl; [reflexivity | now rewrite Hxy, IH].
  - revert b; induction a as [|x a IH]; intros [|y b] H; simpl in H;
      try discriminate; [constructor|].
    injection H as Hxy H. constructor; auto.
Qed.

(** The test the screen runs is the case-insensitive substring test. *)
Lemma includes_toLowerCase_iff (field q : string) :
  includes (toLowerCase field) (toLowerCase q) = true
  <-> SearchSpec.ciSubstring q field.
Proof.
  rewrite includes_true_iff. unfold SearchSpec.ciSubstring. split.
  - intros (pre & suf & H).
    destruct (toLowerCase_split _ _ _ H) as (a & r & -> & Ha & Hr).
    destruct (toLowerCase_split _ _ _ Hr) as (m & b & -> & Hm & Hb).
    exists a, m, b. split; [reflexivity|]. now apply sameIgnoringCase_iff.
  - intros (pre & mid & suf & -> & Hm). apply sameIgnoringCase_iff in Hm.
    exists (toLowerCase pre), (toLowerCase suf).
    now rewrite !toLowerCase_app, Hm.
Qed.

Lemma truthy_true_iff (s : string) : truthy s = true <-> s <> "".
Proof. destruct s; simpl; split; congruence. Qed.

Lemma truthy_false_iff (s : string) : truthy s = false <-> s = "".
Proof. destruct s; simpl; split; congruence. Qed.

End StringFacts.

(** ** Items tab: search *)

Lemma matches_true_iff (q : string) (item : Item.t) :
  ItemsScreen.matches q item = true <-> SearchSpec.matchesNameOrDescription q item.
Proof.
  unfold ItemsScreen.matches, SearchSpec.matchesNameOrDescription.
  now rewrite orb_true_iff, !includes_toLowerCase_iff.
Qed.

Lemma filter_sublist {A : Type} (p : A -> bool) (l : list A) :
  sublist (List.filter p l) l.
Proof.
  induction l as [|x l IH]; simpl; [constructor|].
  destruct (p x); now constructor.
Qed.

Lemma filteredItems_sublist (q : string) (items : list Item.t) :
  sublist (ItemsScreen.filteredItems q items) items.
Proof.
  unfold ItemsScreen.filteredItems.
  destruct (JS.truthy q); [apply filter_sublist | reflexivity].
Qed.

Example search_mario :
  ItemsScreen.filteredItems "mario" [marioItem; zeldaItem] = [marioItem].
Proof. reflexivity. Qed.

Example search_both_fields_once :
  ItemsScreen.filteredItems "s" [marioItem; zeldaItem] = [marioItem].
Proof. reflexivity. Qed.

(** *** The filter over any text and any lower-casing *)

Section SearchFilterFacts.
Context {U : Type} `{EqDecision U} {Item : Type}.
Variable toLowerCase : list U -> list U.
Variable name description : Item -> list U.

Lemma startsWith_prefix (s q : list U) :
  SearchFilter.startsWith s q = true <-> exists suf, s = (q ++ suf)%list.
Proof.
  revert s; induction q as [|b q IH]; intros s.
  - split; [intros _; now exists s | reflexivity].
  - destruct s as [|a s]; cbn [SearchFilter.startsWith].
    + split; [discriminate | intros [suf Hs]; discriminate].
    + destruct (decide (a = b)) as [->|Hne].
      * rewrite IH. split; intros [suf Hs]; exists suf.
        -- now rewrite Hs.
        -- now injection Hs.
      * split; [discriminate|]. intros [suf Hs]. injection Hs as Hab _.
        contradiction.
Qed.

Lemma includes_occursIn (s q : list U) :
  SearchFilter.includes s q = true <-> occursIn q s.
Proof.
  unfold occursIn. induction s as [|a s IH]; cbn [SearchFilter.includes].
  - rewrite orb_false_r, startsWith_prefix. split.
    + intros [suf Hs]. now exists [], suf.
    + intros (pre & suf & Hs). destruct pre; [now exists suf | discriminate].
  - rewrite orb_true_iff, startsWith_prefix, IH. split.
    + intros [[suf Hs] | (pre & suf & Hs)].
      * now exists [], suf.
      * exists (a :: pre), suf. simpl. now rewrite Hs.
    + intros (pre & suf & Hs). destruct pre as [|c pre]; simpl in Hs.
      * left. now exists suf.
      * right. injection Hs as _ Hs. now exists pre, suf.
Qed.

Lemma matches_occursIn (q : list U) (item : Item) :
  SearchFilter.matches toLowerCase name description q item = true
  <-> occursIn (toLowerCase q) (toLowerCase (name item))
      \/ occursIn (toLowerCase q) (toLowerCase (description item)).
Proof.
  unfold SearchFilter.matches. now rewrite orb_true_iff, !includes_occursIn.
Qed.

Lemma searchFilter_sublist (q : list U) (items : list Item) :
  sublist (SearchFilter.filteredItems toLowerCase name description q items) items.
Proof. destruct q; [reflexivity | apply filter_sublist]. Qed.

End SearchFilterFacts.

(** *** The filter on the strings of this file is the same filter *)

Lemma lowerUnits_units (s : string) :
  lowerUnits (units s) = units (JS.toLowerCase s).
Proof.
  unfold lowerUnits, units. now rewrite string_of_list_ascii_of_string.
Qed.

Lemma startsWith_units (s q : string) :
  JS.startsWith s q = SearchFilter.startsWith (units s) (units q).
Proof.
  revert s; induction q as [|b q IH]; intros s; [reflexivity|].
  destruct s as [|a s]; [reflexivity|].
  change (units (String a s)) with (a :: units s).
  change (units (String b q)) with (b :: units q).
  cbn [JS.startsWith SearchFilter.startsWith].
  destruct (ascii_dec a b), (decide (a = b));
    try contradiction; [apply IH | reflexivity].
Qed.

Lemma includes_units (s q : string) :
  JS.includes s q = SearchFilter.includes (units s) (units q).
Proof.
  induction s as [|a s IH].
  - cbn [JS.includes]. change (units "") with (@nil ascii).
    cbn [SearchFilter.includes]. now rewrite startsWith_units.
  - cbn [JS.includes]. change (units (String a s)) with (a :: units s).
    cbn [SearchFilter.includes]. rewrite IH, startsWith_units. reflexivity.
Qed.

Lemma matches_units (q : string) (item : Item.t) :
  ItemsScreen.matches q item
  = SearchFilter.matches lowerUnits
      (fun i => units (Item.name i)) (fun i => units (Item.description i))
      (units q) item.
Proof.
  unfold ItemsScreen.matches, SearchFilter.matches.
  now rewrite !lowerUnits_units, !includes_units.
Qed.

Lemma filteredItems_units (q : string) (items : list Item.t) :
  ItemsScreen.filteredItems q items
  = SearchFilter.filteredItems lowerUnits
      (fun i => units (Item.name i)) (fun i => units (Item.description i))
      (units q) items.
Proof.
  destruct q as [|c q]; [reflexivity|].
  unfold ItemsScreen.filteredItems. cbn [JS.truthy].
  change (units (String c q)) with (c :: units q).
  cbn [SearchFilter.filteredItems].
  apply filter_ext. intros item. apply matches_units.
Qed.

(** C1, as amended: for a non-empty query the search box of the items tab
    keeps exactly the items of the list whose lower-cased name or lower-cased
    description contains the lower-cased query as a contiguous stretch (the
    barcode is not looked at), whatever the code units of the texts are and
    whatever [toLowerCase] does to them; the result is a sub-sequence of the
    item list, so an item is never repeated, however many of its fields
    match. On the strings of this file (code units 0..255, lower-cased unit
    by unit) the filter of the screen is this filter, and the test is that
    the query is a case-insensitive substring of the name or of the
    description. *)
Theorem search_name_or_description :
  (forall (U : Type) (eqU : EqDecision U) (Item : Type)
          (toLowerCase : list U -> list U) (name description : Item -> list U)
          (q : list U) (items : list Item),
      q <> [] ->
      let shown :=
        SearchFilter.filteredItems toLowerCase name description q items in
      (forall item,
          item ∈ shown
          <-> item ∈ items
              /\ (occursIn (toLowerCase q) (toLowerCase (name item))
                  \/ occursIn (toLowerCase q) (toLowerCase (description item))))
      /\ sublist shown items
      /\ (NoDup items -> NoDup shown))
  /\ (forall (q : string) (items : list Item.t),
         ItemsScreen.filteredItems q items
         = SearchFilter.filteredItems lowerUnits
             (fun i => units (Item.name i))
             (fun i => units (Item.description i))
             (units q) items
         /\ (q <> "" ->
             forall item,
               item ∈ ItemsScreen.filteredItems q items
               <-> item ∈ items /\ SearchSpec.matchesNameOrDescription q item)).
Proof.
  split.
  - intros U eqU Item toLowerCase name description q items Hq shown.
    split; [|split].
    + intros item. subst shown. destruct q as [|c q]; [congruence|].
      cbn [SearchFilter.filteredItems].
      rewrite !list_elem_of_In, filter_In. now rewrite matches_occursIn.
    + apply searchFilter_sublist.
    + intros Hnd. exact (sublist_NoDup _ _ Hnd (searchFilter_sublist _ _ _ q items)).
  - intros q items. split; [apply filteredItems_units|].
    intros Hq item. unfold ItemsScreen.filteredItems.
    apply truthy_true_iff in Hq. rewrite Hq.
    rewrite !list_elem_of_In, filter_In. now rewrite matches_true_iff.
Qed.

Lemma search_name_or_description_witness :
  "mario" <> ""
  /\ marioItem ∈ ItemsScreen.filteredItems "mario" [marioItem; zeldaItem]
  /\ ~ zeldaItem ∈ ItemsScreen.filteredItems "mario" [marioItem; zeldaItem]
  /\ (zeldaItem
      ∈ SearchFilter.filteredItems lowerUnits
          (fun i => units (Item.name i)) (fun i => units (Item.description i))
          (units "ELD") [marioItem; zeldaItem]).
Proof.
  assert (Hq : "mario" <> "") by discriminate.
  destruct search_name_or_description as [Hany Hstr].
  destruct (Hstr "mario" [marioItem; zeldaItem]) as [_ Hiff].
  split; [exact Hq|]. split; [|split].
  - apply (Hiff Hq). split; [left|].
    left. exists "Super ", "Mario", " Bros". split; [reflexivity|].
    apply sameIgnoringCase_iff. reflexivity.
  - intros Hin. vm_compute in Hin.
    apply list_elem_of_In in Hin. destruct Hin as [Heq | []]. discriminate Heq.
  - assert (Hne : units "ELD" <> []) by discriminate.
    destruct (Hany ascii _ Item.t lowerUnits
                (fun i => units (Item.name i))
                (fun i => units (Item.description i))
                (units "ELD") [marioItem; zeldaItem] Hne) as (Hin & _ & _).
    apply Hin. split; [right; left|].
    left. exists (units "z"), (units "a"). reflexivity.
Defined.

(** C1 as stated fails: an item whose barcode alone contains the query is
    not returned by the search box. *)
Lemma search_ignores_barcode :
  "630348" <> ""
  /\ zeldaItem ∈ [marioItem; zeldaItem]
  /\ SearchSpec.matchesAnyField "630348" zeldaItem
  /\ ~ zeldaItem ∈ ItemsScreen.filteredItems "630348" [marioItem; zeldaItem].
Proof.
  split; [discriminate|]. split; [right; left|]. split.
  - right. right. exists "045496630348". split; [reflexivity|].
    exists "045496", "630348", "". split; [reflexivity|].
    apply sameIgnoringCase_iff. reflexivity.
  - intros Hin. vm_compute in Hin. inversion Hin.
Qed.

Lemma includes_empty (s : string) : JS.includes s "" = true.
Proof. destruct s; reflexivity. Qed.

Lemma matches_empty (item : Item.t) : ItemsScreen.matches "" item = true.
Proof. unfold ItemsScreen.matches. simpl. now rewrite includes_empty. Qed.

(** C9: with the empty query the search box shows the item list as it is;
    and the filter itself, run with the empty query, keeps every item. *)
Theorem empty_query_shows_all (items : list Item.t) :
  ItemsScreen.filteredItems "" items = items
  /\ List.filter (ItemsScreen.matches "") items = items.
Proof.
  split; [reflexivity|].
  induction items as [|item items IH]; simpl; [reflexivity|].
  now rewrite matches_empty, IH.
Qed.

(** ** New-collection form *)

Example collection_create_sample :
  AddCollectionScreen.handleCreate _ recordingServer
    {| AddCollectionScreen.name := "Retro Games";
       AddCollectionScreen.description := "";
       AddCollectionScreen.selectedCategory := "video games";
       AddCollectionScreen.loading := false |} []
  = ({| AddCollectionScreen.name := "Retro Games";
        AddCollectionScreen.description := "";
        AddCollectionScreen.selectedCategory := "video games";
        AddCollectionScreen.loading := false |},
     [{| AddCollectionScreen.Body.name := "Retro Games";
         AddCollectionScreen.Body.category := "video games";
         AddCollectionScreen.Body.description := "" |}],
     [Send {| AddCollectionScreen.Body.name := "Retro Games";
              AddCollectionScreen.Body.category := "video games";
              AddCollectionScreen.Body.description := "" |};
      Alert "Success" "Collection created successfully"; RouterBack]).
Proof. reflexivity. Qed.

(** C7: with an empty name or an empty category the form shows the
    validation error, sends nothing and leaves the server state as it was;
    with both filled in it sends one request carrying exactly the name, the
    category and the description of the form, whatever the server answers. *)
Theorem collection_create_validation
  (Store : Type) (post : AddCollectionScreen.Body.t -> Store -> Store * Api.Result unit)
  (st : AddCollectionScreen.State) (db : Store) :
  let out := AddCollectionScreen.handleCreate Store post st db in
  (AddCollectionScreen.name st = "" \/ AddCollectionScreen.selectedCategory st = "" ->
     out = (st, db, [Alert "Error" "Please fill in all required fields"])
     /\ requests out.2 = [])
  /\ (AddCollectionScreen.name st <> ""
      /\ AddCollectionScreen.selectedCategory st <> "" ->
     requests out.2 =
       [{| AddCollectionScreen.Body.name := AddCollectionScreen.name st;
           AddCollectionScreen.Body.category := AddCollectionScreen.selectedCategory st;
           AddCollectionScreen.Body.description :=
             AddCollectionScreen.description st |}]).
Proof.
  cbv zeta. unfold AddCollectionScreen.handleCreate. split.
  - intros H.
    assert (Hg : negb (JS.truthy (AddCollectionScreen.name st))
                 || negb (JS.truthy (AddCollectionScreen.selectedCategory st)) = true).
    { destruct H as [-> | ->]; [reflexivity | apply orb_true_r]. }
    rewrite Hg. split; reflexivity.
  - intros [Hn Hc]. apply truthy_true_iff in Hn, Hc. rewrite Hn, Hc. simpl.
    destruct (post _ db) as [db' [u | e]]; reflexivity.
Qed.

Lemma collection_create_validation_witness :
  requests (AddCollectionScreen.handleCreate _ recordingServer
              {| AddCollectionScreen.name := "Retro Games";
                 AddCollectionScreen.description := "8 and 16 bit";
                 AddCollectionScreen.selectedCategory := "";
                 AddCollectionScreen.loading := false |} []).2 = []
  /\ requests (AddCollectionScreen.handleCreate _ recordingServer
              {| AddCollectionScreen.name := "Retro Games";
                 AddCollectionScreen.description := "8 and 16 bit";
                 AddCollectionScreen.selectedCategory := "video games";
                 AddCollectionScreen.loading := false |} []).2
     = [{| AddCollectionScreen.Body.name := "Retro Games";
           AddCollectionScreen.Body.category := "video games";
           AddCollectionScreen.Body.description := "8 and 16 bit" |}].
Proof.
  split.
  - apply (collection_create_validation _ recordingServer
             {| AddCollectionScreen.name := "Retro Games";
                AddCollectionScreen.description := "8 and 16 bit";
                AddCollectionScreen.selectedCategory := "";
                AddCollectionScreen.loading := false |} []).
    right. reflexivity.
  - apply (collection_create_validation _ recordingServer
             {| AddCollectionScreen.name := "Retro Games";
                AddCollectionScreen.description := "8 and 16 bit";
                AddCollectionScreen.selectedCategory := "video games";
                AddCollectionScreen.loading := false |} []).
    split; discriminate.
Defined.

(** ** Add-item form: photos *)

Lemma filterFrom_keep_all {A : Type} (p : A -> nat -> bool) (i : nat) (l : list A) :
  (forall x j, i <= j -> p x j = true) -> JS.filterFrom p i l = l.
Proof.
  revert i; induction l as [|x l IH]; intros i H; simpl; [reflexivity|].
  rewrite H by lia. f_equal. apply IH. intros y j Hj. apply H. lia.
Qed.

Lemma filterFrom_skip_index {A : Type} (k i : nat) (l : list A) :
  JS.filterFrom (fun _ j => negb (Nat.eqb j (k + i))) k l = delete i l.
Proof.
  revert k i; induction l as [|x l IH]; intros k i; simpl; [reflexivity|].
  destruct i as [|i]; simpl.
  - replace (k + 0) with k by lia. rewrite Nat.eqb_refl. simpl.
    apply filterFrom_keep_all. intros _ j Hj.
    apply negb_true_iff, Nat.eqb_neq. lia.
  - destruct (Nat.eqb_spec k (k + S i)) as [Heq|_]; [lia|]. simpl.
    f_equal. replace (k + S i) with (S k + i) by lia. apply IH.
Qed.

Lemma removeImage_delete (images : list string) (index : nat) :
  AddItemScreen.removeImage images index = delete index images.
Proof. apply (filterFrom_skip_index 0 index images). Qed.

Lemma removeImage_length (images : list string) (index : nat) :
  length (AddItemScreen.removeImage images index) <= length images.
Proof.
  rewrite removeImage_delete. revert index.
  induction images as [|x l IH]; intros [|i]; simpl; try lia.
  specialize (IH i). simpl in IH. lia.
Qed.

Lemma picker_outcome_length (p : AddItemScreen.Picker) (captured l : list string)
  (result : AddItemScreen.PickerResult) :
  fst (match p with
       | AddItemScreen.Camera => AddItemScreen.takePhoto captured result
       | AddItemScreen.Gallery => AddItemScreen.pickImage captured result
       end) = Some l ->
  length l = S (length captured).
Proof.
  destruct p, result as [|[b|]|]; simpl; try discriminate;
    destruct (JS.truthy b); simpl; try discriminate;
    intros [= <-]; rewrite length_app; simpl; lia.
Qed.

Lemma start_imagesBounded (collectionId : option string) :
  imagesBounded (AddItemScreen.start collectionId).
Proof. split; simpl; [lia | constructor]. Qed.

Lemma step_imagesBounded (sc : AddItemScreen.Screen) (e : AddItemScreen.Event) :
  imagesBounded sc -> imagesBounded (AddItemScreen.step sc e).
Proof.
  intros [Hlen Hpend]. destruct e; simpl;
    try (split; [exact Hlen | exact Hpend]).
  - (* PressCondition *)
    destruct (AddItemScreen.CONDITIONS !! k); split; assumption.
  - (* PressCollection *)
    destruct (AddItemScreen.collections (AddItemScreen.state sc) !! k) as [[id nm]|];
      split; assumption.
  - (* PressTakePhoto *)
    unfold AddItemScreen.launch, AddItemScreen.addButtonsShown.
    destruct (Nat.ltb_spec (length (AddItemScreen.images (AddItemScreen.state sc))) 5);
      split; simpl; try assumption.
    apply Forall_app; split; [assumption|]. apply Forall_singleton. exact H.
  - (* PressPickImage *)
    unfold AddItemScreen.launch, AddItemScreen.addButtonsShown.
    destruct (Nat.ltb_spec (length (AddItemScreen.images (AddItemScreen.state sc))) 5);
      split; simpl; try assumption.
    apply Forall_app; split; [assumption|]. apply Forall_singleton. exact H.
  - (* PickerResolves *)
    unfold AddItemScreen.resolve.
    destruct (AddItemScreen.pending sc !! k) as [[p captured]|] eqn:Hk;
      [|split; assumption].
    split; simpl.
    + pose proof (proj1 (Forall_lookup _ _) Hpend k _ Hk) as Hcap. simpl in Hcap.
      match goal with
      | |- context [fst ?o] => destruct (fst o) as [l|] eqn:Ho
      end; [|exact Hlen].
      apply picker_outcome_length in Ho. simpl. lia.
    + apply Forall_delete, Hpend.
  - (* PressRemove *)
    split; simpl; [|exact Hpend].
    pose proof (removeImage_length
                  (AddItemScreen.images (AddItemScreen.state sc)) index). lia.
Qed.

Lemma run_imagesBounded (events : list AddItemScreen.Event)
  (sc : AddItemScreen.Screen) :
  imagesBounded sc -> imagesBounded (AddItemScreen.run sc events).
Proof.
  revert sc; induction events as [|e events IH]; intros sc H; simpl; [exact H|].
  apply IH, step_imagesBounded, H.
Qed.

Example five_photos_then_buttons_gone :
  let shot := AddItemScreen.Asset (Some "AAAA") in
  let one := [AddItemScreen.PressTakePhoto; AddItemScreen.PickerResolves 0 shot] in
  let sc := AddItemScreen.run (AddItemScreen.start None)
              (one ++ one ++ one ++ one ++ one ++ one)%list in
  length (AddItemScreen.images (AddItemScreen.state sc)) = 5
  /\ AddItemScreen.pending sc = [].
Proof. split; reflexivity. Qed.

Example remove_middle_photo :
  AddItemScreen.removeImage ["a"; "b"; "c"; "d"] 1 = ["a"; "c"; "d"].
Proof. reflexivity. Qed.


(** ** Numbers read from the price fields *)

Lemma readUnsigned_sign (neg : bool) (s : string) :
  match JS.readUnsigned neg s with
  | JS.NaN => True
  | JS.Infinity n => n = neg
  | JS.Dec n _ _ => n = neg
  end.
Proof.
  unfold JS.readUnsigned.
  destruct (JS.startsWith s "Infinity"); [reflexivity|].
  destruct (JS.readDigits s 0 0) as [[i ni] r1].
  assert (Hplain : match (match ni with
                          | O => JS.NaN
                          | S _ => JS.Dec neg i (JS.readExponent r1)
                          end) with
                   | JS.NaN => True
                   | JS.Infinity n => n = neg
                   | JS.Dec n _ _ => n = neg
                   end) by (destruct ni; reflexivity).
  destruct r1 as [|c r2]; [exact Hplain|].
  destruct (ascii_dec c ".") as [->|Hc].
  - destruct (JS.readDigits r2 i 0) as [[m nf] r3]. destruct ni, nf; reflexivity.
  - destruct c as [[] [] [] [] [] [] [] []]; try exact Hplain. now elim Hc.
Qed.

Lemma readUnsigned_not_negative (s : string) :
  JS.isNegative (JS.readUnsigned false s) = false.
Proof.
  pose proof (readUnsigned_sign false s) as H.
  destruct (JS.readUnsigned false s); simpl; [reflexivity | exact H | now rewrite H].
Qed.

(** Only a text whose first non-blank character is a minus sign parses to a
    negative number. *)
Lemma parseFloat_negative_has_minus (s : string) :
  JS.isNegative (JS.parseFloat s) = true ->
  JS.startsWith (JS.trimStart s) "-" = true.
Proof.
  unfold JS.parseFloat. destruct (JS.trimStart s) as [|c t].
  - now rewrite readUnsigned_not_negative.
  - destruct (ascii_dec c "-") as [->|Hc]; [reflexivity|].
    destruct c as [[] [] [] [] [] [] [] []];
      try (now rewrite readUnsigned_not_negative).
    now elim Hc.
Qed.

Lemma orNum_zero_nonNegative (x : JS.number) :
  JS.nonNegative (JS.orNum x JS.zero) = negb (JS.isNegative x).
Proof.
  unfold JS.orNum. destruct x as [|neg|neg m e]; simpl; try reflexivity.
  destruct (m =? 0)%N eqn:Hm, neg; simpl; rewrite ?Hm; reflexivity.
Qed.

(** ** Add-item form: the create request *)

Lemma item_create_without_name
  (Store : Type) (post : AddItemScreen.Body.t -> Store -> Store * Api.Result unit)
  (st : AddItemScreen.State) (db : Store) :
  AddItemScreen.name st = "" ->
  AddItemScreen.handleCreate Store post st db
  = (st, db, [Alert "Error" "Please enter item name"]).
Proof. intros H. unfold AddItemScreen.handleCreate. now rewrite H. Qed.

Lemma item_create_with_name
  (Store : Type) (post : AddItemScreen.Body.t -> Store -> Store * Api.Result unit)
  (st : AddItemScreen.State) (db : Store) :
  AddItemScreen.name st <> "" ->
  requests (AddItemScreen.handleCreate Store post st db).2
  = [{| AddItemScreen.Body.collection_id :=
          if JS.truthy (AddItemScreen.selectedCollection st)
          then Some (AddItemScreen.selectedCollection st) else None;
        AddItemScreen.Body.name := AddItemScreen.name st;
        AddItemScreen.Body.description := AddItemScreen.description st;
        AddItemScreen.Body.images := AddItemScreen.images st;
        AddItemScreen.Body.barcode := AddItemScreen.barcode st;
        AddItemScreen.Body.purchase_price :=
          JS.orNum (JS.parseFloat (AddItemScreen.purchasePrice st)) JS.zero;
        AddItemScreen.Body.current_value :=
          JS.orNum (JS.parseFloat (AddItemScreen.currentValue st)) JS.zero;
        AddItemScreen.Body.condition := AddItemScreen.condition st;
        AddItemScreen.Body.is_wishlist := AddItemScreen.isWishlist st |}].
Proof.
  intros H. apply truthy_true_iff in H. unfold AddItemScreen.handleCreate.
  rewrite H. simpl. destruct (post _ db) as [db' [u|e]]; reflexivity.
Qed.

Lemma item_create_body
  (Store : Type) (post : AddItemScreen.Body.t -> Store -> Store * Api.Result unit)
  (st : AddItemScreen.State) (db : Store) (body : AddItemScreen.Body.t) :
  body ∈ requests (AddItemScreen.handleCreate Store post st db).2 ->
  AddItemScreen.name st <> ""
  /\ requests (AddItemScreen.handleCreate Store post st db).2 = [body].
Proof.
  intros Hin. destruct (string_dec (AddItemScreen.name st) "") as [He|Hne].
  - rewrite (item_create_without_name _ post st db He) in Hin. inversion Hin.
  - split; [exact Hne|]. rewrite (item_create_with_name _ post st db Hne) in Hin |- *.
    apply list_elem_of_singleton in Hin. now subst.
Qed.

Lemma condition_untouched (events : list AddItemScreen.Event)
  (sc : AddItemScreen.Screen) :
  forallb (fun e => negb (AddItemScreen.isPressCondition e)) events = true ->
  AddItemScreen.condition (AddItemScreen.state (AddItemScreen.run sc events))
  = AddItemScreen.condition (AddItemScreen.state sc).
Proof.
  revert sc; induction events as [|e events IH]; intros sc H; simpl in *;
    [reflexivity|].
  apply andb_true_iff in H as [He H]. rewrite (IH _ H).
  destruct e; simpl in *; try reflexivity; try discriminate.
  - destruct (AddItemScreen.collections (AddItemScreen.state sc) !! k) as [[id nm]|];
      reflexivity.
  - unfold AddItemScreen.launch. now destruct (AddItemScreen.addButtonsShown _).
  - unfold AddItemScreen.launch. now destruct (AddItemScreen.addButtonsShown _).
  - unfold AddItemScreen.resolve.
    destruct (AddItemScreen.pending sc !! k) as [[p captured]|]; [|reflexivity].
    simpl. match goal with |- context [fst ?o] => destruct (fst o) end; reflexivity.
Qed.

Example item_create_sample :
  let sc := AddItemScreen.run (AddItemScreen.start (Some "c1"))
              [AddItemScreen.ChangeName "Chrono Trigger";
               AddItemScreen.ChangeCurrentValue "150.00";
               AddItemScreen.ChangePurchasePrice "n/a";
               AddItemScreen.PressCondition 0] in
  requests (AddItemScreen.handleCreate _ acceptAll (AddItemScreen.state sc) tt).2
  = [{| AddItemScreen.Body.collection_id := Some "c1";
        AddItemScreen.Body.name := "Chrono Trigger";
        AddItemScreen.Body.description := "";
        AddItemScreen.Body.images := [];
        AddItemScreen.Body.barcode := "";
        AddItemScreen.Body.purchase_price := JS.zero;
        AddItemScreen.Body.current_value := JS.Dec false 15000 (-2);
        AddItemScreen.Body.condition := "mint";
        AddItemScreen.Body.is_wishlist := false |}].
Proof. reflexivity. Qed.

(** C5: the add-item form insists on a name (without one it only shows an
    alert and sends nothing); in the request it sends, a price field whose
    text is empty or does not start with a number is 0, and the condition is
    "good" when no condition button was pressed since the form opened. *)
Theorem item_create_defaults
  (Store : Type) (post : AddItemScreen.Body.t -> Store -> Store * Api.Result unit)
  (collectionId : option string) (events : list AddItemScreen.Event) (db : Store) :
  let st := AddItemScreen.state
              (AddItemScreen.run (AddItemScreen.start collectionId) events) in
  let out := AddItemScreen.handleCreate Store post st db in
  (AddItemScreen.name st = "" ->
     out = (st, db, [Alert "Error" "Please enter item name"])
     /\ requests out.2 = [])
  /\ (AddItemScreen.name st <> "" ->
      exists body,
        requests out.2 = [body]
        /\ AddItemScreen.Body.name body = AddItemScreen.name st
        /\ (AddItemScreen.purchasePrice st = ""
            \/ JS.parseFloat (AddItemScreen.purchasePrice st) = JS.NaN ->
            AddItemScreen.Body.purchase_price body = JS.zero)
        /\ (AddItemScreen.currentValue st = ""
            \/ JS.parseFloat (AddItemScreen.currentValue st) = JS.NaN ->
            AddItemScreen.Body.current_value body = JS.zero)
        /\ (forallb (fun e => negb (AddItemScreen.isPressCondition e)) events = true ->
            AddItemScreen.Body.condition body = "good")).
Proof.
  cbv zeta. split.
  - intros H. rewrite (item_create_without_name _ post _ db H). now split.
  - intros H. eexists. split; [apply (item_create_with_name _ post _ db H)|].
    simpl. split; [reflexivity|].
    assert (Hzero : forall s, s = "" \/ JS.parseFloat s = JS.NaN ->
                              JS.orNum (JS.parseFloat s) JS.zero = JS.zero).
    { intros s [-> | Hs]; [reflexivity | now rewrite Hs]. }
    repeat split; auto.
    intros Hev. now rewrite (condition_untouched events _ Hev).
Qed.

Lemma item_create_defaults_witness :
  requests (AddItemScreen.handleCreate _ acceptAll
              (AddItemScreen.state
                 (AddItemScreen.run (AddItemScreen.start None)
                    [AddItemScreen.ChangePurchasePrice "12"])) tt).2 = []
  /\ exists body,
       requests (AddItemScreen.handleCreate _ acceptAll
                   (AddItemScreen.state
                      (AddItemScreen.run (AddItemScreen.start None)
                         [AddItemScreen.ChangeName "Chrono Trigger";
                          AddItemScreen.ChangePurchasePrice "abc"])) tt).2 = [body]
       /\ AddItemScreen.Body.purchase_price body = JS.zero
       /\ AddItemScreen.Body.current_value body = JS.zero
       /\ AddItemScreen.Body.condition body = "good".
Proof.
  split.
  - apply (item_create_defaults unit acceptAll None
             [AddItemScreen.ChangePurchasePrice "12"] tt).
    reflexivity.
  - destruct (proj2 (item_create_defaults unit acceptAll None
                       [AddItemScreen.ChangeName "Chrono Trigger";
                        AddItemScreen.ChangePurchasePrice "abc"] tt))
      as (body & Hreq & _ & Hp & Hc & Hg); [discriminate|].
    exists body. split; [exact Hreq|]. split; [|split].
    + apply Hp. right. reflexivity.
    + apply Hc. left. reflexivity.
    + apply Hg. reflexivity.
Defined.

(** *** Price texts that begin with a minus sign *)

Lemma append_empty_r (s : string) : s +:+ "" = s.
Proof.
  induction s as [|c s IH]; [reflexivity|].
  change (String c (s +:+ "") = String c s). now rewrite IH.
Qed.

Lemma someNonZeroDigit_app (a b : string) :
  someNonZeroDigit (a +:+ b) = someNonZeroDigit a || someNonZeroDigit b.
Proof.
  induction a as [|c a IH]; [reflexivity|].
  change (someNonZeroDigit (String c (a +:+ b))
          = someNonZeroDigit (String c a) || someNonZeroDigit b).
  cbn [someNonZeroDigit]. rewrite IH.
  destruct (JS.digitOf c); [apply orb_assoc | reflexivity].
Qed.

Lemma someNonZeroDigit_nonempty (s : string) :
  someNonZeroDigit s = true -> s <> "".
Proof. destruct s; [discriminate | discriminate]. Qed.

(** A run of digits is read to its end, and to a number that is positive
    when one of the digits is not 0. *)
Lemma readDigits_digits (a rest : string) (acc : N) (k : nat) :
  allDigits a = true ->
  match rest with
  | EmptyString => True
  | String c _ => JS.digitOf c = None
  end ->
  exists v,
    JS.readDigits (a +:+ rest) acc k = (v, (k + String.length a)%nat, rest)
    /\ (acc <= v)%N
    /\ (someNonZeroDigit a = true -> (0 < v)%N).
Proof.
  revert acc k. induction a as [|c a IH]; intros acc k Hall Hrest.
  - exists acc. change ("" +:+ rest) with rest. rewrite Nat.add_0_r.
    split; [|split; [lia | discriminate]].
    destruct rest as [|c r]; [reflexivity|]. cbn [JS.readDigits].
    now rewrite Hrest.
  - change (String c a +:+ rest) with (String c (a +:+ rest)).
    cbn [allDigits] in Hall. cbn [JS.readDigits someNonZeroDigit String.length].
    destruct (JS.digitOf c) as [d|]; [|discriminate].
    destruct (IH (10 * acc + d)%N (S k) Hall Hrest) as (v & Hv & Hle & Hpos).
    exists v. rewrite Hv, Nat.add_succ_r. split; [reflexivity|].
    split; [lia|]. intros Hnz. apply orb_true_iff in Hnz as [Hd | Hnz].
    + apply negb_true_iff, N.eqb_neq in Hd. lia.
    + apply Hpos, Hnz.
Qed.

Lemma digits_not_Infinity (a rest : string) :
  allDigits a = true ->
  rest = "" \/ (exists frac, rest = String "." frac) ->
  JS.startsWith (a +:+ rest) "Infinity" = false.
Proof.
  intros Hall Hrest. destruct a as [|c a].
  - change ("" +:+ rest) with rest.
    destruct Hrest as [-> | [frac ->]]; reflexivity.
  - change (String c a +:+ rest) with (String c (a +:+ rest)).
    cbn [JS.startsWith]. destruct (ascii_dec c "I") as [->|_]; [|reflexivity].
    discriminate Hall.
Qed.

(** Such a text is read as a negative number. *)
Lemma parseFloat_minusDecimal (text : string) :
  minusDecimal text ->
  exists m e, JS.parseFloat text = JS.Dec true m e /\ (0 < m)%N.
Proof.
  intros (int & frac & Htext & Hint & Hfrac & Hnz & _).
  rewrite someNonZeroDigit_app in Hnz.
  destruct Htext as [[-> ->] | ->].
  - rewrite orb_false_r in Hnz.
    change (JS.parseFloat (String "-" int)) with (JS.readUnsigned true int).
    unfold JS.readUnsigned.
    pose proof (digits_not_Infinity int "" Hint (or_introl eq_refl)) as Hinf.
    destruct (readDigits_digits int "" 0 0 Hint I) as (v & Hv & _ & Hpos).
    rewrite append_empty_r in Hinf, Hv. rewrite Hinf, Hv.
    destruct int as [|c int]; [discriminate Hnz|].
    exists v, 0%Z. split; [reflexivity | apply Hpos, Hnz].
  - change (JS.parseFloat (String "-" (int +:+ String "." frac)))
      with (JS.readUnsigned true (int +:+ String "." frac)).
    unfold JS.readUnsigned.
    rewrite (digits_not_Infinity int (String "." frac) Hint
               (or_intror (ex_intro _ frac eq_refl))).
    destruct (readDigits_digits int (String "." frac) 0 0 Hint eq_refl)
      as (vi & Hvi & _ & Hposi).
    rewrite Hvi.
    destruct (readDigits_digits frac "" vi 0 Hfrac I) as (m & Hm & Hle & Hposf).
    rewrite append_empty_r in Hm. rewrite Hm.
    assert (Hpos : (0 < m)%N).
    { apply orb_true_iff in Hnz as [Hnz | Hnz];
        [specialize (Hposi Hnz); lia | apply Hposf, Hnz]. }
    destruct int as [|c int], frac as [|d frac]; cbn [String.length Nat.add].
    + discriminate Hnz.
    + eexists m, _. split; [reflexivity | exact Hpos].
    + eexists m, _. split; [reflexivity | exact Hpos].
    + eexists m, _. split; [reflexivity | exact Hpos].
Qed.

Lemma orNum_minusDecimal (text : string) :
  minusDecimal text ->
  exists m e,
    JS.orNum (JS.parseFloat text) JS.zero = JS.Dec true m e /\ (0 < m)%N.
Proof.
  intros H. destruct (parseFloat_minusDecimal text H) as (m & e & -> & Hm).
  exists m, e. split; [|exact Hm]. unfold JS.orNum. cbn [JS.truthyNum].
  destruct (N.eqb_spec m 0); [lia | reflexivity].
Qed.

Lemma orNum_noLeadingMinus (text : string) :
  noLeadingMinus text ->
  JS.nonNegative (JS.orNum (JS.parseFloat text) JS.zero) = true.
Proof.
  unfold noLeadingMinus. intros Hminus. rewrite orNum_zero_nonNegative.
  destruct (JS.isNegative (JS.parseFloat text)) eqn:Hneg; [|reflexivity].
  apply parseFloat_negative_has_minus in Hneg. congruence.
Qed.

Example minusDecimal_samples :
  minusDecimal "-5" /\ minusDecimal "-0.5" /\ minusDecimal "-.25"
  /\ JS.parseFloat "-0.5" = JS.Dec true 5 (-1)
  /\ noLeadingMinus "  12.50" /\ noLeadingMinus "abc" /\ noLeadingMinus "".
Proof.
  split; [exists "5", ""; repeat split; auto; simpl; lia|].
  split; [exists "0", "5"; repeat split; auto; simpl; lia|].
  split; [exists "", "25"; repeat split; auto; simpl; lia|].
  repeat split; reflexivity.
Qed.

(** C4 as stated fails: nothing in the form looks at the sign of a price.
    With the name "Card" and the price texts "-5" and "-0.5" the one request
    [handleCreate] sends carries the prices -5 and -0.5, whatever the server
    it is sent to. *)
Lemma negative_price_is_sent :
  let st := AddItemScreen.state
              (AddItemScreen.run (AddItemScreen.start None)
                 [AddItemScreen.ChangeName "Card";
                  AddItemScreen.ChangePurchasePrice "-5";
                  AddItemScreen.ChangeCurrentValue "-0.5"]) in
  minusDecimal (AddItemScreen.purchasePrice st)
  /\ minusDecimal (AddItemScreen.currentValue st)
  /\ forall (Store : Type)
            (post : AddItemScreen.Body.t -> Store -> Store * Api.Result unit)
            (db : Store),
       exists body,
         requests (AddItemScreen.handleCreate Store post st db).2 = [body]
         /\ AddItemScreen.Body.purchase_price body = JS.Dec true 5 0
         /\ AddItemScreen.Body.current_value body = JS.Dec true 5 (-1)
         /\ JS.nonNegative (AddItemScreen.Body.purchase_price body) = false
         /\ JS.nonNegative (AddItemScreen.Body.current_value body) = false.
Proof.
  cbv zeta. split; [|split].
  - exists "5", "". repeat split; auto. simpl. lia.
  - exists "0", "5". repeat split; auto. simpl. lia.
  - intros Store post db. eexists.
    split; [apply item_create_with_name; discriminate|].
    repeat split; reflexivity.
Qed.

(** C4, as amended: the form checks no sign. In every create request it
    issues, each of the two prices is [parseFloat(text) || 0]; that number is
    non-negative whenever the text, after leading white space, does not
    begin with a minus sign, and it is a negative number whenever the text
    is a minus sign followed by a decimal numeral of at most 15 digits, not
    all of them 0. *)
Theorem item_create_price_sign
  (Store : Type) (post : AddItemScreen.Body.t -> Store -> Store * Api.Result unit)
  (st : AddItemScreen.State) (db : Store) (body : AddItemScreen.Body.t) :
  body ∈ requests (AddItemScreen.handleCreate Store post st db).2 ->
  let price (text : string) (sent : JS.number) :=
    sent = JS.orNum (JS.parseFloat text) JS.zero
    /\ (noLeadingMinus text -> JS.nonNegative sent = true)
    /\ (minusDecimal text ->
        JS.isNegative sent = true
        /\ exists m e, sent = JS.Dec true m e /\ (0 < m)%N) in
  price (AddItemScreen.purchasePrice st) (AddItemScreen.Body.purchase_price body)
  /\ price (AddItemScreen.currentValue st) (AddItemScreen.Body.current_value body).
Proof.
  intros Hin. apply item_create_body in Hin as [Hname Hreq].
  rewrite (item_create_with_name _ post st db Hname) in Hreq.
  injection Hreq as <-. cbv zeta. cbn [AddItemScreen.Body.purchase_price
                                       AddItemScreen.Body.current_value].
  assert (Hprice : forall text,
             JS.orNum (JS.parseFloat text) JS.zero
             = JS.orNum (JS.parseFloat text) JS.zero
             /\ (noLeadingMinus text ->
                 JS.nonNegative (JS.orNum (JS.parseFloat text) JS.zero) = true)
             /\ (minusDecimal text ->
                 JS.isNegative (JS.orNum (JS.parseFloat text) JS.zero) = true
                 /\ exists m e,
                      JS.orNum (JS.parseFloat text) JS.zero = JS.Dec true m e
                      /\ (0 < m)%N)).
  { intros text. split; [reflexivity|]. split; [apply orNum_noLeadingMinus|].
    intros Hminus. destruct (orNum_minusDecimal text Hminus) as (m & e & Hs & Hm).
    split; [|now exists m, e]. rewrite Hs. cbn [JS.isNegative].
    destruct (N.eqb_spec m 0); [lia | reflexivity]. }
  split; apply Hprice.
Qed.

Lemma item_create_price_sign_witness :
  JS.nonNegative (JS.orNum (JS.parseFloat "12.50") JS.zero) = true
  /\ JS.isNegative (JS.orNum (JS.parseFloat "-5") JS.zero) = true.
Proof.
  pose (st := AddItemScreen.state
                (AddItemScreen.run (AddItemScreen.start None)
                   [AddItemScreen.ChangeName "Card";
                    AddItemScreen.ChangePurchasePrice "12.50";
                    AddItemScreen.ChangeCurrentValue "-5"])).
  pose (body := {| AddItemScreen.Body.collection_id := None;
                   AddItemScreen.Body.name := "Card";
                   AddItemScreen.Body.description := "";
                   AddItemScreen.Body.images := [];
                   AddItemScreen.Body.barcode := "";
                   AddItemScreen.Body.purchase_price :=
                     JS.orNum (JS.parseFloat "12.50") JS.zero;
                   AddItemScreen.Body.current_value :=
                     JS.orNum (JS.parseFloat "-5") JS.zero;
                   AddItemScreen.Body.condition := "good";
                   AddItemScreen.Body.is_wishlist := false |}).
  assert (Hin : body ∈ requests (AddItemScreen.handleCreate unit acceptAll st tt).2)
    by (apply list_elem_of_singleton; reflexivity).
  destruct (item_create_price_sign unit acceptAll st tt body Hin)
    as ((_ & Hp & _) & (_ & _ & Hc)).
  split; [apply Hp; reflexivity|].
  apply Hc. exists "5", "". repeat split; auto. simpl. lia.
Defined.

(** ** The store behind the API: cascade and partial update *)

Lemma filter_none {A : Type} (p : A -> bool) (l : list A) :
  Forall (fun x => p x = false) l -> List.filter p l = [].
Proof.
  induction 1 as [|x l Hx _ IH]; simpl; [reflexivity | now rewrite Hx].
Qed.

Lemma deleteCollection_owned (user id : string) (c : Backend.Collection)
  (db : Backend.Store) :
  Backend.collections db !! id = Some c ->
  Backend.c_user_id c = user ->
  Backend.deleteCollection user id db
  = ({| Backend.collections := delete id (Backend.collections db);
        Backend.items :=
          filter (fun kv => Item.collection_id (Backend.doc kv.2) <> Some id)
                 (Backend.items db) |},
     Backend.Ok tt).
Proof.
  intros Hc Hu. unfold Backend.deleteCollection. rewrite Hc.
  now destruct (decide (Backend.c_user_id c = user)).
Qed.

Lemma listByCollection_after_filter (u id : string)
  (cs : gmap string Backend.Collection) (m : gmap string Backend.StoredItem) :
  Backend.listByCollection u id
    {| Backend.collections := cs;
       Backend.items :=
         filter (fun kv => Item.collection_id (Backend.doc kv.2) <> Some id) m |}
  = [].
Proof.
  unfold Backend.listByCollection. simpl. rewrite filter_none; [reflexivity|].
  apply Forall_forall. intros si Hin.
  apply list_elem_of_fmap in Hin as [[k si'] [-> Hin]]. simpl.
  apply elem_of_map_to_list, map_lookup_filter_Some in Hin as [_ Hne].
  simpl in Hne. apply bool_decide_eq_false. intros [_ Heq]. contradiction.
Qed.

(** C2: deleting a collection its owner holds succeeds and removes the
    collection together with every item whose collection id is the deleted
    id: afterwards the listing by that collection is empty and getting any of
    those items gives NotFound, while the other items are still there. The
    delete button of the collection screen issues exactly this delete. *)
Theorem collection_delete_cascades
  (user id : string) (c : Backend.Collection) (db : Backend.Store) :
  Backend.collections db !! id = Some c ->
  Backend.c_user_id c = user ->
  let out := Backend.deleteCollection user id db in
  out.2 = Backend.Ok tt
  /\ Backend.collections out.1 !! id = None
  /\ (forall u, Backend.listByCollection u id out.1 = [])
  /\ (forall key si,
        Backend.items db !! key = Some si ->
        Item.collection_id (Backend.doc si) = Some id ->
        forall u, Backend.getItem u key out.1 = Backend.Fail Backend.NotFound)
  /\ (forall key si,
        Backend.items db !! key = Some si ->
        Item.collection_id (Backend.doc si) <> Some id ->
        Backend.items out.1 !! key = Some si)
  /\ CollectionDetailScreen.handleDelete id _ (Backend.serveDelete user)
       CollectionDetailScreen.Delete db
     = (out.1,
        [CollectionDetailScreen.confirmation;
         Send (CollectionDetailScreen.DeleteCollection id);
         Alert "Success" "Collection deleted"; RouterBack]).
Proof.
  intros Hc Hu. cbv zeta.
  unfold CollectionDetailScreen.handleDelete, Backend.serveDelete.
  rewrite (deleteCollection_owned user id c db Hc Hu). simpl.
  split; [reflexivity|]. split; [apply lookup_delete_eq|].
  split; [intros u; apply listByCollection_after_filter|].
  split; [|split; [|reflexivity]].
  - intros key si Hk Hcid u. unfold Backend.getItem. simpl.
    rewrite (map_lookup_filter_None_2 _ (Backend.items db) key); [reflexivity|].
    right. intros x Hx Hp. simpl in Hp. congruence.
  - intros key si Hk Hcid. now apply map_lookup_filter_Some_2.
Qed.

Lemma collection_delete_cascades_witness :
  let db' := (Backend.deleteCollection "alice" "c1" sampleStore).1 in
  Backend.listByCollection "alice" "c1" db' = []
  /\ Backend.getItem "alice" "i1" db' = Backend.Fail Backend.NotFound
  /\ Backend.items db' !! "i2" = Some (ownedByAlice zeldaItem).
Proof.
  assert (Hc : Backend.collections sampleStore !! "c1" = Some retroGames)
    by reflexivity.
  assert (Hu : Backend.c_user_id retroGames = "alice") by reflexivity.
  destruct (collection_delete_cascades "alice" "c1" retroGames sampleStore Hc Hu)
    as (_ & _ & Hlist & Hget & Hkeep & _).
  cbv zeta. split; [apply Hlist|]. split.
  - apply (Hget "i1" (ownedByAlice (inCollection "c1" marioItem))); reflexivity.
  - apply Hkeep; [reflexivity | discriminate].
Defined.

Lemma updateItem_owned (user id : string) (si : Backend.StoredItem)
  (p : Item.Patch) (db : Backend.Store) :
  Backend.items db !! id = Some si ->
  Backend.user_id si = user ->
  Backend.updateItem user id p db
  = ({| Backend.collections := Backend.collections db;
        Backend.items :=
          <[id := {| Backend.user_id := Backend.user_id si;
                     Backend.doc := Backend.applyPatch p (Backend.doc si) |}]>
            (Backend.items db) |},
     Backend.Ok (Backend.applyPatch p (Backend.doc si))).
Proof.
  intros Hi Hu. unfold Backend.updateItem. rewrite Hi.
  now destruct (decide (Backend.user_id si = user)).
Qed.

Lemma applyPatch_wishlist (b : bool) (it : Item.t) :
  Backend.applyPatch (Item.wishlistPatch b) it = Item.withWishlist it b.
Proof. reflexivity. Qed.

Lemma withWishlist_sameButWishlist (it : Item.t) (b : bool) :
  sameButWishlist it (Item.withWishlist it b).
Proof. repeat split. Qed.

(** C3: an update that supplies only [is_wishlist] succeeds on an item of
    the requesting user and changes that flag alone: every other field of the
    item, every other item and the collections are as before. The heart
    button of the item screen sends exactly such an update, and the copy it
    keeps on screen is the item the server now holds. *)
Theorem wishlist_update_changes_only_flag
  (user id : string) (si : Backend.StoredItem) (b : bool) (db : Backend.Store) :
  Backend.items db !! id = Some si ->
  Backend.user_id si = user ->
  let out := Backend.updateItem user id (Item.wishlistPatch b) db in
  (exists it,
      out.2 = Backend.Ok it
      /\ Backend.getItem user id out.1 = Backend.Ok it
      /\ Item.is_wishlist it = b
      /\ sameButWishlist (Backend.doc si) it)
  /\ (forall key, key <> id -> Backend.items out.1 !! key = Backend.items db !! key)
  /\ Backend.collections out.1 = Backend.collections db
  /\ (forall st : ItemDetailScreen.State,
        ItemDetailScreen.item st = Some (Backend.doc si) ->
        let flag := negb (Item.is_wishlist (Backend.doc si)) in
        let res := ItemDetailScreen.toggleWishlist id _ (Backend.servePut user) st db in
        requests res.2 = [ItemDetailScreen.PutItem id (Item.wishlistPatch flag)]
        /\ exists shown,
             ItemDetailScreen.item res.1.1 = Some shown
             /\ Item.is_wishlist shown = flag
             /\ sameButWishlist (Backend.doc si) shown
             /\ Backend.getItem user id res.1.2 = Backend.Ok shown).
Proof.
  intros Hi Hu. cbv zeta.
  assert (Hget : forall flag,
             Backend.getItem user id
               (Backend.updateItem user id (Item.wishlistPatch flag) db).1
             = Backend.Ok (Item.withWishlist (Backend.doc si) flag)).
  { intros flag. rewrite (updateItem_owned user id si _ db Hi Hu).
    unfold Backend.getItem. simpl. rewrite lookup_insert_eq. simpl.
    now destruct (decide (Backend.user_id si = user)). }
  split; [|split; [|split]].
  - exists (Item.withWishlist (Backend.doc si) b).
    split; [now rewrite (updateItem_owned user id si _ db Hi Hu)|].
    split; [apply Hget|]. split; [reflexivity | apply withWishlist_sameButWishlist].
  - intros key Hne. rewrite (updateItem_owned user id si _ db Hi Hu). simpl.
    now apply lookup_insert_ne.
  - now rewrite (updateItem_owned user id si _ db Hi Hu).
  - intros st Hst. unfold ItemDetailScreen.toggleWishlist, Backend.servePut.
    rewrite Hst. specialize (Hget (negb (Item.is_wishlist (Backend.doc si)))).
    rewrite (updateItem_owned user id si _ db Hi Hu) in Hget |- *. simpl.
    split; [reflexivity|]. eexists. split; [reflexivity|].
    split; [reflexivity|]. split; [apply withWishlist_sameButWishlist | exact Hget].
Qed.

Lemma wishlist_update_changes_only_flag_witness :
  let out := Backend.updateItem "alice" "i2" (Item.wishlistPatch true) sampleStore in
  exists it,
    out.2 = Backend.Ok it
    /\ Backend.getItem "alice" "i2" out.1 = Backend.Ok it
    /\ Item.is_wishlist it = true
    /\ sameButWishlist zeldaItem it.
Proof.
  assert (Hi : Backend.items sampleStore !! "i2" = Some (ownedByAlice zeldaItem))
    by reflexivity.
  assert (Hu : Backend.user_id (ownedByAlice zeldaItem) = "alice") by reflexivity.
  exact (proj1 (wishlist_update_changes_only_flag "alice" "i2"
                  (ownedByAlice zeldaItem) true sampleStore Hi Hu)).
Defined.

(** ** JSON: what is printed is read back *)

Lemma readString_escapeChar (c : ascii) (r : string) :
  JSON.readString (JSON.escapeChar c +:+ r) = JSON.consChar c (JSON.readString r).
Proof. destruct c as [[] [] [] [] [] [] [] []]; reflexivity. Qed.

Lemma readString_emitChars (s rest : string) :
  JSON.readString (JSON.emitChars s (String JSON.dquote rest)) = Some (s, rest).
Proof.
  induction s as [|c s IH]; simpl; [reflexivity|].
  now rewrite readString_escapeChar, IH.
Qed.

Lemma readQuoted_emitString (s rest : string) :
  JSON.readQuoted (JSON.emitString s rest) = Some (s, rest).
Proof. unfold JSON.readQuoted, JSON.emitString. simpl. apply readString_emitChars. Qed.

Lemma readMember_emitMember (m : string * string) (rest : string) :
  JSON.readMember (JSON.emitMember m rest) = Some (m, rest).
Proof.
  destruct m as [k v]. unfold JSON.readMember, JSON.emitMember. simpl.
  rewrite readQuoted_emitString. simpl. now rewrite readQuoted_emitString.
Qed.

Lemma readMembers_emitMembers (ms : list (string * string)) (fuel : nat)
  (rest : string) :
  ms <> [] ->
  length ms <= fuel ->
  JSON.readMembers fuel (JSON.emitMembers ms (String "}" rest)) = Some (ms, rest).
Proof.
  revert fuel; induction ms as [|m ms IH]; intros fuel Hne Hlen; [congruence|].
  destruct fuel as [|fuel]; simpl in Hlen; [lia|].
  destruct ms as [|m' ms].
  - simpl. now rewrite readMember_emitMember.
  - change (JSON.emitMembers (m :: m' :: ms) (String "}" rest))
      with (JSON.emitMember m
              (String "," (JSON.emitMembers (m' :: ms) (String "}" rest)))).
    specialize (IH fuel ltac:(discriminate) ltac:(simpl in *; lia)).
    remember (JSON.emitMembers (m' :: ms) (String "}" rest)) as tail.
    cbn [JSON.readMembers]. rewrite readMember_emitMember. simpl.
    now rewrite IH.
Qed.

Lemma length_append (a b : string) :
  String.length (a +:+ b) = String.length a + String.length b.
Proof. induction a as [|c a IH]; simpl; [reflexivity | now rewrite IH]. Qed.

Lemma length_emitChars (s rest : string) :
  String.length rest <= String.length (JSON.emitChars s rest).
Proof.
  induction s as [|c s IH]; simpl; [lia|].
  rewrite length_append. lia.
Qed.

Lemma length_emitMember (m : string * string) (rest : string) :
  S (String.length rest) <= String.length (JSON.emitMember m rest).
Proof.
  unfold JSON.emitMember, JSON.emitString. simpl.
  pose proof (length_emitChars m.1
                (String JSON.dquote
                   (String ":" (String JSON.dquote
                      (JSON.emitChars m.2 (String JSON.dquote rest)))))) as H1.
  pose proof (length_emitChars m.2 (String JSON.dquote rest)) as H2.
  simpl in H1, H2. lia.
Qed.

Lemma length_emitMembers (ms : list (string * string)) (rest : string) :
  length ms <= String.length (JSON.emitMembers ms rest).
Proof.
  induction ms as [|m ms IH]; [simpl; lia|].
  destruct ms as [|m' ms].
  - pose proof (length_emitMember m rest). simpl in *. lia.
  - change (JSON.emitMembers (m :: m' :: ms) rest)
      with (JSON.emitMember m (String "," (JSON.emitMembers (m' :: ms) rest))).
    remember (JSON.emitMembers (m' :: ms) rest) as tail.
    pose proof (length_emitMember m (String "," tail)) as H.
    simpl in H, IH |- *. lia.
Qed.

Lemma parseObject_members (t : string) :
  JSON.parseObject (String "{" (String JSON.dquote t))
  = match JSON.readMembers (S (S (String.length t))) (String JSON.dquote t) with
    | Some (ms, rest) =>
        match JSON.skipSpace rest with
        | EmptyString => Some ms
        | String _ _ => None
        end
    | None => None
    end.
Proof. reflexivity. Qed.

(** Parsing the printed object gives the members back. *)
Lemma parseObject_stringifyObject (ms : list (string * string)) :
  JSON.parseObject (JSON.stringifyObject ms) = Some ms.
Proof.
  destruct ms as [|m ms]; [reflexivity|].
  unfold JSON.stringifyObject.
  pose proof (length_emitMembers (m :: ms) "}") as Hlen.
  pose proof (fun fuel => readMembers_emitMembers (m :: ms) fuel "") as Hread.
  remember (JSON.emitMembers (m :: ms) "}") as body eqn:Hbody.
  assert (Hhead : exists t, body = String JSON.dquote t).
  { subst body. destruct ms; simpl; eexists; reflexivity. }
  destruct Hhead as [t Ht]. rewrite Ht in *.
  rewrite parseObject_members, Hread; [reflexivity | discriminate |].
  simpl in Hlen |- *. lia.
Qed.

Lemma parseUser_stringifyUser (u : AuthStore.User) :
  AuthStore.parseUser (AuthStore.stringifyUser u) = Some u.
Proof.
  unfold AuthStore.parseUser, AuthStore.stringifyUser.
  rewrite parseObject_stringifyObject. destruct u as [i n [e|]]; reflexivity.
Qed.

Lemma stringifyUser_truthy (u : AuthStore.User) :
  JS.truthy (AuthStore.stringifyUser u) = true.
Proof. reflexivity. Qed.

Example stringifyUser_sample :
  AuthStore.stringifyUser
    {| AuthStore.id := "u1"; AuthStore.username := "alice";
       AuthStore.email := None |}
  = String "{" (String JSON.dquote ("id" +:+ String JSON.dquote (":" +:+
      String JSON.dquote ("u1" +:+ String JSON.dquote ("," +:+
      String JSON.dquote ("username" +:+ String JSON.dquote (":" +:+
      String JSON.dquote ("alice" +:+ String JSON.dquote "}")))))))).
Proof. reflexivity. Qed.

Example parseUser_spaced :
  AuthStore.parseUser
    (" { " +:+ String JSON.dquote ("username" +:+ String JSON.dquote (" : " +:+
     String JSON.dquote ("alice" +:+ String JSON.dquote (", " +:+
     String JSON.dquote ("id" +:+ String JSON.dquote (":" +:+
     String JSON.dquote ("u1" +:+ String JSON.dquote " } "))))))))
  = Some {| AuthStore.id := "u1"; AuthStore.username := "alice";
            AuthStore.email := None |}.
Proof. reflexivity. Qed.

(** ** The auth store *)

Lemma setAuth_returned (tok : string) (u : AuthStore.User)
  (st st1 : AuthStore.State) (sto sto1 : AsyncStorage.t) :
  AuthStore.setAuth tok u st sto = (st1, sto1, AuthStore.Returned) ->
  st1 = {| AuthStore.token := Some tok; AuthStore.user := Some u;
           AuthStore.isLoading := AuthStore.isLoading st |}
  /\ AsyncStorage.entries sto1 !! "token" = Some tok
  /\ AsyncStorage.entries sto1 !! "user" = Some (AuthStore.stringifyUser u).
Proof.
  destruct sto as [m fs].
  unfold AuthStore.setAuth, AsyncStorage.setItem, AsyncStorage.next.
  destruct fs as [|[] [|[] fs]]; simpl; intros [= <- <-]; simpl;
    (split; [reflexivity|]); split;
    try apply lookup_insert_eq;
    (rewrite lookup_insert_ne by discriminate; apply lookup_insert_eq).
Qed.

Lemma logout_returned (st st1 : AuthStore.State) (sto sto1 : AsyncStorage.t) :
  AuthStore.logout st sto = (st1, sto1, AuthStore.Returned) ->
  st1 = {| AuthStore.token := None; AuthStore.user := None;
           AuthStore.isLoading := AuthStore.isLoading st |}
  /\ AsyncStorage.entries sto1 !! "token" = None
  /\ AsyncStorage.entries sto1 !! "user" = None.
Proof.
  destruct sto as [m fs].
  unfold AuthStore.logout, AsyncStorage.removeItem, AsyncStorage.next.
  destruct fs as [|[] [|[] fs]]; simpl; intros [= <- <-]; simpl;
    (split; [reflexivity|]); split;
    try apply lookup_delete_eq;
    (rewrite lookup_delete_ne by discriminate; apply lookup_delete_eq).
Qed.

(** With no fault scheduled the two actions return. *)
Lemma setAuth_reliable (tok : string) (u : AuthStore.User) (st : AuthStore.State)
  (sto : AsyncStorage.t) :
  AsyncStorage.faults sto = [] ->
  (AuthStore.setAuth tok u st sto).2 = AuthStore.Returned
  /\ AsyncStorage.faults (AuthStore.setAuth tok u st sto).1.2 = [].
Proof.
  destruct sto as [m fs]. simpl. intros ->. split; reflexivity.
Qed.

Lemma logout_reliable (st : AuthStore.State) (sto : AsyncStorage.t) :
  AsyncStorage.faults sto = [] ->
  (AuthStore.logout st sto).2 = AuthStore.Returned.
Proof. destruct sto as [m fs]. simpl. now intros ->. Qed.

(** [loadAuth] either only clears [isLoading], or takes token and user from
    the storage. *)
Lemma loadAuth_cases (st : AuthStore.State) (sto : AsyncStorage.t) :
  (AuthStore.loadAuth st sto).1 = AuthStore.loaded st
  \/ exists t us u,
       AsyncStorage.entries sto !! "token" = Some t
       /\ AsyncStorage.entries sto !! "user" = Some us
       /\ JS.truthy t = true
       /\ AuthStore.parseUser us = Some u
       /\ (AuthStore.loadAuth st sto).1
          = {| AuthStore.token := Some t; AuthStore.user := Some u;
               AuthStore.isLoading := false |}.
Proof.
  assert (Hrestore :
    AuthStore.restore st (AsyncStorage.entries sto !! "token")
                         (AsyncStorage.entries sto !! "user")
    = AuthStore.loaded st
    \/ exists t us u,
         AsyncStorage.entries sto !! "token" = Some t
         /\ AsyncStorage.entries sto !! "user" = Some us
         /\ JS.truthy t = true
         /\ AuthStore.parseUser us = Some u
         /\ AuthStore.restore st (AsyncStorage.entries sto !! "token")
                                 (AsyncStorage.entries sto !! "user")
            = {| AuthStore.token := Some t; AuthStore.user := Some u;
                 AuthStore.isLoading := false |}).
  { unfold AuthStore.restore.
    destruct (AsyncStorage.entries sto !! "token") as [t|]; [|now left].
    destruct (AsyncStorage.entries sto !! "user") as [us|]; [|now left].
    destruct (JS.truthy t) eqn:Ht; [|now left].
    destruct (JS.truthy us); [|now left]. simpl.
    destruct (AuthStore.parseUser us) as [u|] eqn:Hu; [|now left].
    right. now exists t, us, u. }
  destruct sto as [m fs].
  unfold AuthStore.loadAuth, AsyncStorage.getItem, AsyncStorage.next.
  destruct fs as [|[] [|[] fs]]; simpl; try (now left); exact Hrestore.
Qed.

Lemma loadAuth_isLoading (st : AuthStore.State) (sto : AsyncStorage.t) :
  AuthStore.isLoading (AuthStore.loadAuth st sto).1 = false.
Proof.
  destruct (loadAuth_cases st sto) as [-> | (t & us & u & _ & _ & _ & _ & ->)];
    reflexivity.
Qed.

(** From a storage without faults holding a non-empty token and a user
    text, [loadAuth] takes both over, whatever the store held. *)
Lemma loadAuth_reliable (st : AuthStore.State) (sto : AsyncStorage.t)
  (t : string) (u : AuthStore.User) :
  AsyncStorage.faults sto = [] ->
  AsyncStorage.entries sto !! "token" = Some t ->
  AsyncStorage.entries sto !! "user" = Some (AuthStore.stringifyUser u) ->
  t <> "" ->
  (AuthStore.loadAuth st sto).1
  = {| AuthStore.token := Some t; AuthStore.user := Some u;
       AuthStore.isLoading := false |}.
Proof.
  destruct sto as [m fs]. simpl. intros -> Ht Hu Hne.
  unfold AuthStore.loadAuth, AsyncStorage.getItem, AsyncStorage.next. simpl.
  unfold AuthStore.restore.
  rewrite Ht, Hu. apply truthy_true_iff in Hne. rewrite Hne.
  rewrite stringifyUser_truthy. simpl. now rewrite parseUser_stringifyUser.
Qed.

Example login_then_restart :
  let sto := (AuthStore.setAuth "jwt" aliceUser AuthStore.initial
                (AsyncStorage.reliable ∅)).1.2 in
  (AuthStore.loadAuth AuthStore.initial sto).1
  = {| AuthStore.token := Some "jwt"; AuthStore.user := Some aliceUser;
       AuthStore.isLoading := false |}.
Proof. reflexivity. Qed.

(** A fresh store does not take over an empty token: it is falsy. *)
Example empty_token_after_restart :
  let sto := (AuthStore.setAuth "" aliceUser AuthStore.initial
                (AsyncStorage.reliable ∅)).1.2 in
  (AuthStore.loadAuth AuthStore.initial sto).1
  = {| AuthStore.token := None; AuthStore.user := None;
       AuthStore.isLoading := false |}.
Proof. reflexivity. Qed.

Example load_with_broken_storage :
  (AuthStore.loadAuth AuthStore.initial
     {| AsyncStorage.entries := {[ "token" := "jwt" ]};
        AsyncStorage.faults := [false; true] |}).1
  = {| AuthStore.token := None; AuthStore.user := None;
       AuthStore.isLoading := false |}.
Proof. reflexivity. Qed.

(** C10: once [setAuth token user] has returned, [loadAuth] leaves the store
    holding that token and that user, with the user read back from its JSON
    text when the storage is consulted; once [logout] has returned,
    [loadAuth] leaves token and user null; and [loadAuth] ends with
    [isLoading = false] from every store and storage, rejected calls and
    unreadable text included. The two actions do return when no storage
    call rejects, and a store created anew then takes a non-empty token and
    its user over from the storage. *)
Theorem auth_round_trip
  (tok : string) (u : AuthStore.User) (st : AuthStore.State) (sto : AsyncStorage.t) :
  (forall st1 sto1,
      AuthStore.setAuth tok u st sto = (st1, sto1, AuthStore.Returned) ->
      (AuthStore.loadAuth st1 sto1).1
      = {| AuthStore.token := Some tok; AuthStore.user := Some u;
           AuthStore.isLoading := false |})
  /\ (forall st1 sto1,
      AuthStore.logout st sto = (st1, sto1, AuthStore.Returned) ->
      (AuthStore.loadAuth st1 sto1).1
      = {| AuthStore.token := None; AuthStore.user := None;
           AuthStore.isLoading := false |})
  /\ AuthStore.isLoading (AuthStore.loadAuth st sto).1 = false
  /\ (AsyncStorage.faults sto = [] ->
      (AuthStore.setAuth tok u st sto).2 = AuthStore.Returned
      /\ (AuthStore.logout st sto).2 = AuthStore.Returned
      /\ (tok <> "" ->
          (AuthStore.loadAuth AuthStore.initial
             (AuthStore.setAuth tok u st sto).1.2).1
          = {| AuthStore.token := Some tok; AuthStore.user := Some u;
               AuthStore.isLoading := false |})).
Proof.
  split; [|split; [|split]].
  - intros st1 sto1 Hset.
    apply setAuth_returned in Hset as (-> & Htok & Huser).
    destruct (loadAuth_cases
                {| AuthStore.token := Some tok; AuthStore.user := Some u;
                   AuthStore.isLoading := AuthStore.isLoading st |} sto1)
      as [-> | (t & us & u' & Ht & Hus & _ & Hparse & ->)]; [reflexivity|].
    rewrite Htok in Ht. rewrite Huser in Hus. injection Ht as <-. injection Hus as <-.
    rewrite parseUser_stringifyUser in Hparse. now injection Hparse as <-.
  - intros st1 sto1 Hout.
    apply logout_returned in Hout as (-> & Htok & _).
    destruct (loadAuth_cases
                {| AuthStore.token := None; AuthStore.user := None;
                   AuthStore.isLoading := AuthStore.isLoading st |} sto1)
      as [-> | (t & us & u' & Ht & _)]; [reflexivity|]. congruence.
  - apply loadAuth_isLoading.
  - intros Hf. split; [apply (setAuth_reliable tok u st sto Hf)|].
    split; [apply (logout_reliable st sto Hf)|].
    intros Hne.
    destruct (setAuth_reliable tok u st sto Hf) as [Hret Hfaults].
    destruct (AuthStore.setAuth tok u st sto) as [[st1 sto1] r] eqn:Hset.
    simpl in *. subst r.
    apply setAuth_returned in Hset as (_ & Htok & Huser).
    now apply loadAuth_reliable.
Qed.

Lemma auth_round_trip_witness :
  let signedIn :=
    (AuthStore.setAuth "jwt" aliceUser AuthStore.initial (AsyncStorage.reliable ∅)).1 in
  let signedOut :=
    (AuthStore.logout AuthStore.initial (AsyncStorage.reliable ∅)).1 in
  (AuthStore.loadAuth signedIn.1 signedIn.2).1
  = {| AuthStore.token := Some "jwt"; AuthStore.user := Some aliceUser;
       AuthStore.isLoading := false |}
  /\ (AuthStore.loadAuth signedOut.1 signedOut.2).1
     = {| AuthStore.token := None; AuthStore.user := None;
          AuthStore.isLoading := false |}
  /\ (AuthStore.loadAuth AuthStore.initial signedIn.2).1
     = {| AuthStore.token := Some "jwt"; AuthStore.user := Some aliceUser;
          AuthStore.isLoading := false |}.
Proof.
  destruct (auth_round_trip "jwt" aliceUser AuthStore.initial
              (AsyncStorage.reliable ∅)) as (Hset & Hout & _ & Hrel).
  cbv zeta. split; [|split].
  - apply Hset. reflexivity.
  - apply Hout. reflexivity.
  - apply Hrel; [reflexivity | discriminate].
Defined.

(** ** What a failed request shows *)

Lemma detailOr_detail (e : Api.Error) (d fallback : string) :
  Api.detailOf e = Some d -> d <> "" -> Api.detailOr e fallback = d.
Proof.
  intros He Hd. unfold Api.detailOr, JS.orElse. rewrite He.
  apply truthy_true_iff in Hd. now rewrite Hd.
Qed.

Lemma detailOr_fallback (e : Api.Error) (fallback : string) :
  Api.detailOf e = None \/ Api.detailOf e = Some "" ->
  Api.detailOr e fallback = fallback.
Proof. unfold Api.detailOr. now intros [-> | ->]. Qed.

Lemma shownOnCollectionCreate_eq (e : Api.Error) (st : AddCollectionScreen.State) :
  AddCollectionScreen.name st <> "" ->
  AddCollectionScreen.selectedCategory st <> "" ->
  shownOnCollectionCreate e st
  = [("Error", Api.detailOr e "Failed to create collection")].
Proof.
  intros Hn Hc. apply truthy_true_iff in Hn, Hc.
  unfold shownOnCollectionCreate, AddCollectionScreen.handleCreate.
  now rewrite Hn, Hc.
Qed.

Lemma shownOnItemCreate_eq (e : Api.Error) (st : AddItemScreen.State) :
  AddItemScreen.name st <> "" ->
  shownOnItemCreate e st = [("Error", Api.detailOr e "Failed to add item")].
Proof.
  intros Hn. apply truthy_true_iff in Hn.
  unfold shownOnItemCreate, AddItemScreen.handleCreate. now rewrite Hn.
Qed.

Lemma shownOnLogin_eq (e : Api.Error) (st : LoginScreen.State)
  (auth : AuthStore.State) (sto : AsyncStorage.t) :
  LoginScreen.username st <> "" ->
  LoginScreen.password st <> "" ->
  shownOnLogin e st auth sto
  = [("Login Failed", Api.detailOr e "Invalid credentials")].
Proof.
  intros Hn Hp. apply truthy_true_iff in Hn, Hp.
  unfold shownOnLogin, LoginScreen.handleLogin. now rewrite Hn, Hp.
Qed.

Example not_found_is_shown :
  shownOnItemCreate (Api.withDetail "Collection not found") chronoTriggerForm
  = [("Error", "Collection not found")].
Proof. reflexivity. Qed.

Example network_failure_is_generic :
  shownOnLogin Api.noResponse aliceLoginForm AuthStore.initial
    (AsyncStorage.reliable ∅)
  = [("Login Failed", "Invalid credentials")].
Proof. reflexivity. Qed.

(** C8 as stated fails: a response whose [detail] is the empty string does
    carry the field, yet the generic message is shown. *)
Lemma empty_detail_shows_generic :
  Api.detailOf (Api.withDetail "") = Some ""
  /\ shownOnCollectionCreate (Api.withDetail "") retroGamesForm
     = [("Error", "Failed to create collection")]
  /\ shownOnCollectionCreate (Api.withDetail "") retroGamesForm <> [("Error", "")].
Proof. split; [reflexivity|]. split; [reflexivity | discriminate]. Qed.

(** C8, as amended: when the create-collection, create-item or login
    request fails, the alert shows exactly the [detail] of the error response
    if that is a non-empty string, and the generic message of the screen if
    the detail is absent or empty. *)
Theorem failed_request_message
  (e : Api.Error) (cst : AddCollectionScreen.State) (ist : AddItemScreen.State)
  (lst : LoginScreen.State) (auth : AuthStore.State) (sto : AsyncStorage.t) :
  AddCollectionScreen.name cst <> "" ->
  AddCollectionScreen.selectedCategory cst <> "" ->
  AddItemScreen.name ist <> "" ->
  LoginScreen.username lst <> "" ->
  LoginScreen.password lst <> "" ->
  (forall d,
      Api.detailOf e = Some d -> d <> "" ->
      shownOnCollectionCreate e cst = [("Error", d)]
      /\ shownOnItemCreate e ist = [("Error", d)]
      /\ shownOnLogin e lst auth sto = [("Login Failed", d)])
  /\ (Api.detailOf e = None \/ Api.detailOf e = Some "" ->
      shownOnCollectionCreate e cst = [("Error", "Failed to create collection")]
      /\ shownOnItemCreate e ist = [("Error", "Failed to add item")]
      /\ shownOnLogin e lst auth sto = [("Login Failed", "Invalid credentials")]).
Proof.
  intros Hcn Hcc Hin Hlu Hlp.
  rewrite (shownOnCollectionCreate_eq e cst Hcn Hcc),
    (shownOnItemCreate_eq e ist Hin), (shownOnLogin_eq e lst auth sto Hlu Hlp).
  split.
  - intros d He Hd. now rewrite !(detailOr_detail e d _ He Hd).
  - intros He. now rewrite !(detailOr_fallback e _ He).
Qed.

Lemma failed_request_message_witness :
  shownOnCollectionCreate (Api.withDetail "Username already exists") retroGamesForm
  = [("Error", "Username already exists")]
  /\ shownOnLogin Api.noResponse aliceLoginForm AuthStore.initial
       (AsyncStorage.reliable ∅)
     = [("Login Failed", "Invalid credentials")].
Proof.
  split.
  - apply (failed_request_message (Api.withDetail "Username already exists")
             retroGamesForm chronoTriggerForm aliceLoginForm AuthStore.initial
             (AsyncStorage.reliable ∅));
      try discriminate; reflexivity.
  - apply (failed_request_message Api.noResponse
             retroGamesForm chronoTriggerForm aliceLoginForm AuthStore.initial
             (AsyncStorage.reliable ∅));
      try discriminate. left. reflexivity.
Defined.

(** * Further properties of the code *)

(** ** Auth store and device storage *)

Lemma setAuth_other_keys (tok : string) (u : AuthStore.User)
  (st : AuthStore.State) (sto : AsyncStorage.t) (key : string) :
  key <> "token" -> key <> "user" ->
  AsyncStorage.entries (AuthStore.setAuth tok u st sto).1.2 !! key
  = AsyncStorage.entries sto !! key.
Proof.
  intros Ht Hu. destruct sto as [m fs].
  unfold AuthStore.setAuth, AsyncStorage.setItem, AsyncStorage.next.
  destruct fs as [|[] [|[] fs]]; simpl; try reflexivity;
    rewrite ?lookup_insert_ne by congruence; reflexivity.
Qed.

Lemma logout_other_keys (st : AuthStore.State) (sto : AsyncStorage.t)
  (key : string) :
  key <> "token" -> key <> "user" ->
  AsyncStorage.entries (AuthStore.logout st sto).1.2 !! key
  = AsyncStorage.entries sto !! key.
Proof.
  intros Ht Hu. destruct sto as [m fs].
  unfold AuthStore.logout, AsyncStorage.removeItem, AsyncStorage.next.
  destruct fs as [|[] [|[] fs]]; simpl; try reflexivity;
    rewrite ?lookup_delete_ne by congruence; reflexivity.
Qed.

Lemma loadAuth_entries (st : AuthStore.State) (sto : AsyncStorage.t) :
  AsyncStorage.entries (AuthStore.loadAuth st sto).2 = AsyncStorage.entries sto.
Proof.
  destruct sto as [m fs].
  unfold AuthStore.loadAuth, AsyncStorage.getItem, AsyncStorage.next.
  destruct fs as [|[] [|[] fs]]; reflexivity.
Qed.

(** X1: the auth store keeps to its two keys: [setAuth] and [logout] leave
    every other entry of the device storage as it was, whether they return or
    throw, and [loadAuth] writes nothing at all. *)
Theorem auth_store_keeps_to_its_keys
  (tok : string) (u : AuthStore.User) (st : AuthStore.State)
  (sto : AsyncStorage.t) (key : string) :
  key <> "token" -> key <> "user" ->
  AsyncStorage.entries (AuthStore.setAuth tok u st sto).1.2 !! key
  = AsyncStorage.entries sto !! key
  /\ AsyncStorage.entries (AuthStore.logout st sto).1.2 !! key
     = AsyncStorage.entries sto !! key
  /\ AsyncStorage.entries (AuthStore.loadAuth st sto).2
     = AsyncStorage.entries sto.
Proof.
  intros Ht Hu. split; [now apply setAuth_other_keys|].
  split; [now apply logout_other_keys | apply loadAuth_entries].
Qed.

Lemma auth_store_keeps_to_its_keys_witness :
  AsyncStorage.entries
    (AuthStore.setAuth "jwt" aliceUser AuthStore.initial
       (AsyncStorage.reliable {[ "theme" := "dark" ]})).1.2 !! "theme"
  = Some "dark".
Proof.
  rewrite (proj1 (auth_store_keeps_to_its_keys "jwt" aliceUser AuthStore.initial
                    (AsyncStorage.reliable {[ "theme" := "dark" ]}) "theme"
                    ltac:(discriminate) ltac:(discriminate))).
  reflexivity.
Defined.

Lemma setAuth_threw (tok : string) (u : AuthStore.User)
  (st : AuthStore.State) (sto : AsyncStorage.t) :
  (AuthStore.setAuth tok u st sto).2 = AuthStore.Threw ->
  (AuthStore.setAuth tok u st sto).1.1 = st
  /\ AsyncStorage.entries (AuthStore.setAuth tok u st sto).1.2 !! "user"
     = AsyncStorage.entries sto !! "user".
Proof.
  destruct sto as [m fs].
  unfold AuthStore.setAuth, AsyncStorage.setItem, AsyncStorage.next.
  destruct fs as [|[] [|[] fs]]; simpl; try discriminate; intros _;
    (split; [reflexivity|]); try reflexivity;
    now rewrite lookup_insert_ne by discriminate.
Qed.

Lemma logout_threw (st : AuthStore.State) (sto : AsyncStorage.t) :
  (AuthStore.logout st sto).2 = AuthStore.Threw ->
  (AuthStore.logout st sto).1.1 = st.
Proof.
  destruct sto as [m fs].
  unfold AuthStore.logout, AsyncStorage.removeItem, AsyncStorage.next.
  destruct fs as [|[] [|[] fs]]; simpl; try discriminate; reflexivity.
Qed.

(** [loadAuth] changes token and user only when the storage holds a
    non-empty token and a user text. *)
Lemma loadAuth_needs_both (st : AuthStore.State) (sto : AsyncStorage.t) :
  AsyncStorage.entries sto !! "token" = None
  \/ AsyncStorage.entries sto !! "token" = Some ""
  \/ AsyncStorage.entries sto !! "user" = None
  \/ AsyncStorage.entries sto !! "user" = Some "" ->
  (AuthStore.loadAuth st sto).1 = AuthStore.loaded st.
Proof.
  intros H. destruct sto as [m fs]. simpl in H.
  unfold AuthStore.loadAuth, AsyncStorage.getItem, AsyncStorage.next.
  assert (Hr : AuthStore.restore st (m !! "token") (m !! "user") = AuthStore.loaded st).
  { unfold AuthStore.restore.
    destruct H as [-> | [-> | [-> | ->]]]; try reflexivity.
    - now destruct (m !! "user").
    - now destruct (m !! "token").
    - destruct (m !! "token") as [t|]; [|reflexivity]. now rewrite andb_false_r. }
  destruct fs as [|[] [|[] fs]]; simpl; try reflexivity; exact Hr.
Qed.

(** X2: an action of the auth store that throws leaves the store in memory
    as it was; and a sign-in that failed half-way is not picked up later:
    when [setAuth] throws on a storage without a user entry, [loadAuth] on a
    store created anew stays signed out, whichever storage calls reject. *)
Theorem failed_sign_in_leaves_no_session
  (tok : string) (u : AuthStore.User) (st : AuthStore.State)
  (sto : AsyncStorage.t) :
  ((AuthStore.setAuth tok u st sto).2 = AuthStore.Threw ->
   (AuthStore.setAuth tok u st sto).1.1 = st)
  /\ ((AuthStore.logout st sto).2 = AuthStore.Threw ->
      (AuthStore.logout st sto).1.1 = st)
  /\ ((AuthStore.setAuth tok u st sto).2 = AuthStore.Threw ->
      AsyncStorage.entries sto !! "user" = None ->
      forall faults,
        (AuthStore.loadAuth AuthStore.initial
           {| AsyncStorage.entries :=
                AsyncStorage.entries (AuthStore.setAuth tok u st sto).1.2;
              AsyncStorage.faults := faults |}).1
        = {| AuthStore.token := None; AuthStore.user := None;
             AuthStore.isLoading := false |}).
Proof.
  split; [intros H; now apply setAuth_threw|].
  split; [apply logout_threw|].
  intros Hthrew Hnone faults.
  apply setAuth_threw in Hthrew as [_ Huser]. rewrite Hnone in Huser.
  rewrite loadAuth_needs_both; [reflexivity|]. simpl. auto.
Qed.

Lemma failed_sign_in_leaves_no_session_witness :
  let broken := {| AsyncStorage.entries := ∅; AsyncStorage.faults := [false; true] |} in
  AsyncStorage.entries (AuthStore.setAuth "jwt" aliceUser AuthStore.initial broken).1.2
    !! "token" = Some "jwt"
  /\ (AuthStore.setAuth "jwt" aliceUser AuthStore.initial broken).1.1 = AuthStore.initial
  /\ (AuthStore.loadAuth AuthStore.initial
        (AsyncStorage.reliable
           (AsyncStorage.entries
              (AuthStore.setAuth "jwt" aliceUser AuthStore.initial broken).1.2))).1
     = {| AuthStore.token := None; AuthStore.user := None;
          AuthStore.isLoading := false |}.
Proof.
  cbv zeta.
  destruct (failed_sign_in_leaves_no_session "jwt" aliceUser AuthStore.initial
              {| AsyncStorage.entries := ∅; AsyncStorage.faults := [false; true] |})
    as (Hmem & _ & Hload).
  split; [reflexivity|]. split.
  - apply Hmem. reflexivity.
  - apply (Hload eq_refl eq_refl []).
Defined.

(** X3: [loadAuth] restores a session only from a storage that holds both
    a non-empty token and a non-empty user text; when either is missing or
    empty the token and the user of the store stay as they were and only
    [isLoading] is cleared. *)
Theorem load_needs_token_and_user (st : AuthStore.State) (sto : AsyncStorage.t) :
  AsyncStorage.entries sto !! "token" = None
  \/ AsyncStorage.entries sto !! "token" = Some ""
  \/ AsyncStorage.entries sto !! "user" = None
  \/ AsyncStorage.entries sto !! "user" = Some "" ->
  AuthStore.token (AuthStore.loadAuth st sto).1 = AuthStore.token st
  /\ AuthStore.user (AuthStore.loadAuth st sto).1 = AuthStore.user st
  /\ AuthStore.isLoading (AuthStore.loadAuth st sto).1 = false.
Proof. intros H. rewrite (loadAuth_needs_both st sto H). repeat split. Qed.

Lemma load_needs_token_and_user_witness :
  AuthStore.token
    (AuthStore.loadAuth AuthStore.initial
       (AsyncStorage.reliable {[ "token" := "jwt" ]})).1 = None.
Proof.
  apply (load_needs_token_and_user AuthStore.initial
           (AsyncStorage.reliable {[ "token" := "jwt" ]})).
  right. right. left. reflexivity.
Defined.

(** X4: the last sign-in wins: after two calls of [setAuth] that returned,
    a store created anew over a storage without pending faults restores the
    token and the user of the second call. *)
Theorem last_sign_in_wins
  (tok1 tok2 : string) (u1 u2 : AuthStore.User)
  (st st1 st2 : AuthStore.State) (sto sto1 sto2 : AsyncStorage.t) :
  AuthStore.setAuth tok1 u1 st sto = (st1, sto1, AuthStore.Returned) ->
  AuthStore.setAuth tok2 u2 st1 sto1 = (st2, sto2, AuthStore.Returned) ->
  tok2 <> "" ->
  AuthStore.token st2 = Some tok2 /\ AuthStore.user st2 = Some u2
  /\ (AuthStore.loadAuth AuthStore.initial
        (AsyncStorage.reliable (AsyncStorage.entries sto2))).1
     = {| AuthStore.token := Some tok2; AuthStore.user := Some u2;
          AuthStore.isLoading := false |}.
Proof.
  intros _ H2 Hne. apply setAuth_returned in H2 as (-> & Htok & Huser).
  split; [reflexivity|]. split; [reflexivity|].
  now apply loadAuth_reliable.
Qed.

Lemma last_sign_in_wins_witness :
  let first := AuthStore.setAuth "jwt1" aliceUser AuthStore.initial
                 (AsyncStorage.reliable ∅) in
  let bob := {| AuthStore.id := "u2"; AuthStore.username := "bob";
                AuthStore.email := None |} in
  let second := AuthStore.setAuth "jwt2" bob first.1.1 first.1.2 in
  (AuthStore.loadAuth AuthStore.initial
     (AsyncStorage.reliable (AsyncStorage.entries second.1.2))).1
  = {| AuthStore.token := Some "jwt2"; AuthStore.user := Some bob;
       AuthStore.isLoading := false |}.
Proof.
  cbv zeta.
  refine (proj2 (proj2 (last_sign_in_wins "jwt1" "jwt2" aliceUser
            {| AuthStore.id := "u2"; AuthStore.username := "bob";
               AuthStore.email := None |}
            AuthStore.initial _ _ (AsyncStorage.reliable ∅) _ _
            eq_refl eq_refl ltac:(discriminate)))).
Defined.

(** X5: loading twice is loading once: over a storage without pending
    faults a second [loadAuth] changes nothing. *)
Theorem loadAuth_twice (st : AuthStore.State) (sto : AsyncStorage.t) :
  AsyncStorage.faults sto = [] ->
  AuthStore.loadAuth (AuthStore.loadAuth st sto).1 (AuthStore.loadAuth st sto).2
  = AuthStore.loadAuth st sto.
Proof.
  destruct sto as [m fs]. simpl. intros ->.
  unfold AuthStore.loadAuth, AsyncStorage.getItem, AsyncStorage.next. simpl.
  f_equal. unfold AuthStore.restore.
  destruct (m !! "token") as [t|]; [|reflexivity].
  destruct (m !! "user") as [us|]; [|reflexivity].
  destruct (JS.truthy t && JS.truthy us); [|reflexivity].
  destruct (AuthStore.parseUser us); reflexivity.
Qed.

Lemma loadAuth_twice_witness :
  let sto := (AuthStore.setAuth "jwt" aliceUser AuthStore.initial
                (AsyncStorage.reliable ∅)).1.2 in
  AuthStore.loadAuth (AuthStore.loadAuth AuthStore.initial sto).1
                     (AuthStore.loadAuth AuthStore.initial sto).2
  = AuthStore.loadAuth AuthStore.initial sto.
Proof. cbv zeta. apply loadAuth_twice. reflexivity. Defined.

(** X6: the user text written by [setAuth] is read back by [loadAuth] as
    the same user, whatever characters the fields hold (quotes, backslashes,
    control characters), with or without an email; so two different users
    never share a text, and the text is never empty. *)
Theorem user_text_round_trip (u v : AuthStore.User) :
  AuthStore.parseUser (AuthStore.stringifyUser u) = Some u
  /\ (AuthStore.stringifyUser u = AuthStore.stringifyUser v -> u = v)
  /\ AuthStore.stringifyUser u <> "".
Proof.
  split; [apply parseUser_stringifyUser|]. split.
  - intros H. pose proof (parseUser_stringifyUser u) as Hu.
    rewrite H, parseUser_stringifyUser in Hu. now injection Hu.
  - discriminate.
Qed.

Example user_text_with_quotes :
  let u := {| AuthStore.id := String JSON.dquote "u1";
              AuthStore.username := String JSON.backslash (String "010" "alice");
              AuthStore.email := Some "" |} in
  AuthStore.parseUser (AuthStore.stringifyUser u) = Some u.
Proof. reflexivity. Qed.

(** ** Signing in and out on the screens *)

Lemma handleLogin_filled (Store : Type)
  (post : LoginScreen.Credentials -> Store -> Store * Api.Result LoginScreen.LoginData)
  (st : LoginScreen.State) (auth : AuthStore.State) (sto : AsyncStorage.t)
  (db : Store) :
  LoginScreen.username st <> "" ->
  LoginScreen.password st <> "" ->
  LoginScreen.handleLogin Store post st auth sto db
  = let body := {| LoginScreen.c_username := LoginScreen.username st;
                   LoginScreen.c_password := LoginScreen.password st |} in
    match post body db with
    | (db', Api.Resolved data) =>
        match AuthStore.setAuth (LoginScreen.access_token data)
                {| AuthStore.id := LoginScreen.user_id data;
                   AuthStore.username := LoginScreen.d_username data;
                   AuthStore.email := None |} auth sto with
        | (auth', sto', AuthStore.Returned) =>
            (LoginScreen.setLoading false st, auth', sto', db',
             [Send body; RouterReplace "/(tabs)/home"])
        | (auth', sto', AuthStore.Threw) =>
            (LoginScreen.setLoading false st, auth', sto', db',
             [Send body;
              Alert "Login Failed"
                    (Api.detailOr Api.noResponse "Invalid credentials")])
        end
    | (db', Api.Rejected e) =>
        (LoginScreen.setLoading false st, auth, sto, db',
         [Send body; Alert "Login Failed" (Api.detailOr e "Invalid credentials")])
    end.
Proof.
  intros Hu Hp. apply truthy_true_iff in Hu, Hp.
  unfold LoginScreen.handleLogin. now rewrite Hu, Hp.
Qed.

(** X7: signing in, end to end. With a field left empty the login screen
    sends nothing and changes nothing. When the server accepts and the
    device storage takes the two writes, the auth store holds the token and
    the user of the response, the screen moves to the home tab, and after a
    restart the mount effect restores a non-empty token with that user and
    the redirect effect moves to the home tab again. *)
Theorem login_signs_in (Store : Type)
  (post : LoginScreen.Credentials -> Store -> Store * Api.Result LoginScreen.LoginData)
  (st : LoginScreen.State) (auth : AuthStore.State) (sto : AsyncStorage.t)
  (db : Store) :
  let out := LoginScreen.handleLogin Store post st auth sto db in
  let body := {| LoginScreen.c_username := LoginScreen.username st;
                 LoginScreen.c_password := LoginScreen.password st |} in
  (LoginScreen.username st = "" \/ LoginScreen.password st = "" ->
   out = (st, auth, sto, db, [Alert "Error" "Please fill in all fields"]))
  /\ (forall db' data,
        LoginScreen.username st <> "" ->
        LoginScreen.password st <> "" ->
        post body db = (db', Api.Resolved data) ->
        AsyncStorage.faults sto = [] ->
        let user := {| AuthStore.id := LoginScreen.user_id data;
                       AuthStore.username := LoginScreen.d_username data;
                       AuthStore.email := None |} in
        out.1.1.1.2
        = {| AuthStore.token := Some (LoginScreen.access_token data);
             AuthStore.user := Some user;
             AuthStore.isLoading := AuthStore.isLoading auth |}
        /\ out.2 = [Send body; RouterReplace "/(tabs)/home"]
        /\ (LoginScreen.access_token data <> "" ->
            let restored :=
              (LoginScreenEffects.mountEffect AuthStore.initial out.1.1.2).1 in
            restored
            = {| AuthStore.token := Some (LoginScreen.access_token data);
                 AuthStore.user := Some user; AuthStore.isLoading := false |}
            /\ LoginScreenEffects.redirectEffect restored
               = [RouterReplace "/(tabs)/home"])).
Proof.
  cbv zeta. split.
  - intros H. unfold LoginScreen.handleLogin.
    assert (Hg : negb (JS.truthy (LoginScreen.username st))
                 || negb (JS.truthy (LoginScreen.password st)) = true).
    { destruct H as [-> | ->]; [reflexivity | apply orb_true_r]. }
    now rewrite Hg.
  - intros db' data Hu Hp Hpost Hf.
    rewrite (handleLogin_filled Store post st auth sto db Hu Hp). cbv zeta.
    rewrite Hpost.
    destruct (setAuth_reliable (LoginScreen.access_token data)
                {| AuthStore.id := LoginScreen.user_id data;
                   AuthStore.username := LoginScreen.d_username data;
                   AuthStore.email := None |} auth sto Hf) as [Hret Hfaults].
    destruct (AuthStore.setAuth _ _ auth sto) as [[auth' sto'] r] eqn:Hset.
    simpl in Hret, Hfaults. subst r. simpl.
    apply setAuth_returned in Hset as (-> & Htok & Huser).
    split; [reflexivity|]. split; [reflexivity|].
    intros Hne. unfold LoginScreenEffects.mountEffect.
    rewrite (loadAuth_reliable AuthStore.initial sto' _ _ Hfaults Htok Huser Hne).
    split; [reflexivity|]. unfold LoginScreenEffects.redirectEffect. simpl.
    apply truthy_true_iff in Hne. now rewrite Hne.
Qed.

Lemma login_signs_in_witness :
  let server := fun (c : LoginScreen.Credentials) (db : unit) =>
    (db, Api.Resolved {| LoginScreen.access_token := "jwt";
                         LoginScreen.user_id := "u1";
                         LoginScreen.d_username := "alice" |}) in
  let out := LoginScreen.handleLogin unit server aliceLoginForm AuthStore.initial
               (AsyncStorage.reliable ∅) tt in
  out.2 = [Send {| LoginScreen.c_username := "alice";
                   LoginScreen.c_password := "pw123" |};
           RouterReplace "/(tabs)/home"]
  /\ LoginScreenEffects.redirectEffect
       (LoginScreenEffects.mountEffect AuthStore.initial out.1.1.2).1
     = [RouterReplace "/(tabs)/home"].
Proof.
  cbv zeta.
  destruct (proj2 (login_signs_in unit
              (fun (c : LoginScreen.Credentials) (db : unit) =>
                 (db, Api.Resolved {| LoginScreen.access_token := "jwt";
                                      LoginScreen.user_id := "u1";
                                      LoginScreen.d_username := "alice" |}))
              aliceLoginForm AuthStore.initial (AsyncStorage.reliable ∅) tt)
            tt _ ltac:(discriminate) ltac:(discriminate) eq_refl eq_refl)
    as (_ & Heff & Hrestart).
  split; [exact Heff|]. apply Hrestart. discriminate.
Defined.

(** X8: when the server accepts the credentials but the device storage
    rejects a write, the login screen reports "Login Failed / Invalid
    credentials", does not leave the screen, and the auth store in memory
    stays as it was, although the request went out. *)
Theorem login_with_failing_storage (Store : Type)
  (post : LoginScreen.Credentials -> Store -> Store * Api.Result LoginScreen.LoginData)
  (st : LoginScreen.State) (auth : AuthStore.State) (sto : AsyncStorage.t)
  (db db' : Store) (data : LoginScreen.LoginData) :
  let body := {| LoginScreen.c_username := LoginScreen.username st;
                 LoginScreen.c_password := LoginScreen.password st |} in
  let user := {| AuthStore.id := LoginScreen.user_id data;
                 AuthStore.username := LoginScreen.d_username data;
                 AuthStore.email := None |} in
  LoginScreen.username st <> "" ->
  LoginScreen.password st <> "" ->
  post body db = (db', Api.Resolved data) ->
  (AuthStore.setAuth (LoginScreen.access_token data) user auth sto).2
  = AuthStore.Threw ->
  let out := LoginScreen.handleLogin Store post st auth sto db in
  out.2 = [Send body; Alert "Login Failed" "Invalid credentials"]
  /\ out.1.1.1.2 = auth.
Proof.
  cbv zeta. intros Hu Hp Hpost Hthrew.
  rewrite (handleLogin_filled Store post st auth sto db Hu Hp). cbv zeta.
  rewrite Hpost. pose proof (setAuth_threw _ _ auth sto Hthrew) as [Hmem _].
  destruct (AuthStore.setAuth _ _ auth sto) as [[auth' sto'] r].
  simpl in Hthrew, Hmem. subst r auth'. split; reflexivity.
Qed.

Lemma login_with_failing_storage_witness :
  let server := fun (c : LoginScreen.Credentials) (db : unit) =>
    (db, Api.Resolved {| LoginScreen.access_token := "jwt";
                         LoginScreen.user_id := "u1";
                         LoginScreen.d_username := "alice" |}) in
  let full := {| AsyncStorage.entries := ∅; AsyncStorage.faults := [true] |} in
  (LoginScreen.handleLogin unit server aliceLoginForm AuthStore.initial full tt).2
  = [Send {| LoginScreen.c_username := "alice"; LoginScreen.c_password := "pw123" |};
     Alert "Login Failed" "Invalid credentials"].
Proof.
  cbv zeta.
  apply (login_with_failing_storage unit
           (fun (c : LoginScreen.Credentials) (db : unit) =>
              (db, Api.Resolved {| LoginScreen.access_token := "jwt";
                                   LoginScreen.user_id := "u1";
                                   LoginScreen.d_username := "alice" |}))
           aliceLoginForm AuthStore.initial
           {| AsyncStorage.entries := ∅; AsyncStorage.faults := [true] |} tt tt
           {| LoginScreen.access_token := "jwt"; LoginScreen.user_id := "u1";
              LoginScreen.d_username := "alice" |});
    try discriminate; reflexivity.
Defined.

(** X9: the logout dialog. Cancel changes nothing and goes nowhere. Logout,
    when the storage takes the two removals, leaves the store and the
    storage without token and user and moves to the login route; from then on
    each of the three tab screens sends no request and redirects to the
    login route, and a restart does not sign in again. When a removal is
    rejected, the screen stays where it is and the store stays signed in. *)
Theorem logout_dialog (auth : AuthStore.State) (sto : AsyncStorage.t) :
  ProfileScreen.handleLogout ProfileScreen.Cancel auth sto
  = (auth, sto, [ProfileScreen.confirmation])
  /\ (AsyncStorage.faults sto = [] ->
      let out := ProfileScreen.handleLogout ProfileScreen.Logout auth sto in
      out.2 = [ProfileScreen.confirmation; RouterReplace "/"]
      /\ AuthStore.token out.1.1 = None /\ AuthStore.user out.1.1 = None
      /\ AsyncStorage.entries out.1.2 !! "token" = None
      /\ AsyncStorage.entries out.1.2 !! "user" = None
      /\ (forall Store get st db,
            HomeScreen.tokenEffect Store get (AuthStore.token out.1.1) st db
            = (st, db, [RouterReplace "/"]))
      /\ (forall Store get st db,
            ItemsScreenList.tokenEffect Store get (AuthStore.token out.1.1) st db
            = (st, db, [RouterReplace "/"]))
      /\ (forall Store get st db,
            SellingScreen.tokenEffect Store get (AuthStore.token out.1.1) st db
            = (st, db, [RouterReplace "/"]))
      /\ LoginScreenEffects.redirectEffect
           (LoginScreenEffects.mountEffect AuthStore.initial out.1.2).1 = [])
  /\ ((AuthStore.logout auth sto).2 = AuthStore.Threw ->
      let out := ProfileScreen.handleLogout ProfileScreen.Logout auth sto in
      out.2 = [ProfileScreen.confirmation] /\ out.1.1 = auth).
Proof.
  split; [reflexivity|]. split.
  - intros Hf. cbv zeta. unfold ProfileScreen.handleLogout.
    pose proof (logout_reliable auth sto Hf) as Hret.
    destruct (AuthStore.logout auth sto) as [[auth' sto'] r] eqn:Hout.
    simpl in Hret. subst r. simpl.
    apply logout_returned in Hout as (-> & Htok & Huser). simpl.
    repeat split; try assumption.
    unfold LoginScreenEffects.mountEffect.
    rewrite loadAuth_needs_both by auto. reflexivity.
  - intros Hthrew. cbv zeta. unfold ProfileScreen.handleLogout.
    pose proof (logout_threw auth sto Hthrew) as Hmem.
    destruct (AuthStore.logout auth sto) as [[auth' sto'] r].
    simpl in Hthrew, Hmem. subst r auth'. split; reflexivity.
Qed.

Lemma logout_dialog_witness :
  let signedInStore :=
    (AuthStore.setAuth "jwt" aliceUser AuthStore.initial (AsyncStorage.reliable ∅)).1 in
  let out := ProfileScreen.handleLogout ProfileScreen.Logout
               signedInStore.1 signedInStore.2 in
  out.2 = [ProfileScreen.confirmation; RouterReplace "/"]
  /\ AuthStore.token out.1.1 = None.
Proof.
  cbv zeta.
  destruct (proj1 (proj2 (logout_dialog
              (AuthStore.setAuth "jwt" aliceUser AuthStore.initial
                 (AsyncStorage.reliable ∅)).1.1
              (AuthStore.setAuth "jwt" aliceUser AuthStore.initial
                 (AsyncStorage.reliable ∅)).1.2)) eq_refl)
    as (Heff & Htok & _).
  split; assumption.
Defined.

(** ** Items tab: what the list shows *)

Lemma string_append_assoc (a b c : string) :
  (a +:+ b) +:+ c = a +:+ (b +:+ c).
Proof.
  induction a as [|x a IH]; [reflexivity|].
  change (String x ((a +:+ b) +:+ c) = String x (a +:+ (b +:+ c))).
  now rewrite IH.
Qed.

Lemma includes_longer (field pre q ext : string) :
  JS.includes field (pre +:+ q +:+ ext) = true -> JS.includes field q = true.
Proof.
  rewrite !includes_true_iff. intros (a & b & ->).
  exists (a +:+ pre), (ext +:+ b). now rewrite !string_append_assoc.
Qed.

Lemma matches_longer (pre q ext : string) (item : Item.t) :
  ItemsScreen.matches (pre +:+ q +:+ ext) item = true ->
  ItemsScreen.matches q item = true.
Proof.
  unfold ItemsScreen.matches. rewrite !toLowerCase_app, !orb_true_iff.
  intros [H | H]; [left | right]; eapply includes_longer; exact H.
Qed.

Lemma filter_sublist_filter {A : Type} (p q : A -> bool) (l : list A) :
  (forall x, p x = true -> q x = true) ->
  sublist (List.filter p l) (List.filter q l).
Proof.
  intros Hpq. induction l as [|x l IH]; simpl; [constructor|].
  destruct (p x) eqn:Hp.
  - rewrite (Hpq x Hp). now constructor.
  - destruct (q x); [now constructor | exact IH].
Qed.

Lemma occursIn_longer {U : Type} (pre q ext s : list U) :
  occursIn (pre ++ q ++ ext)%list s -> occursIn q s.
Proof.
  intros (a & b & ->). exists (a ++ pre)%list, (ext ++ b)%list.
  now rewrite <- !app_assoc.
Qed.

Lemma searchFilter_longer {U : Type} `{EqDecision U} {Item : Type}
  (toLowerCase : list U -> list U) (name description : Item -> list U)
  (pre q ext : list U) (items : list Item) :
  (forall a b, toLowerCase (a ++ b)%list
               = (toLowerCase a ++ toLowerCase b)%list) ->
  sublist
    (SearchFilter.filteredItems toLowerCase name description
       (pre ++ q ++ ext)%list items)
    (SearchFilter.filteredItems toLowerCase name description q items).
Proof.
  intros Hdistr. destruct q as [|c q]; [apply searchFilter_sublist|].
  assert (Hlong : exists d l, (pre ++ (c :: q) ++ ext)%list = d :: l)
    by (destruct pre; simpl; eauto).
  destruct Hlong as (d & l & Hlong).
  rewrite Hlong. cbn [SearchFilter.filteredItems]. rewrite <- Hlong.
  apply filter_sublist_filter. intros item.
  rewrite !matches_occursIn, !Hdistr.
  intros [Hm | Hm]; [left | right]; eapply occursIn_longer; exact Hm.
Qed.

Lemma lowerUnits_app (a b : list ascii) :
  lowerUnits (a ++ b)%list = (lowerUnits a ++ lowerUnits b)%list.
Proof.
  induction a as [|c a IH]; [reflexivity|].
  change (JS.toLowerChar c :: lowerUnits (a ++ b)%list
          = JS.toLowerChar c :: (lowerUnits a ++ lowerUnits b)%list).
  now rewrite IH.
Qed.

(** X10: where lower-casing works on each code unit by itself, so that it
    distributes over concatenation (as it does on text of code units 0..255),
    typing more never brings items back: the list shown for a query that
    contains [q] (units added before or after it) is a sub-sequence of the
    list shown for [q]. This holds for the filter over any alphabet with
    such a lower-casing, and so for the filter of the screen on the strings
    of this file. *)
Theorem longer_query_narrows :
  (forall (U : Type) (eqU : EqDecision U) (Item : Type)
          (toLowerCase : list U -> list U) (name description : Item -> list U)
          (pre q ext : list U) (items : list Item),
      (forall a b, toLowerCase (a ++ b)%list
                   = (toLowerCase a ++ toLowerCase b)%list) ->
      sublist
        (SearchFilter.filteredItems toLowerCase name description
           (pre ++ q ++ ext)%list items)
        (SearchFilter.filteredItems toLowerCase name description q items))
  /\ (forall (pre q ext : string) (items : list Item.t),
         sublist (ItemsScreen.filteredItems (pre +:+ q +:+ ext) items)
                 (ItemsScreen.filteredItems q items)).
Proof.
  split.
  - intros U eqU Item toLowerCase name description pre q ext items.
    apply searchFilter_longer.
  - intros pre q ext items.
    unfold ItemsScreen.filteredItems at 2. destruct (JS.truthy q) eqn:Hq.
    + assert (Hlong : JS.truthy (pre +:+ q +:+ ext) = true).
      { apply truthy_true_iff in Hq. apply truthy_true_iff.
        destruct pre; simpl; [|discriminate].
        destruct q; [congruence | discriminate]. }
      unfold ItemsScreen.filteredItems. rewrite Hlong.
      apply filter_sublist_filter. intros item. apply matches_longer.
    + apply filteredItems_sublist.
Qed.

Lemma longer_query_narrows_witness :
  sublist
    (SearchFilter.filteredItems lowerUnits
       (fun i => units (Item.name i)) (fun i => units (Item.description i))
       (units "ze") [marioItem; zeldaItem])
    (SearchFilter.filteredItems lowerUnits
       (fun i => units (Item.name i)) (fun i => units (Item.description i))
       (units "e") [marioItem; zeldaItem]).
Proof.
  exact (proj1 longer_query_narrows ascii _ Item.t lowerUnits
           (fun i => units (Item.name i)) (fun i => units (Item.description i))
           (units "z") (units "e") [] [marioItem; zeldaItem] lowerUnits_app).
Defined.

Example narrowing_sample :
  ItemsScreen.filteredItems "e" [marioItem; zeldaItem] = [marioItem; zeldaItem]
  /\ ItemsScreen.filteredItems "ze" [marioItem; zeldaItem] = [zeldaItem].
Proof. split; reflexivity. Qed.

Lemma step_showsFiltered (st : ItemsScreenList.State) (e : ItemsScreenList.Event) :
  showsFiltered st -> showsFiltered (ItemsScreenList.step st e).
Proof.
  unfold showsFiltered. intros H. destruct e as [q | token r | r]; simpl.
  - destruct (String.eqb q (ItemsScreenList.searchQuery st)); [exact H | reflexivity].
  - unfold ItemsScreenList.tokenEffect.
    destruct (signedIn token); [|exact H].
    destruct r; simpl; [reflexivity | exact H].
  - destruct r; simpl; [reflexivity | exact H].
Qed.

(** X12: whatever is typed, fetched or refreshed on the items tab, and in
    whatever order, the list on screen is the filter of the items last loaded
    by the current text of the search box; in particular a refresh while a
    query is typed does not show the unfiltered list. *)
Theorem items_tab_shows_filtered (events : list ItemsScreenList.Event) :
  let st := ItemsScreenList.run ItemsScreenList.initial events in
  ItemsScreenList.filteredItems st
  = ItemsScreen.filteredItems (ItemsScreenList.searchQuery st)
                              (ItemsScreenList.items st).
Proof.
  cbv zeta. change (showsFiltered (ItemsScreenList.run ItemsScreenList.initial events)).
  assert (Hrun : forall st, showsFiltered st ->
                            showsFiltered (ItemsScreenList.run st events)).
  { induction events as [|e events IH]; intros st H; simpl; [exact H|].
    apply IH, step_showsFiltered, H. }
  apply Hrun. reflexivity.
Qed.

Example refresh_while_searching :
  ItemsScreenList.filteredItems
    (ItemsScreenList.run ItemsScreenList.initial
       [ItemsScreenList.TokenSeen (Some "jwt") (Api.Resolved [marioItem]);
        ItemsScreenList.ChangeSearch "zel";
        ItemsScreenList.Refresh (Api.Resolved [marioItem; zeldaItem])])
  = [zeldaItem].
Proof. reflexivity. Qed.

(** ** Loading: failures and spinners *)

(** X13: no fetch leaves a spinner on, and a fetch that fails keeps what
    was on screen: on the collections, items and selling tabs and on the two
    detail screens [loading] (and [refreshing]) is false after the fetch,
    whatever the server answers, and after a rejected request the data shown
    before is still there. *)
Theorem fetch_failure_keeps_data :
  (forall Store get st db,
      let out := (HomeScreen.onRefresh Store get st db).1.1 in
      HomeScreen.loading out = false /\ HomeScreen.refreshing out = false
      /\ (forall e, (get db).2 = Api.Rejected e ->
                    HomeScreen.collections out = HomeScreen.collections st))
  /\ (forall Store get st db,
      let out := (ItemsScreenList.onRefresh Store get st db).1.1 in
      ItemsScreenList.loading out = false /\ ItemsScreenList.refreshing out = false
      /\ (forall e, (get db).2 = Api.Rejected e ->
                    ItemsScreenList.items out = ItemsScreenList.items st
                    /\ ItemsScreenList.filteredItems out
                       = ItemsScreenList.filteredItems st))
  /\ (forall Store get st db,
      let out := (SellingScreen.onRefresh Store get st db).1.1 in
      SellingScreen.loading out = false /\ SellingScreen.refreshing out = false
      /\ (forall e, (get db).2 = Api.Rejected e ->
                    SellingScreen.items out = SellingScreen.items st))
  /\ (forall id Store get st db,
      let out := ItemDetailScreenLoad.fetchItem id Store get st db in
      ItemDetailScreen.loading out.1.1 = false
      /\ (forall e, (get id db).2 = Api.Rejected e ->
                    ItemDetailScreen.item out.1.1 = ItemDetailScreen.item st
                    /\ alerts out.2 = [("Error", "Failed to load item")]))
  /\ (forall id Store getC getI st db,
      let out := CollectionDetailScreenLoad.fetchCollectionDetails
                   id Store getC getI st db in
      CollectionDetailScreenLoad.loading out.1.1 = false).
Proof.
  repeat split.
  - unfold HomeScreen.onRefresh, HomeScreen.fetchCollections.
    now destruct (get db) as [db' [data|e]].
  - unfold HomeScreen.onRefresh, HomeScreen.fetchCollections.
    now destruct (get db) as [db' [data|e]].
  - intros e. unfold HomeScreen.onRefresh, HomeScreen.fetchCollections.
    destruct (get db) as [db' [data|e']]; simpl; [discriminate | reflexivity].
  - unfold ItemsScreenList.onRefresh, ItemsScreenList.fetchItems.
    now destruct (get db) as [db' [data|e]].
  - unfold ItemsScreenList.onRefresh, ItemsScreenList.fetchItems.
    now destruct (get db) as [db' [data|e]].
  - unfold ItemsScreenList.onRefresh, ItemsScreenList.fetchItems.
    destruct (get db) as [db' [data|e']]; simpl in *; [discriminate | reflexivity].
  - unfold ItemsScreenList.onRefresh, ItemsScreenList.fetchItems.
    destruct (get db) as [db' [data|e']]; simpl in *; [discriminate | reflexivity].
  - unfold SellingScreen.onRefresh, SellingScreen.fetchSellingItems.
    now destruct (get db) as [db' [data|e]].
  - unfold SellingScreen.onRefresh, SellingScreen.fetchSellingItems.
    now destruct (get db) as [db' [data|e]].
  - intros e. unfold SellingScreen.onRefresh, SellingScreen.fetchSellingItems.
    destruct (get db) as [db' [data|e']]; simpl; [discriminate | reflexivity].
  - unfold ItemDetailScreenLoad.fetchItem.
    now destruct (get id db) as [db' [data|e]].
  - unfold ItemDetailScreenLoad.fetchItem.
    destruct (get id db) as [db' [data|e']]; simpl in *; [discriminate | reflexivity].
  - unfold ItemDetailScreenLoad.fetchItem.
    destruct (get id db) as [db' [data|e']]; simpl in *; [discriminate | reflexivity].
  - intros id Store getC getI st db.
    unfold CollectionDetailScreenLoad.fetchCollectionDetails.
    destruct (getC id db) as [db1 rc]. destruct (getI id db1) as [db2 ri].
    now destruct rc, ri.
Qed.

(** ** Detail screens *)

(** X14: the collection screen loads all or nothing: both requests are
    always sent; when both are answered the collection and its items are
    replaced together and no alert is shown; when either is rejected, even
    if the other was answered, neither is replaced and the alert "Failed to
    load collection" is shown. *)
Theorem collection_screen_loads_all_or_nothing
  (id : string) (Store : Type)
  (getCollection : string -> Store -> Store * Api.Result Collection.t)
  (getItems : string -> Store -> Store * Api.Result (list Item.t))
  (st : CollectionDetailScreenLoad.State) (db : Store) :
  let rc := (getCollection id db).2 in
  let ri := (getItems id (getCollection id db).1).2 in
  let out := CollectionDetailScreenLoad.fetchCollectionDetails
               id Store getCollection getItems st db in
  requests out.2
  = [CollectionDetailScreenLoad.GetCollection id;
     CollectionDetailScreenLoad.GetItemsOf id]
  /\ (forall c its,
        rc = Api.Resolved c -> ri = Api.Resolved its ->
        CollectionDetailScreenLoad.collection out.1.1 = Some c
        /\ CollectionDetailScreenLoad.items out.1.1 = its
        /\ alerts out.2 = [])
  /\ ((exists e, rc = Api.Rejected e) \/ (exists e, ri = Api.Rejected e) ->
      CollectionDetailScreenLoad.collection out.1.1
      = CollectionDetailScreenLoad.collection st
      /\ CollectionDetailScreenLoad.items out.1.1
         = CollectionDetailScreenLoad.items st
      /\ alerts out.2 = [("Error", "Failed to load collection")]).
Proof.
  cbv zeta. unfold CollectionDetailScreenLoad.fetchCollectionDetails.
  destruct (getCollection id db) as [db1 rc]. simpl.
  destruct (getItems id db1) as [db2 ri]. simpl.
  split; [now destruct rc, ri|]. split.
  - intros c its -> ->. repeat split.
  - intros [[e ->] | [e ->]]; [|destruct rc]; repeat split.
Qed.

Lemma collection_screen_loads_all_or_nothing_witness :
  let out := CollectionDetailScreenLoad.fetchCollectionDetails "c1" unit
               (fun _ => answering (Api.Resolved
                  {| Collection.id := "c1"; Collection.name := "Retro Games";
                     Collection.category := "video games";
                     Collection.description := ""; Collection.item_count := 1;
                     Collection.created_at := "2025-01-01T00:00:00" |}))
               (fun _ => answering (Api.Rejected Api.noResponse))
               CollectionDetailScreenLoad.initial tt in
  CollectionDetailScreenLoad.collection out.1.1 = None
  /\ CollectionDetailScreenLoad.items out.1.1 = []
  /\ alerts out.2 = [("Error", "Failed to load collection")].
Proof.
  cbv zeta.
  apply (collection_screen_loads_all_or_nothing "c1" unit
           (fun _ => answering (Api.Resolved
              {| Collection.id := "c1"; Collection.name := "Retro Games";
                 Collection.category := "video games";
                 Collection.description := ""; Collection.item_count := 1;
                 Collection.created_at := "2025-01-01T00:00:00" |}))
           (fun _ => answering (Api.Rejected Api.noResponse))
           CollectionDetailScreenLoad.initial tt).
  right. exists Api.noResponse. reflexivity.
Defined.

(** X15: the two delete dialogs, for any server. Cancel sends no request
    and leaves the server alone; Delete sends exactly one delete request for
    the id of the screen; and the screen is left exactly when the server
    accepted the request. *)
Theorem delete_dialogs
  (id : string) (Store : Type)
  (delete : string -> Store -> Store * Api.Result unit) (db : Store) :
  (ItemDetailScreenLoad.handleDelete id Store delete ItemDetailScreenLoad.Cancel db
   = (db, [ItemDetailScreenLoad.confirmation])
   /\ CollectionDetailScreen.handleDelete id Store delete
        CollectionDetailScreen.Cancel db
      = (db, [CollectionDetailScreen.confirmation]))
  /\ (let out := ItemDetailScreenLoad.handleDelete id Store delete
                   ItemDetailScreenLoad.Delete db in
      requests out.2 = [ItemDetailScreenLoad.DeleteItem id]
      /\ out.1 = (delete id db).1
      /\ (wentBack out.2 = true <-> exists u, (delete id db).2 = Api.Resolved u))
  /\ (let out := CollectionDetailScreen.handleDelete id Store delete
                   CollectionDetailScreen.Delete db in
      requests out.2 = [CollectionDetailScreen.DeleteCollection id]
      /\ out.1 = (delete id db).1
      /\ (wentBack out.2 = true <-> exists u, (delete id db).2 = Api.Resolved u)).
Proof.
  split; [split; reflexivity|]. cbv zeta.
  unfold ItemDetailScreenLoad.handleDelete, CollectionDetailScreen.handleDelete.
  destruct (delete id db) as [db' [u|e]]; simpl;
    repeat split; try discriminate; eauto; intros [u' Hu]; discriminate.
Qed.

(** X16: sharing a collection. When the server answers with a share code,
    the share sheet gets the text built from the name on screen and that
    code, the code being its last part, so that different codes give
    different texts; when the server rejects the request nothing is shared
    and the alert "Failed to generate share code" is shown. *)
Theorem share_message_carries_code
  (id : string) (Store : Type)
  (postShare : string -> Store -> Store * Api.Result string)
  (st : CollectionDetailScreenLoad.State) (sheetOpens : bool) (db : Store) :
  let out := CollectionDetailScreenLoad.handleShare id Store postShare
               st sheetOpens db in
  requests out.1.2 = [CollectionDetailScreenLoad.PostShare id]
  /\ (forall code,
        (postShare id db).2 = Api.Resolved code ->
        out.2
        = Some ("Check out my "
                +:+ CollectionDetailScreenLoad.shownName
                      (CollectionDetailScreenLoad.collection st)
                +:+ " collection! Use code: " +:+ code))
  /\ (forall e,
        (postShare id db).2 = Api.Rejected e ->
        out.2 = None
        /\ alerts out.1.2 = [("Error", "Failed to generate share code")])
  /\ (forall c code code',
        CollectionDetailScreenLoad.shareMessage c code
        = CollectionDetailScreenLoad.shareMessage c code' ->
        code = code').
Proof.
  cbv zeta. unfold CollectionDetailScreenLoad.handleShare.
  destruct (postShare id db) as [db' [code|e]]; simpl.
  - split; [now destruct sheetOpens|]. split.
    + intros code' [= <-]. now destruct sheetOpens.
    + split; [discriminate|]. intros c code1 code2 H.
      unfold CollectionDetailScreenLoad.shareMessage in H.
      now repeat apply (inj (String.app _)) in H.
  - split; [reflexivity|]. split; [discriminate|]. split; [now intros e' _|].
    intros c code1 code2 H.
    unfold CollectionDetailScreenLoad.shareMessage in H.
    now repeat apply (inj (String.app _)) in H.
Qed.




(** ** The two forms: what a request can carry *)

Lemma form_category (events : list AddCollectionScreenForm.Event)
  (st : AddCollectionScreen.State) :
  AddCollectionScreen.selectedCategory st = ""
  \/ AddCollectionScreen.selectedCategory st ∈ AddCollectionScreen.CATEGORIES ->
  AddCollectionScreen.selectedCategory (fold_left AddCollectionScreenForm.step events st) = ""
  \/ AddCollectionScreen.selectedCategory (fold_left AddCollectionScreenForm.step events st)
     ∈ AddCollectionScreen.CATEGORIES.
Proof.
  revert st; induction events as [|e events IH]; intros st H; simpl; [exact H|].
  apply IH. destruct e as [s | s | k]; simpl; try exact H.
  destruct (AddCollectionScreen.CATEGORIES !! k) as [c|] eqn:Hk; [|exact H].
  right. simpl. eapply list_elem_of_lookup_2, Hk.
Qed.

(** X18: the category of a new collection comes from the buttons: whatever
    the user does on the new-collection form, a create request it sends
    carries one of the eight listed categories and a non-empty name. *)
Theorem collection_request_category
  (events : list AddCollectionScreenForm.Event) (Store : Type)
  (post : AddCollectionScreen.Body.t -> Store -> Store * Api.Result unit)
  (db : Store) (body : AddCollectionScreen.Body.t) :
  body ∈ requests (AddCollectionScreen.handleCreate Store post
                     (AddCollectionScreenForm.run events) db).2 ->
  AddCollectionScreen.Body.category body ∈ AddCollectionScreen.CATEGORIES
  /\ AddCollectionScreen.Body.name body <> "".
Proof.
  unfold AddCollectionScreenForm.run.
  pose proof (form_category events AddCollectionScreen.initial (or_introl eq_refl)) as Hcat.
  remember (fold_left AddCollectionScreenForm.step events AddCollectionScreen.initial)
    as st eqn:Hst. clear Hst.
  unfold AddCollectionScreen.handleCreate.
  destruct (JS.truthy (AddCollectionScreen.name st)) eqn:Hn; simpl;
    [|intros Hin; inversion Hin].
  destruct (JS.truthy (AddCollectionScreen.selectedCategory st)) eqn:Hc; simpl;
    [|intros Hin; inversion Hin].
  apply truthy_true_iff in Hn, Hc.
  destruct (post _ db) as [db' [u|e]]; simpl; intros Hin;
    apply list_elem_of_singleton in Hin; subst body; simpl;
    (split; [destruct Hcat as [Hcat|Hcat]; [contradiction | exact Hcat] | exact Hn]).
Qed.

Lemma collection_request_category_witness :
  "shoes" ∈ AddCollectionScreen.CATEGORIES.
Proof.
  apply (collection_request_category
           [AddCollectionScreenForm.PressCategory 2;
            AddCollectionScreenForm.ChangeName "Sneakers"]
           unit acceptAll tt
           {| AddCollectionScreen.Body.name := "Sneakers";
              AddCollectionScreen.Body.category := "shoes";
              AddCollectionScreen.Body.description := "" |}).
  apply list_elem_of_singleton. reflexivity.
Defined.

Lemma form_condition (events : list AddItemScreen.Event) (sc : AddItemScreen.Screen) :
  AddItemScreen.condition (AddItemScreen.state sc) ∈ AddItemScreen.CONDITIONS ->
  AddItemScreen.condition (AddItemScreen.state (AddItemScreen.run sc events))
  ∈ AddItemScreen.CONDITIONS.
Proof.
  revert sc; induction events as [|e events IH]; intros sc H; simpl; [exact H|].
  apply IH. destruct e; simpl; try exact H.
  - destruct (AddItemScreen.CONDITIONS !! k) as [c|] eqn:Hk; [|exact H].
    simpl. eapply list_elem_of_lookup_2, Hk.
  - destruct (AddItemScreen.collections (AddItemScreen.state sc) !! k) as [[i n]|];
      exact H.
  - unfold AddItemScreen.launch. now destruct (AddItemScreen.addButtonsShown _).
  - unfold AddItemScreen.launch. now destruct (AddItemScreen.addButtonsShown _).
  - unfold AddItemScreen.resolve.
    destruct (AddItemScreen.pending sc !! k) as [[p captured]|]; [|exact H].
    simpl. match goal with |- context [fst ?o] => destruct (fst o) end; exact H.
Qed.

Lemma start_imagesAreDataUris (collectionId : option string) :
  imagesAreDataUris (AddItemScreen.start collectionId).
Proof. split; constructor. Qed.

Lemma picker_outcome_dataUris (p : AddItemScreen.Picker)
  (captured l : list string) (result : AddItemScreen.PickerResult) :
  Forall isDataUri captured ->
  fst (match p with
       | AddItemScreen.Camera => AddItemScreen.takePhoto captured result
       | AddItemScreen.Gallery => AddItemScreen.pickImage captured result
       end) = Some l ->
  Forall isDataUri l.
Proof.
  intros Hcap.
  destruct p, result as [|[b|]|]; simpl; try discriminate;
    destruct (JS.truthy b) eqn:Hb; simpl; try discriminate;
    intros [= <-]; apply Forall_app; (split; [exact Hcap|]);
    apply Forall_singleton; exists b; (split; [now apply truthy_true_iff | reflexivity]).
Qed.

Lemma step_imagesAreDataUris (sc : AddItemScreen.Screen) (e : AddItemScreen.Event) :
  imagesAreDataUris sc -> imagesAreDataUris (AddItemScreen.step sc e).
Proof.
  intros [Himg Hpend]. destruct e; simpl;
    try (split; [exact Himg | exact Hpend]).
  - destruct (AddItemScreen.CONDITIONS !! k); split; assumption.
  - destruct (AddItemScreen.collections (AddItemScreen.state sc) !! k) as [[i n]|];
      split; assumption.
  - unfold AddItemScreen.launch.
    destruct (AddItemScreen.addButtonsShown _); split; simpl; try assumption.
    apply Forall_app; split; [assumption|]. now apply Forall_singleton.
  - unfold AddItemScreen.launch.
    destruct (AddItemScreen.addButtonsShown _); split; simpl; try assumption.
    apply Forall_app; split; [assumption|]. now apply Forall_singleton.
  - unfold AddItemScreen.resolve.
    destruct (AddItemScreen.pending sc !! k) as [[p captured]|] eqn:Hk;
      [|split; assumption].
    pose proof (proj1 (Forall_lookup _ _) Hpend k _ Hk) as Hcap. simpl in Hcap.
    split; simpl; [|apply Forall_delete, Hpend].
    match goal with
    | |- context [fst ?o] => destruct (fst o) as [l|] eqn:Ho
    end; [|exact Himg].
    simpl. eapply picker_outcome_dataUris; [exact Hcap | exact Ho].
  - split; simpl; [|exact Hpend].
    rewrite removeImage_delete. apply Forall_delete, Himg.
Qed.

Lemma run_imagesAreDataUris (events : list AddItemScreen.Event)
  (sc : AddItemScreen.Screen) :
  imagesAreDataUris sc -> imagesAreDataUris (AddItemScreen.run sc events).
Proof.
  revert sc; induction events as [|e events IH]; intros sc H; simpl; [exact H|].
  apply IH, step_imagesAreDataUris, H.
Qed.

(** X19: what a create-item request can carry. Whatever the user does on
    the add-item form, a request it sends has a non-empty name, a condition
    from the six listed ones, at most five images, each of them a JPEG data
    URI with a non-empty payload, and a collection id that is null exactly
    when no collection is selected. *)
Theorem item_request_is_well_formed
  (collectionId : option string) (events : list AddItemScreen.Event)
  (Store : Type)
  (post : AddItemScreen.Body.t -> Store -> Store * Api.Result unit)
  (db : Store) (body : AddItemScreen.Body.t) :
  let st := AddItemScreen.state
              (AddItemScreen.run (AddItemScreen.start collectionId) events) in
  body ∈ requests (AddItemScreen.handleCreate Store post st db).2 ->
  AddItemScreen.Body.name body <> ""
  /\ AddItemScreen.Body.condition body ∈ AddItemScreen.CONDITIONS
  /\ length (AddItemScreen.Body.images body) <= 5
  /\ Forall isDataUri (AddItemScreen.Body.images body)
  /\ (AddItemScreen.Body.collection_id body = None
      <-> AddItemScreen.selectedCollection st = "")
  /\ AddItemScreen.Body.collection_id body <> Some "".
Proof.
  cbv zeta. intros Hin. apply item_create_body in Hin as [Hname Hreq].
  rewrite (item_create_with_name _ post _ db Hname) in Hreq.
  injection Hreq as <-. simpl.
  split; [exact Hname|]. split.
  { apply form_condition. simpl. repeat constructor. }
  split.
  { apply (run_imagesBounded events), start_imagesBounded. }
  split.
  { apply (run_imagesAreDataUris events), start_imagesAreDataUris. }
  destruct (JS.truthy (AddItemScreen.selectedCollection _)) eqn:Hsel.
  - apply truthy_true_iff in Hsel. repeat split; try congruence.
  - apply truthy_false_iff in Hsel. repeat split; try congruence.
Qed.

Lemma item_request_is_well_formed_witness :
  let body := {| AddItemScreen.Body.collection_id := None;
                 AddItemScreen.Body.name := "Card";
                 AddItemScreen.Body.description := "";
                 AddItemScreen.Body.images := [AddItemScreen.dataUri "AAAA"];
                 AddItemScreen.Body.barcode := "";
                 AddItemScreen.Body.purchase_price := JS.zero;
                 AddItemScreen.Body.current_value := JS.zero;
                 AddItemScreen.Body.condition := "near_mint";
                 AddItemScreen.Body.is_wishlist := false |} in
  AddItemScreen.Body.condition body ∈ AddItemScreen.CONDITIONS
  /\ length (AddItemScreen.Body.images body) <= 5
  /\ Forall isDataUri (AddItemScreen.Body.images body).
Proof.
  cbv zeta.
  destruct (item_request_is_well_formed None
              [AddItemScreen.ChangeName "Card";
               AddItemScreen.PressCondition 1;
               AddItemScreen.PressTakePhoto;
               AddItemScreen.PickerResolves 0 (AddItemScreen.Asset (Some "AAAA"))]
              unit acceptAll tt
              {| AddItemScreen.Body.collection_id := None;
                 AddItemScreen.Body.name := "Card";
                 AddItemScreen.Body.description := "";
                 AddItemScreen.Body.images := [AddItemScreen.dataUri "AAAA"];
                 AddItemScreen.Body.barcode := "";
                 AddItemScreen.Body.purchase_price := JS.zero;
                 AddItemScreen.Body.current_value := JS.zero;
                 AddItemScreen.Body.condition := "near_mint";
                 AddItemScreen.Body.is_wishlist := false |})
    as (_ & Hc & Hl & Hd & _).
  - apply list_elem_of_singleton. reflexivity.
  - split; [exact Hc|]. split; assumption.
Defined.

Lemma selection_untouched (events : list AddItemScreen.Event)
  (sc : AddItemScreen.Screen) :
  forallb (fun e => negb (isCollectionPress e)) events = true ->
  AddItemScreen.selectedCollection (AddItemScreen.state (AddItemScreen.run sc events))
  = AddItemScreen.selectedCollection (AddItemScreen.state sc).
Proof.
  revert sc; induction events as [|e events IH]; intros sc H; simpl in *;
    [reflexivity|].
  apply andb_true_iff in H as [He H]. rewrite (IH _ H).
  destruct e; simpl in *; try reflexivity; try discriminate.
  - destruct (AddItemScreen.CONDITIONS !! k); reflexivity.
  - unfold AddItemScreen.launch. now destruct (AddItemScreen.addButtonsShown _).
  - unfold AddItemScreen.launch. now destruct (AddItemScreen.addButtonsShown _).
  - unfold AddItemScreen.resolve.
    destruct (AddItemScreen.pending sc !! k) as [[p captured]|]; [|reflexivity].
    simpl. match goal with |- context [fst ?o] => destruct (fst o) end; reflexivity.
Qed.

(** X20: an item added from a collection's page is filed under that
    collection: when the form is opened with a non-empty [collectionId] and
    the user presses none of the collection buttons, the request carries that
    id; opened without one, it carries null. *)
Theorem item_filed_under_route_collection
  (collectionId : option string) (events : list AddItemScreen.Event)
  (Store : Type)
  (post : AddItemScreen.Body.t -> Store -> Store * Api.Result unit)
  (db : Store) (body : AddItemScreen.Body.t) :
  let st := AddItemScreen.state
              (AddItemScreen.run (AddItemScreen.start collectionId) events) in
  forallb (fun e => negb (isCollectionPress e)) events = true ->
  body ∈ requests (AddItemScreen.handleCreate Store post st db).2 ->
  (forall cid, collectionId = Some cid -> cid <> "" ->
               AddItemScreen.Body.collection_id body = Some cid)
  /\ (collectionId = None -> AddItemScreen.Body.collection_id body = None).
Proof.
  cbv zeta. intros Hev Hin. apply item_create_body in Hin as [Hname Hreq].
  rewrite (item_create_with_name _ post _ db Hname) in Hreq.
  injection Hreq as <-. simpl.
  rewrite (selection_untouched events _ Hev). simpl. split.
  - intros cid -> Hne. simpl. destruct cid; [congruence | reflexivity].
  - now intros ->.
Qed.

Lemma item_filed_under_route_collection_witness :
  let body := {| AddItemScreen.Body.collection_id := Some "c1";
                 AddItemScreen.Body.name := "Chrono Trigger";
                 AddItemScreen.Body.description := "";
                 AddItemScreen.Body.images := [];
                 AddItemScreen.Body.barcode := "";
                 AddItemScreen.Body.purchase_price := JS.zero;
                 AddItemScreen.Body.current_value := JS.zero;
                 AddItemScreen.Body.condition := "good";
                 AddItemScreen.Body.is_wishlist := false |} in
  AddItemScreen.Body.collection_id body = Some "c1".
Proof.
  cbv zeta.
  apply (item_filed_under_route_collection (Some "c1")
           [AddItemScreen.ChangeName "Chrono Trigger"] unit acceptAll tt
           {| AddItemScreen.Body.collection_id := Some "c1";
              AddItemScreen.Body.name := "Chrono Trigger";
              AddItemScreen.Body.description := "";
              AddItemScreen.Body.images := [];
              AddItemScreen.Body.barcode := "";
              AddItemScreen.Body.purchase_price := JS.zero;
              AddItemScreen.Body.current_value := JS.zero;
              AddItemScreen.Body.condition := "good";
              AddItemScreen.Body.is_wishlist := false |});
    [reflexivity | apply list_elem_of_singleton; reflexivity | reflexivity | discriminate].
Defined.

(** X21: a picker result is added to the images as they were when its
    button was pressed, not as they are when it arrives. So of two pickers
    started on the same render only the photo of the one that resolves last
    is kept, and an image removed while a picker is open comes back with the
    new photo. *)
Theorem picker_result_uses_captured_images
  (sc : AddItemScreen.Screen) (b1 b2 : string) (index : nat) :
  AddItemScreen.addButtonsShown (AddItemScreen.state sc) = true ->
  AddItemScreen.pending sc = [] ->
  b1 <> "" -> b2 <> "" ->
  let before := AddItemScreen.images (AddItemScreen.state sc) in
  AddItemScreen.images
    (AddItemScreen.state
       (AddItemScreen.run sc
          [AddItemScreen.PressTakePhoto; AddItemScreen.PressPickImage;
           AddItemScreen.PickerResolves 0 (AddItemScreen.Asset (Some b1));
           AddItemScreen.PickerResolves 0 (AddItemScreen.Asset (Some b2))]))
  = (before ++ [AddItemScreen.dataUri b2])%list
  /\ AddItemScreen.images
       (AddItemScreen.state
          (AddItemScreen.run sc
             [AddItemScreen.PressTakePhoto; AddItemScreen.PressRemove index;
              AddItemScreen.PickerResolves 0 (AddItemScreen.Asset (Some b1))]))
     = (before ++ [AddItemScreen.dataUri b1])%list.
Proof.
  intros Hshown Hpend H1 H2. apply truthy_true_iff in H1, H2.
  destruct sc as [st pend]. simpl in *. subst pend.
  unfold AddItemScreen.launch. simpl. rewrite Hshown. simpl.
  unfold AddItemScreen.launch. simpl. rewrite Hshown. simpl.
  unfold AddItemScreen.resolve. simpl. rewrite H1. simpl. rewrite H2. simpl.
  split; reflexivity.
Qed.

Lemma picker_result_uses_captured_images_witness :
  AddItemScreen.images
    (AddItemScreen.state
       (AddItemScreen.run (AddItemScreen.start None)
          [AddItemScreen.PressTakePhoto; AddItemScreen.PressPickImage;
           AddItemScreen.PickerResolves 0 (AddItemScreen.Asset (Some "AAAA"));
           AddItemScreen.PickerResolves 0 (AddItemScreen.Asset (Some "BBBB"))]))
  = [AddItemScreen.dataUri "BBBB"].
Proof.
  apply (picker_result_uses_captured_images (AddItemScreen.start None)
           "AAAA" "BBBB" 0); try reflexivity; discriminate.
Defined.

(** X22: the bounds of [removeImage]: an index inside the list shortens it
    by exactly one and leaves the images at the other positions in place; an
    index at or beyond its end leaves the list as it is. *)
Theorem removeImage_bounds (images : list string) (index : nat) :
  (index < length images ->
   S (length (AddItemScreen.removeImage images index)) = length images
   /\ (forall j, j < index ->
                 AddItemScreen.removeImage images index !! j = images !! j)
   /\ (forall j, index <= j ->
                 AddItemScreen.removeImage images index !! j = images !! S j))
  /\ (length images <= index -> AddItemScreen.removeImage images index = images).
Proof.
  rewrite removeImage_delete. split.
  - intros Hlt. split; [|split].
    + rewrite length_delete; [lia|]. now apply lookup_lt_is_Some.
    + intros j Hj. now apply list_lookup_delete_lt.
    + intros j Hj. now apply list_lookup_delete_ge.
  - intros Hge. revert index Hge.
    induction images as [|x l IH]; intros [|i] H; simpl in *; try reflexivity; try lia.
    f_equal. apply IH. lia.
Qed.

Lemma removeImage_bounds_witness :
  S (length (AddItemScreen.removeImage ["a"; "b"; "c"] 1)) = 3
  /\ AddItemScreen.removeImage ["a"; "b"; "c"] 3 = ["a"; "b"; "c"].
Proof.
  split.
  - apply (proj1 (removeImage_bounds ["a"; "b"; "c"] 1)). simpl. lia.
  - apply (proj2 (removeImage_bounds ["a"; "b"; "c"] 3)). simpl. lia.
Defined.

(** ** Barcode scanner *)

Lemma scanner_alert_budget (events : list BarcodeScannerScreen.Event)
  (st : BarcodeScannerScreen.State) :
  alertCount (BarcodeScannerScreen.run st events).2
  <= (if BarcodeScannerScreen.scanned st then 0 else 1) + rescans events.
Proof.
  revert st; induction events as [|e events IH]; intros st;
    [unfold alertCount, rescans; simpl; lia|].
  cbn [BarcodeScannerScreen.run].
  destruct (BarcodeScannerScreen.step st e) as [st1 shown1] eqn:Hstep.
  specialize (IH st1).
  destruct (BarcodeScannerScreen.run st1 events) as [st2 shown2]. simpl in IH |- *.
  unfold alertCount, alerts in *. rewrite omap_app, length_app.
  unfold rescans in *. simpl.
  destruct e as [status | data |]; simpl in Hstep.
  - injection Hstep as <- <-. simpl in *. lia.
  - destruct (BarcodeScannerScreen.cameraShown st && negb (BarcodeScannerScreen.scanned st))
      eqn:Hc; injection Hstep as <- <-; simpl in *.
    + apply andb_true_iff in Hc as [_ Hs]. apply negb_true_iff in Hs.
      rewrite Hs. lia.
    + lia.
  - destruct (BarcodeScannerScreen.cameraShown st && BarcodeScannerScreen.scanned st)
      eqn:Hc; injection Hstep as <- <-; simpl in *.
    + apply andb_true_iff in Hc as [_ Hs]. rewrite Hs. lia.
    + destruct (BarcodeScannerScreen.scanned st); lia.
Qed.

Lemma scanner_needs_permission (events : list BarcodeScannerScreen.Event)
  (st : BarcodeScannerScreen.State) :
  BarcodeScannerScreen.cameraShown st = false ->
  forallb (fun e => negb (isGrant e)) events = true ->
  (BarcodeScannerScreen.run st events).2 = [].
Proof.
  revert st; induction events as [|e events IH]; intros st Hcam Hev; [reflexivity|].
  simpl in Hev. apply andb_true_iff in Hev as [He Hev].
  cbn [BarcodeScannerScreen.run].
  destruct (BarcodeScannerScreen.step st e) as [st1 shown1] eqn:Hstep.
  assert (Hst1 : BarcodeScannerScreen.cameraShown st1 = false /\ shown1 = []).
  { destruct e as [status | data |]; simpl in Hstep, He.
    - injection Hstep as <- <-. unfold BarcodeScannerScreen.cameraShown. simpl.
      apply negb_true_iff in He. now rewrite He.
    - rewrite Hcam in Hstep. simpl in Hstep. now injection Hstep as <- <-.
    - rewrite Hcam in Hstep. simpl in Hstep. now injection Hstep as <- <-. }
  destruct Hst1 as [Hcam1 ->]. specialize (IH st1 Hcam1 Hev).
  destruct (BarcodeScannerScreen.run st1 events) as [st2 shown2].
  simpl in IH |- *. exact IH.
Qed.

Example scan_twice_with_rescan :
  alerts (BarcodeScannerScreen.run BarcodeScannerScreen.initial
            [BarcodeScannerScreen.PermissionAnswered "granted";
             BarcodeScannerScreen.BarcodeSeen "0454";
             BarcodeScannerScreen.BarcodeSeen "0454";
             BarcodeScannerScreen.PressRescan;
             BarcodeScannerScreen.BarcodeSeen "9999"]).2
  = [("Barcode Scanned", "Barcode: 0454"); ("Barcode Scanned", "Barcode: 9999")].
Proof. reflexivity. Qed.

(** X23: the scanner reports a barcode once: however often the camera sees
    a barcode, the number of "Barcode Scanned" alerts is at most one more
    than the number of presses on "Tap to Scan Again"; and as long as the
    camera permission has not been granted nothing is shown at all. *)
Theorem scanner_reports_once (events : list BarcodeScannerScreen.Event) :
  let shown := (BarcodeScannerScreen.run BarcodeScannerScreen.initial events).2 in
  alertCount shown <= S (rescans events)
  /\ (forallb (fun e => negb (isGrant e)) events = true -> shown = []).
Proof.
  cbv zeta. split.
  - apply (scanner_alert_budget events BarcodeScannerScreen.initial).
  - now apply scanner_needs_permission.
Qed.

Lemma scanner_reports_once_witness :
  (BarcodeScannerScreen.run BarcodeScannerScreen.initial
     [BarcodeScannerScreen.PermissionAnswered "denied";
      BarcodeScannerScreen.BarcodeSeen "0454"]).2 = [].
Proof.
  apply (scanner_reports_once
           [BarcodeScannerScreen.PermissionAnswered "denied";
            BarcodeScannerScreen.BarcodeSeen "0454"]).
  reflexivity.
Defined.

(** ** The create forms after the answer *)

(** X24: the two create forms leave the screen exactly when the server
    accepted the request, and they keep what was typed: after a create
    attempt with the required fields filled in, every field of the form is as
    before and only [loading] is reset, so a rejected request can be sent
    again as it is. *)
Theorem create_forms_keep_input (Store : Type) (db : Store) :
  (forall (post : AddCollectionScreen.Body.t -> Store -> Store * Api.Result unit)
          (st : AddCollectionScreen.State),
      AddCollectionScreen.name st <> "" ->
      AddCollectionScreen.selectedCategory st <> "" ->
      let out := AddCollectionScreen.handleCreate Store post st db in
      out.1.1 = AddCollectionScreen.setLoading false st
      /\ (wentBack out.2 = true
          <-> exists body u, (post body db).2 = Api.Resolved u
                             /\ requests out.2 = [body])
      /\ (alerts out.2 = [("Success", "Collection created successfully")]
          \/ exists e, alerts out.2
                       = [("Error", Api.detailOr e "Failed to create collection")]))
  /\ (forall (post : AddItemScreen.Body.t -> Store -> Store * Api.Result unit)
             (st : AddItemScreen.State),
      AddItemScreen.name st <> "" ->
      let out := AddItemScreen.handleCreate Store post st db in
      out.1.1 = AddItemScreen.setLoading false st
      /\ (wentBack out.2 = true
          <-> exists body u, (post body db).2 = Api.Resolved u
                             /\ requests out.2 = [body])
      /\ (alerts out.2 = [("Success", "Item added successfully")]
          \/ exists e, alerts out.2
                       = [("Error", Api.detailOr e "Failed to add item")])).
Proof.
  split.
  - intros post st Hn Hc. cbv zeta. apply truthy_true_iff in Hn, Hc.
    unfold AddCollectionScreen.handleCreate. rewrite Hn, Hc. simpl.
    destruct (post _ db) as [db' [u|e]] eqn:Hpost; simpl.
    + split; [reflexivity|]. split; [|now left]. split; [|reflexivity].
      intros _. eexists _, u. rewrite Hpost. split; reflexivity.
    + split; [reflexivity|]. split; [|right; now exists e].
      split; [discriminate|]. intros (body & u & Hres & [= <-]).
      rewrite Hpost in Hres. discriminate.
  - intros post st Hn. cbv zeta. apply truthy_true_iff in Hn.
    unfold AddItemScreen.handleCreate. rewrite Hn. simpl.
    destruct (post _ db) as [db' [u|e]] eqn:Hpost; simpl.
    + split; [reflexivity|]. split; [|now left]. split; [|reflexivity].
      intros _. eexists _, u. rewrite Hpost. split; reflexivity.
    + split; [reflexivity|]. split; [|right; now exists e].
      split; [discriminate|]. intros (body & u & Hres & [= <-]).
      rewrite Hpost in Hres. discriminate.
Qed.

Lemma create_forms_keep_input_witness :
  (AddItemScreen.handleCreate unit (rejectingServer Api.noResponse)
     chronoTriggerForm tt).1.1
  = AddItemScreen.setLoading false chronoTriggerForm.
Proof.
  apply (proj2 (create_forms_keep_input unit tt)
           (rejectingServer Api.noResponse) chronoTriggerForm).
  discriminate.
Defined.

(** ** The add-item form against the store of the specification *)







(** ** Examples of the properties above at work *)

Lemma user_text_round_trip_witness :
  AuthStore.parseUser (AuthStore.stringifyUser aliceUser) = Some aliceUser
  /\ aliceUser
     = {| AuthStore.id := "u1"; AuthStore.username := "alice";
          AuthStore.email := Some "alice@example.com" |}.
Proof.
  destruct (user_text_round_trip aliceUser
              {| AuthStore.id := "u1"; AuthStore.username := "alice";
                 AuthStore.email := Some "alice@example.com" |})
    as (Hparse & Hinj & _).
  split; [exact Hparse | apply Hinj; reflexivity].
Defined.

Lemma fetch_failure_keeps_data_witness :
  let shown := {| HomeScreen.collections :=
                    [{| Collection.id := "c1"; Collection.name := "Retro Games";
                        Collection.category := "video games";
                        Collection.description := "";
                        Collection.item_count := 1;
                        Collection.created_at := "2025-01-01T00:00:00" |}];
                  HomeScreen.loading := false; HomeScreen.refreshing := false |} in
  HomeScreen.collections
    (HomeScreen.onRefresh unit (answering (Api.Rejected Api.noResponse)) shown tt).1.1
  = HomeScreen.collections shown.
Proof.
  cbv zeta.
  destruct fetch_failure_keeps_data as (Hhome & _).
  eapply (Hhome unit (answering (Api.Rejected Api.noResponse))). reflexivity.
Defined.

Lemma share_message_carries_code_witness :
  (CollectionDetailScreenLoad.handleShare "c1" unit
     (fun _ => answering (Api.Resolved "AB12CD34"))
     CollectionDetailScreenLoad.initial true tt).2
  = Some "Check out my undefined collection! Use code: AB12CD34".
Proof.
  apply (share_message_carries_code "c1" unit
           (fun _ => answering (Api.Resolved "AB12CD34"))
           CollectionDetailScreenLoad.initial true tt).
  reflexivity.
Defined.
